(** * Payment settlement and order fulfilment of the store back end

    A shallow embedding of [backend/src/routes/payment.js],
    [backend/src/routes/orders.js], [backend/src/utils/transactions.js] and
    of the Mongoose models they use, followed by the properties of the
    settlement engine.

    Conventions of the embedding.
    - A collection whose documents are never physically removed (orders,
      payment ledger) is a list in insertion order; the [_id] of a document
      is its position.  Products, carts and users are finite maps indexed
      by their id.
    - A JavaScript string that may be [undefined] is an [option string];
      the empty string and [None] are the falsy values.
    - Amounts, prices, quantities and stock are integer-valued Numbers, so
      they are [Z]; 0 is the falsy number.
    - Timestamps ([stockReducedAt], history timestamps) are not modelled.
    - Handlers run one at a time: each is a function from the store to a
      response and a new store.  A thrown exception keeps the writes made
      before it, except inside [withTransaction]. *)

From Stdlib Require Import ZArith String Ascii.
From stdpp Require Import base option gmap list strings pretty sorting.

Local Open Scope string_scope.

(** ** JavaScript values *)

Module Js.

(** [!!x] for a string that may be undefined. *)
Definition truthy (x : option string) : bool :=
  match x with
  | Some s => negb (String.eqb s "")
  | None => false
  end.

(** [x || d] on strings. *)
Definition or_str (x : option string) (d : string) : string :=
  match x with
  | Some s => if String.eqb s "" then d else s
  | None => d
  end.

(** [x || y] where both sides may be undefined. *)
Definition or_opt (x y : option string) : option string :=
  if truthy x then x else y.

(** [x || d] on numbers. *)
Definition or_num (x d : Z) : Z := if Z.eqb x 0 then d else x.

(** A value inside a template literal. *)
Definition template (x : option string) : string := default "undefined" x.

(** [s.padStart(n, '0')] *)
Fixpoint zeros (n : nat) : string :=
  match n with
  | O => ""
  | S k => String "0" (zeros k)
  end.

Definition padStart0 (n : nat) (s : string) : string :=
  zeros (n - String.length s) ++ s.

End Js.

(** ** Models *)

(** A shipping address as a request or an order carries it, and as the
    user profile stores it. *)
Module Address.
Record t := mk {
  fullName : option string;
  name : option string;
  phone : option string;
  houseNo : option string;
  street : option string;
  landmark : option string;
  city : option string;
  state : option string;
  pincode : option string
}.

Definition empty : t := mk None None None None None None None None None.

(** The address as an order stores it: [name] is no path of
    [shippingAddress] in models/Order.js, and a document keeps the paths
    of its schema only. *)
Definition stored (a : t) : t :=
  mk (fullName a) None (phone a) (houseNo a) (street a) (landmark a)
     (city a) (state a) (pincode a).
End Address.

Module SavedAddress.
Record t := mk {
  label : string;
  fullName : string;
  phone : string;
  houseNo : string;
  street : string;
  landmark : string;
  city : string;
  state : string;
  pincode : string;
  isDefault : bool
}.
End SavedAddress.

(** models/Product.js *)
Module Product.
Record t := mk {
  name : string;
  price : Z;
  stock : Z
}.

Definition set_stock (p : t) (n : Z) : t := mk (name p) (price p) n.
End Product.

(** What the [product] field of a line item of a cart or of a request
    holds: a demo id (a string starting with [demo-]), a catalogue id, or
    nothing. *)
Inductive ItemRef :=
| RefDemo (s : string)
| RefProduct (p : nat)
| RefNone.

(** What a request sends where the [_id] of a document is expected: an
    id, or a value that does not cast to an [ObjectId]. *)
Inductive IdArg :=
| IdOf (id : nat)
| IdMalformed.

(** models/Cart.js, one line. *)
Module CartItem.
Record t := mk {
  product : ItemRef;
  name : option string;
  price : Z;
  quantity : Z
}.
End CartItem.

(** models/Order.js, one line of [items]. *)
Module OrderItem.
Record t := mk {
  product : option nat;
  name : option string;
  price : Z;
  quantity : Z
}.
End OrderItem.

Module HistoryEntry.
Record t := mk {
  status : string;
  note : string
}.
End HistoryEntry.

(** models/Order.js *)
Module Order.
Record t := mk {
  user : nat;
  orderNumber : string;
  items : list OrderItem.t;
  totalAmount : Z;
  shippingCharge : Z;
  status : string;
  paymentMethod : string;
  paymentStatus : string;
  paymentId : option string;
  razorpayOrderId : option string;
  razorpaySignature : option string;
  shippingAddress : Address.t;
  stockReduced : bool;
  invoicePath : option string;
  invoiceUrl : option string;
  statusHistory : list HistoryEntry.t
}.

Definition statusEnum : list string :=
  ["CREATED"; "PENDING"; "PAID"; "PLACED"; "SHIPPED"; "DELIVERED"; "CANCELLED"].
Definition paymentMethodEnum : list string :=
  ["COD"; "Razorpay"; "UPI"; "Card"; "NetBanking"; "Wallet"; "Pending"].
Definition paymentStatusEnum : list string :=
  ["Pending"; "Paid"; "Failed"; "Refunded"].

Definition set_orderNumber (o : t) (v : string) : t :=
  mk (user o) v (items o) (totalAmount o) (shippingCharge o) (status o)
     (paymentMethod o) (paymentStatus o) (paymentId o) (razorpayOrderId o)
     (razorpaySignature o) (shippingAddress o) (stockReduced o)
     (invoicePath o) (invoiceUrl o) (statusHistory o).

Definition set_status (o : t) (v : string) : t :=
  mk (user o) (orderNumber o) (items o) (totalAmount o) (shippingCharge o) v
     (paymentMethod o) (paymentStatus o) (paymentId o) (razorpayOrderId o)
     (razorpaySignature o) (shippingAddress o) (stockReduced o)
     (invoicePath o) (invoiceUrl o) (statusHistory o).

Definition set_paymentMethod (o : t) (v : string) : t :=
  mk (user o) (orderNumber o) (items o) (totalAmount o) (shippingCharge o)
     (status o) v (paymentStatus o) (paymentId o) (razorpayOrderId o)
     (razorpaySignature o) (shippingAddress o) (stockReduced o)
     (invoicePath o) (invoiceUrl o) (statusHistory o).

Definition set_paymentStatus (o : t) (v : string) : t :=
  mk (user o) (orderNumber o) (items o) (totalAmount o) (shippingCharge o)
     (status o) (paymentMethod o) v (paymentId o) (razorpayOrderId o)
     (razorpaySignature o) (shippingAddress o) (stockReduced o)
     (invoicePath o) (invoiceUrl o) (statusHistory o).

Definition set_paymentId (o : t) (v : option string) : t :=
  mk (user o) (orderNumber o) (items o) (totalAmount o) (shippingCharge o)
     (status o) (paymentMethod o) (paymentStatus o) v (razorpayOrderId o)
     (razorpaySignature o) (shippingAddress o) (stockReduced o)
     (invoicePath o) (invoiceUrl o) (statusHistory o).

Definition set_razorpayOrderId (o : t) (v : option string) : t :=
  mk (user o) (orderNumber o) (items o) (totalAmount o) (shippingCharge o)
     (status o) (paymentMethod o) (paymentStatus o) (paymentId o) v
     (razorpaySignature o) (shippingAddress o) (stockReduced o)
     (invoicePath o) (invoiceUrl o) (statusHistory o).

Definition set_razorpaySignature (o : t) (v : option string) : t :=
  mk (user o) (orderNumber o) (items o) (totalAmount o) (shippingCharge o)
     (status o) (paymentMethod o) (paymentStatus o) (paymentId o)
     (razorpayOrderId o) v (shippingAddress o) (stockReduced o)
     (invoicePath o) (invoiceUrl o) (statusHistory o).

Definition set_stockReduced (o : t) (v : bool) : t :=
  mk (user o) (orderNumber o) (items o) (totalAmount o) (shippingCharge o)
     (status o) (paymentMethod o) (paymentStatus o) (paymentId o)
     (razorpayOrderId o) (razorpaySignature o) (shippingAddress o) v
     (invoicePath o) (invoiceUrl o) (statusHistory o).

Definition set_invoice (o : t) (path url : option string) : t :=
  mk (user o) (orderNumber o) (items o) (totalAmount o) (shippingCharge o)
     (status o) (paymentMethod o) (paymentStatus o) (paymentId o)
     (razorpayOrderId o) (razorpaySignature o) (shippingAddress o)
     (stockReduced o) path url (statusHistory o).

(** [order.statusHistory.push({ status, note })] *)
Definition push_history (o : t) (st note : string) : t :=
  mk (user o) (orderNumber o) (items o) (totalAmount o) (shippingCharge o)
     (status o) (paymentMethod o) (paymentStatus o) (paymentId o)
     (razorpayOrderId o) (razorpaySignature o) (shippingAddress o)
     (stockReduced o) (invoicePath o) (invoiceUrl o)
     (statusHistory o ++ [HistoryEntry.mk st note])%list.
End Order.

(** models/Payment.js *)
Module Payment.
Record t := mk {
  razorpayPaymentId : option string;
  razorpayOrderId : option string;
  razorpaySignature : option string;
  order : option nat;
  user : option nat;
  amount : Z;
  method : string;
  status : string;
  notes : option string
}.

Definition methodEnum : list string :=
  ["UPI"; "Card"; "NetBanking"; "Wallet"; "COD"; "Unknown"].
Definition statusEnum : list string :=
  ["CREATED"; "PENDING"; "PAID"; "FAILED"; "REFUNDED"; "CANCELLED"].
End Payment.

(** ** The store *)

Record Store := mkStore {
  orders : list Order.t;
  payments : list Payment.t;
  products : gmap nat Product.t;
  carts : gmap nat (list CartItem.t);
  users : gmap nat (list SavedAddress.t)
}.

Definition set_orders (s : Store) (v : list Order.t) : Store :=
  mkStore v (payments s) (products s) (carts s) (users s).
Definition set_payments (s : Store) (v : list Payment.t) : Store :=
  mkStore (orders s) v (products s) (carts s) (users s).
Definition set_products (s : Store) (v : gmap nat Product.t) : Store :=
  mkStore (orders s) (payments s) v (carts s) (users s).
Definition set_carts (s : Store) (v : gmap nat (list CartItem.t)) : Store :=
  mkStore (orders s) (payments s) (products s) v (users s).
Definition set_users (s : Store) (v : gmap nat (list SavedAddress.t)) : Store :=
  mkStore (orders s) (payments s) (products s) (carts s) v.

(** ** Exceptions and the store monad *)

Inductive Err :=
| Error (message : string)               (* [throw new Error(message)] *)
| DuplicateKey (keyPattern : string)     (* code 11000 *)
| ValidationError (path : string)        (* a schema validator refused [path] *)
| CastError (path : string)              (* a query value does not cast to [path] *)
| DocumentNotFound                       (* saving a document that is not stored *)
| StorageError (code : nat) (transientLabel : bool)
| InvoiceError.                          (* the invoice generator threw *)

Definition DB (A : Type) : Type := Store → (Err + A) * Store.

Definition ret {A} (a : A) : DB A := λ s, (inr a, s).
Definition throw {A} (e : Err) : DB A := λ s, (inl e, s).
Definition bind {A B} (m : DB A) (k : A → DB B) : DB B :=
  λ s, match m s with
       | (inr a, s') => k a s'
       | (inl e, s') => (inl e, s')
       end.
Definition gets {A} (f : Store → A) : DB A := λ s, (inr (f s), s).
Definition modify (f : Store → Store) : DB unit := λ s, (inr tt, f s).

(** [try { m } catch (e) { h e }] *)
Definition try_catch {A} (m : DB A) (h : Err → DB A) : DB A :=
  λ s, match m s with
       | (inr a, s') => (inr a, s')
       | (inl e, s') => h e s'
       end.

Declare Scope db_scope.
Delimit Scope db_scope with db.
Notation "'do' x <- m ; k" := (bind m (λ x, k))
  (at level 10, x name, m at level 100, k at level 200) : db_scope.
Notation "'do' ' p <- m ; k" := (bind m (λ x, match x with p => k end))
  (at level 10, p pattern, m at level 100, k at level 200) : db_scope.
Notation "m ;; k" := (bind m (λ _, k))
  (at level 100, k at level 200, right associativity) : db_scope.
Local Open Scope db_scope.

(** A document in memory: its [_id] and its fields. *)
Abbreviation OrderDoc := (nat * Order.t)%type.

(** ** Collections *)

(** [enum] validator of a String path. *)
Definition in_enum (v : string) (enum : list string) : bool :=
  bool_decide (v ∈ enum).

(** *** Orders (models/Order.js) *)

(** The [pre('save')] hook: an order without a number takes
    [TCS] followed by (countDocuments() + 1) padded to six digits. *)
Definition orderNumber_for (count : nat) : string :=
  "TCS" ++ Js.padStart0 6 (pretty (S count)).

Definition assign_orderNumber (count : nat) (o : Order.t) : Order.t :=
  if String.eqb (Order.orderNumber o) ""
  then Order.set_orderNumber o (orderNumber_for count)
  else o.

(** Unique index on [orderNumber]; unique sparse index on [paymentId].
    The indexes the schemas declare are taken to be in place in the
    collections.  The connection builds them itself when [NODE_ENV] is not
    [production] ([autoIndex]); a production database has them only if it
    was given them. *)
Definition clash_orderNumber (o o' : Order.t) : bool :=
  String.eqb (Order.orderNumber o) (Order.orderNumber o').

Definition clash_paymentId (o o' : Order.t) : bool :=
  match Order.paymentId o with
  | Some pid => bool_decide (Order.paymentId o' = Some pid)
  | None => false
  end.

(** Index check of an insertion: the new document against every stored
    one. *)
Definition order_index_error (o : Order.t) (l : list Order.t) : option Err :=
  if existsb (clash_orderNumber o) l then Some (DuplicateKey "orderNumber")
  else if existsb (clash_paymentId o) l then Some (DuplicateKey "paymentId")
  else None.

(** Index check of an update of document [id]: an index is written only
    when its key is modified, and then compared with the other documents. *)
Definition others (id : nat) (l : list Order.t) : list Order.t := delete id l.

Definition order_index_error_update (id : nat) (old o : Order.t)
    (l : list Order.t) : option Err :=
  if negb (String.eqb (Order.orderNumber old) (Order.orderNumber o))
     && existsb (clash_orderNumber o) (others id l)
  then Some (DuplicateKey "orderNumber")
  else if negb (bool_decide (Order.paymentId old = Order.paymentId o))
          && existsb (clash_paymentId o) (others id l)
  then Some (DuplicateKey "paymentId")
  else None.

(** Validation of a document on [save()]: every enum path, of a new
    document and of a loaded one alike (the paths a document was loaded
    with are validated again, modified or not). *)
Definition order_invalid (o : Order.t) : option Err :=
  if negb (in_enum (Order.status o) Order.statusEnum)
  then Some (ValidationError "status")
  else if negb (in_enum (Order.paymentMethod o) Order.paymentMethodEnum)
  then Some (ValidationError "paymentMethod")
  else if negb (in_enum (Order.paymentStatus o) Order.paymentStatusEnum)
  then Some (ValidationError "paymentStatus")
  else None.

(** [new Order({...}).save()] and [Order.create({...})] *)
Definition insertOrder (o : Order.t) : DB OrderDoc :=
  λ s,
    let id := length (orders s) in
    match order_invalid o with
    | Some e => (inl e, s)
    | None =>
        let o' := assign_orderNumber (length (orders s)) o in
        match order_index_error o' (orders s) with
        | Some e => (inl e, s)
        | None => (inr (id, o'), set_orders s (orders s ++ [o'])%list)
        end
    end.

(** [order.save()] on a document that was loaded or already saved. *)
Definition saveOrder (d : OrderDoc) : DB OrderDoc :=
  λ s,
    let '(id, o) := d in
    match orders s !! id with
    | None => (inl DocumentNotFound, s)
    | Some old =>
        match order_invalid o with
        | Some e => (inl e, s)
        | None =>
            let o' := assign_orderNumber (length (orders s)) o in
            match order_index_error_update id old o' (orders s) with
            | Some e => (inl e, s)
            | None => (inr (id, o'), set_orders s (<[id := o']> (orders s)))
            end
        end
    end.

(** [Order.findById(id)] *)
Definition Order_findById (id : nat) : DB (option OrderDoc) :=
  gets (λ s, (λ o, (id, o)) <$> orders s !! id).

(** [Order.findById(v)] on a value of a request: nothing finds nothing,
    a value that does not cast to an [ObjectId] throws. *)
Definition Order_findByArg (v : option IdArg) : DB (option OrderDoc) :=
  match v with
  | Some (IdOf id) => Order_findById id
  | Some IdMalformed => throw (CastError "_id")
  | None => ret None
  end.

(** [Order.findOne({ paymentId, paymentStatus: 'Paid' })] *)
Definition Order_findOne_paid (paymentId : option string) : DB (option OrderDoc) :=
  gets (λ s, list_find
               (λ o, Order.paymentId o = paymentId ∧ Order.paymentStatus o = "Paid")
               (orders s)).

(** [Order.findOne({ paymentId })] *)
Definition Order_findOne_paymentId (paymentId : option string)
  : DB (option OrderDoc) :=
  gets (λ s, list_find (λ o, Order.paymentId o = paymentId) (orders s)).

(** *** Payment ledger (models/Payment.js) *)

Definition payment_invalid (p : Payment.t) : option Err :=
  if negb (in_enum (Payment.method p) Payment.methodEnum)
  then Some (ValidationError "method")
  else if negb (in_enum (Payment.status p) Payment.statusEnum)
  then Some (ValidationError "status")
  else None.

(** Unique sparse index on [razorpayPaymentId]. *)
Definition clash_razorpayPaymentId (p p' : Payment.t) : bool :=
  match Payment.razorpayPaymentId p with
  | Some pid => bool_decide (Payment.razorpayPaymentId p' = Some pid)
  | None => false
  end.

(** [new Payment({...}).save()] *)
Definition insertPayment (p : Payment.t) : DB Payment.t :=
  λ s,
    match payment_invalid p with
    | Some e => (inl e, s)
    | None =>
        if existsb (clash_razorpayPaymentId p) (payments s)
        then (inl (DuplicateKey "razorpayPaymentId"), s)
        else (inr p, set_payments s (payments s ++ [p])%list)
    end.

(** *** Products *)

(** [Product.findById(id)] *)
Definition Product_findById (id : nat) : DB (option Product.t) :=
  gets (λ s, products s !! id).

(** [product.stock = n; product.save()]; the [min: 0] validator of
    [stock] refuses a negative value. *)
Definition saveProductStock (id : nat) (p : Product.t) (n : Z) : DB unit :=
  if (n <? 0)%Z then throw (ValidationError "stock")
  else modify (λ s, set_products s (<[id := Product.set_stock p n]> (products s))).

(** [Product.updateOne({ _id: id, stock: { $gte: q } }, { $inc: { stock: -q } })];
    returns [modifiedCount]. *)
Definition Product_decrementIfEnough (id : nat) (q : Z) : DB nat :=
  λ s,
    match products s !! id with
    | Some p =>
        if (q <=? Product.stock p)%Z
        then (inr (if (q =? 0)%Z then 0 else 1),
              set_products s
                (<[id := Product.set_stock p (Product.stock p - q)]> (products s)))
        else (inr 0, s)
    | None => (inr 0, s)
    end.

(** [Product.updateOne({ _id: id }, { $inc: { stock: q } })] *)
Definition Product_increment (id : nat) (q : Z) : DB unit :=
  λ s,
    match products s !! id with
    | Some p =>
        (inr tt,
         set_products s
           (<[id := Product.set_stock p (Product.stock p + q)]> (products s)))
    | None => (inr tt, s)
    end.

(** ** Collaborators outside the engine *)

(** The environment of the process: the secrets of [process.env], the
    keyed hash of the [crypto] module and the invoice generator of
    [controllers/pdfController], which returns the invoice path and url or
    throws.  The SMS service is called inside [try]/[catch] after the last
    write of every handler and leaves no trace in the model. *)
Record Env := mkEnv {
  RAZORPAY_KEY_SECRET : option string;
  RAZORPAY_WEBHOOK_SECRET : option string;
  (** [crypto.createHmac('sha256', key).update(msg).digest('hex')] *)
  hmac_sha256_hex : string → string → string;
  generateAndSaveInvoice : OrderDoc → option (option string * option string)
}.

(** [process.env.RAZORPAY_KEY_SECRET || 'placeholder'] *)
Definition key_secret (env : Env) : string :=
  Js.or_str (RAZORPAY_KEY_SECRET env) "placeholder".

(** The keyed hash of the canonical string [orderId|paymentId]. *)
Definition expectedSignature (env : Env)
    (razorpay_order_id razorpay_payment_id : option string) : string :=
  hmac_sha256_hex env (key_secret env)
    (Js.template razorpay_order_id ++ "|" ++ Js.template razorpay_payment_id).

Definition invoiceFor (env : Env) (order : OrderDoc)
  : DB (option string * option string) :=
  match generateAndSaveInvoice env order with
  | Some inv => ret inv
  | None => throw InvoiceError
  end.

(** ** routes/payment.js: helpers *)

(** One turn of the loop of [reduceStockAfterPayment]. *)
Definition reduceStock_item (item : OrderItem.t) : DB unit :=
  match OrderItem.product item with
  | Some pid =>
      do product <- Product_findById pid;
      match product with
      | Some p =>
          let newStock :=
            Z.max 0 (Product.stock p - Js.or_num (OrderItem.quantity item) 1) in
          saveProductStock pid p newStock
      | None => ret tt
      end
  | None => ret tt
  end.

Fixpoint reduceStock_items (items : list OrderItem.t) : DB unit :=
  match items with
  | [] => ret tt
  | item :: rest => reduceStock_item item ;; reduceStock_items rest
  end.

(** [reduceStockAfterPayment(order)]: the result and the document as the
    caller holds it afterwards. *)
Definition reduceStockAfterPayment (order : OrderDoc) : DB (bool * OrderDoc) :=
  if Order.stockReduced order.2 then ret (false, order)
  else
    let marked := (order.1, Order.set_stockReduced order.2 true) in
    try_catch
      (reduceStock_items (Order.items order.2) ;;
       try_catch
         (do saved <- saveOrder marked; ret (true, saved))
         (λ _, ret (false, marked)))
      (λ _, ret (false, order)).

Module PaymentData.
Record t := mk {
  paymentId : option string;
  razorpayOrderId : option string;
  razorpaySignature : option string;
  orderId : option IdArg;
  userId : nat;
  amount : Z;
  method : option string;
  status : option string;
  notes : option string
}.
End PaymentData.

(** A path of type [ObjectId] of a new document: a value that does not
    cast to one fails the validation of [save()]. *)
Definition cast_ObjectId (path : string) (v : option IdArg) : DB (option nat) :=
  match v with
  | None => ret None
  | Some (IdOf id) => ret (Some id)
  | Some IdMalformed => throw (ValidationError path)
  end.

(** The document [createPaymentRecord] builds, with its [order] path
    cast. *)
Definition payment_record (paymentData : PaymentData.t) (order : option nat)
  : Payment.t :=
  Payment.mk
    (PaymentData.paymentId paymentData)
    (PaymentData.razorpayOrderId paymentData)
    (PaymentData.razorpaySignature paymentData)
    order
    (Some (PaymentData.userId paymentData))
    (PaymentData.amount paymentData)
    (Js.or_str (PaymentData.method paymentData) "UPI")
    (Js.or_str (PaymentData.status paymentData) "PAID")
    (PaymentData.notes paymentData).

(** [createPaymentRecord(paymentData)]: every exception is caught. *)
Definition createPaymentRecord (paymentData : PaymentData.t)
  : DB (option Payment.t) :=
  try_catch
    (do order <- cast_ObjectId "order" (PaymentData.orderId paymentData);
     do payment <- insertPayment (payment_record paymentData order);
     ret (Some payment))
    (λ _, ret None).

(** The entry [saveAddressToUserOnPaymentSuccess] pushes. *)
Definition address_entry (a : Address.t) (first : bool) : SavedAddress.t :=
  SavedAddress.mk "Home"
    (Js.or_str (Js.or_opt (Address.fullName a) (Address.name a)) "")
    (Js.or_str (Address.phone a) "")
    (Js.or_str (Address.houseNo a) "")
    (Js.or_str (Address.street a) "")
    (Js.or_str (Address.landmark a) "")
    (Js.or_str (Address.city a) "")
    (Js.or_str (Address.state a) "")
    (Js.or_str (Address.pincode a) "")
    first.

Definition same_address (a : Address.t) (saved : SavedAddress.t) : bool :=
  bool_decide (Some (SavedAddress.pincode saved) = Address.pincode a)
  && bool_decide (Some (SavedAddress.houseNo saved) = Address.houseNo a).

(** [saveAddressToUserOnPaymentSuccess(userId, shippingAddress)] *)
Definition saveAddressToUserOnPaymentSuccess
    (userId : nat) (shippingAddress : option Address.t) : DB unit :=
  match shippingAddress with
  | None => ret tt
  | Some a =>
      if negb (Js.truthy (Address.pincode a)) then ret tt
      else
        try_catch
          (do user <- gets (λ s, users s !! userId);
           match user with
           | None => ret tt
           | Some addresses =>
               if existsb (same_address a) addresses then ret tt
               else
                 modify (λ s, set_users s
                   (<[userId :=
                        (addresses ++
                         [address_entry a (bool_decide (length addresses = 0))])%list]>
                      (users s)))
           end)
          (λ _, ret tt)
  end.

(** [isPaymentAlreadyProcessed(paymentId)] *)
Definition isPaymentAlreadyProcessed (paymentId : option string) : DB bool :=
  if negb (Js.truthy paymentId) then ret false
  else
    do existingOrder <- Order_findOne_paid paymentId;
    ret (bool_decide (is_Some existingOrder)).

Module PaymentDetails.
Record t := mk {
  paymentId : option string;
  razorpayOrderId : option string;
  razorpaySignature : option string;
  paymentMethod : option string;
  shippingAddress : option Address.t
}.
End PaymentDetails.

(** [totalAmount > 999 ? 0 : 49] *)
Definition shippingCharge (totalAmount : Z) : Z :=
  if (totalAmount >? 999)%Z then 0%Z else 49%Z.

(** The loop of [createOrderFromCart] over the lines of the cart, whose
    price and quantity are numbers by the schema of the cart
    (models/Cart.js); [router.post('/')] runs the same loop over the lines
    of its request. *)
Fixpoint enrichItems (items : list CartItem.t)
    (enrichedItems : list OrderItem.t) (totalAmount : Z)
  : DB (list OrderItem.t * Z) :=
  match items with
  | [] => ret (enrichedItems, totalAmount)
  | item :: rest =>
      let quantity := Js.or_num (CartItem.quantity item) 1 in
      match CartItem.product item with
      | RefProduct pid =>
          do product <- Product_findById pid;
          match product with
          | None => throw (Error ("Product not found: " ++ pretty pid))
          | Some p =>
              let price := Js.or_num (CartItem.price item) (Product.price p) in
              enrichItems rest
                (enrichedItems ++
                 [OrderItem.mk (Some pid)
                    (Some (Js.or_str (CartItem.name item) (Product.name p)))
                    price quantity])%list
                (totalAmount + price * quantity)
          end
      | RefDemo _ | RefNone =>
          enrichItems rest
            (enrichedItems ++
             [OrderItem.mk None (CartItem.name item) (CartItem.price item) quantity])%list
            (totalAmount + CartItem.price item * quantity)
      end
  end.

(** [Cart.findOneAndUpdate({ user }, { items: [] })] *)
Definition clearCart (userId : nat) : DB unit :=
  modify (λ s, set_carts s (alter (λ _, []) userId (carts s))).

(** [createOrderFromCart(userId, paymentDetails)] *)
Definition createOrderFromCart (env : Env) (userId : nat)
    (paymentDetails : PaymentDetails.t) : DB OrderDoc :=
  do cart <- gets (λ s, carts s !! userId);
  match cart with
  | None | Some [] => throw (Error "Cart is empty")
  | Some items =>
      do '(enrichedItems, subtotal) <- enrichItems items [] 0%Z;
      let shipping := shippingCharge subtotal in
      let totalAmount := (subtotal + shipping)%Z in
      do order <- insertOrder
        (Order.mk userId "" enrichedItems totalAmount shipping
           "PAID"
           (Js.or_str (PaymentDetails.paymentMethod paymentDetails) "Razorpay")
           "Paid"
           (PaymentDetails.paymentId paymentDetails)
           (PaymentDetails.razorpayOrderId paymentDetails)
           (PaymentDetails.razorpaySignature paymentDetails)
           (Address.stored
              (default Address.empty (PaymentDetails.shippingAddress paymentDetails)))
           false None None
           [HistoryEntry.mk "PAID" "Order created after payment verification"]);
      do '(_, order) <- reduceStockAfterPayment order;
      createPaymentRecord
        (PaymentData.mk
           (PaymentDetails.paymentId paymentDetails)
           (PaymentDetails.razorpayOrderId paymentDetails)
           (PaymentDetails.razorpaySignature paymentDetails)
           (Some (IdOf order.1)) userId totalAmount
           (Some (if bool_decide
                       (PaymentDetails.paymentMethod paymentDetails = Some "UPI")
                  then "UPI" else "Card"))
           (Some "PAID") None) ;;
      do invoiceData <- invoiceFor env order;
      do order <- saveOrder
        (order.1, Order.set_invoice order.2 invoiceData.1 invoiceData.2);
      clearCart userId ;;
      ret order
  end.

(** ** Responses *)

Inductive Response :=
| RSuccess (message : string) (orderId : nat) (orderNumber : string)
    (* 200 [{ success: true, message, orderId, orderNumber }] *)
| RFail (code : nat) (message : string)
    (* [res.status(code).json({ success: false, message })] or [{ message }] *)
| RThrown (e : Err)
    (* the handler's [catch]: 500 [{ message: err.message }] *)
| RReceived (status : option string)
    (* webhook: [{ received: true }] or [{ received: true, status }] *)
| ROrder (code : nat) (order : OrderDoc)
    (* [res.status(code).json(order)] *)
| RCancelled (order : OrderDoc)
    (* [{ message: 'Order cancelled successfully', order }] *)
| RUpiOrder (id currency : option string) (amount : Z).
    (* [{ id, currency, amount, upiId }] *)

(** The order number a response tells the caller, if any. *)
Definition response_orderNumber (r : Response) : option string :=
  match r with
  | RSuccess _ _ n => Some n
  | _ => None
  end.

(** The failures the specification names. *)
Definition InvalidSignature : Response := RFail 400 "Invalid payment signature".
Definition CODLimitExceeded : Response :=
  RFail 400 "COD is only available for orders up to ₹5,000".
Definition OrderNotFound : Response := RFail 404 "Order not found".
Definition Unauthorized : Response := RFail 403 "Unauthorized".
Definition IllegalTransition : Response :=
  RFail 400 "Cannot cancel order that has been shipped or delivered".

(** A handler body inside [try { ... } catch (err) { res.status(500)... }]. *)
Definition handler (body : DB Response) : Store → Response * Store :=
  λ s, match body s with
       | (inr r, s') => (r, s')
       | (inl e, s') => (RThrown e, s')
       end.

(** The response for an order that is known to exist:
    [existingOrder._id.toString()] throws on [null]. *)
Definition respond_existing (message : string) (existingOrder : option OrderDoc)
  : DB Response :=
  match existingOrder with
  | Some o => ret (RSuccess message o.1 (Order.orderNumber o.2))
  | None => throw (Error "Cannot read properties of null")
  end.

(** ** routes/payment.js: handlers *)

Module VerifyReq.
Record t := mk {
  razorpay_order_id : option string;
  razorpay_payment_id : option string;
  razorpay_signature : option string;
  shippingAddress : option Address.t
}.
End VerifyReq.

(** [router.post('/verify', protect, ...)]; [user] is [req.user._id]. *)
Definition verify (env : Env) (user : nat) (req : VerifyReq.t)
  : Store → Response * Store :=
  handler
    (do processed <- isPaymentAlreadyProcessed (VerifyReq.razorpay_payment_id req);
     if processed then
       do existingOrder <- Order_findOne_paymentId (VerifyReq.razorpay_payment_id req);
       respond_existing "Payment already processed" existingOrder
     else if negb (bool_decide
                     (Some (expectedSignature env
                              (VerifyReq.razorpay_order_id req)
                              (VerifyReq.razorpay_payment_id req))
                      = VerifyReq.razorpay_signature req))
     then ret InvalidSignature
     else
       do order <- createOrderFromCart env user
         (PaymentDetails.mk
            (VerifyReq.razorpay_payment_id req)
            (VerifyReq.razorpay_order_id req)
            (VerifyReq.razorpay_signature req)
            (Some "Razorpay")
            (VerifyReq.shippingAddress req));
       saveAddressToUserOnPaymentSuccess user (VerifyReq.shippingAddress req) ;;
       ret (RSuccess "Payment verified & order created"
              order.1 (Order.orderNumber order.2))).

(** The invoice step of [/cod] and [/verify-upi], inside its own
    [try]/[catch]. *)
Definition attachInvoice (env : Env) (order : OrderDoc) : DB OrderDoc :=
  try_catch
    (do invoiceData <- invoiceFor env order;
     saveOrder (order.1, Order.set_invoice order.2 invoiceData.1 invoiceData.2))
    (λ _, ret order).

(** [router.post('/cod', protect, ...)] *)
Definition cod (env : Env) (user : nat) (orderId : option nat)
  : Store → Response * Store :=
  handler
    (match orderId with
     | None => ret (RFail 400 "Order ID is required")
     | Some id =>
         do found <- Order_findById id;
         match found with
         | None => ret OrderNotFound
         | Some order =>
             if negb (bool_decide (Order.user order.2 = user)) then ret Unauthorized
             else if (Order.totalAmount order.2 >? 5000)%Z then ret CODLimitExceeded
             else
               let order :=
                 (order.1,
                  Order.push_history
                    (Order.set_status
                       (Order.set_paymentStatus
                          (Order.set_paymentMethod order.2 "COD") "Pending")
                       "PLACED")
                    "PLACED" "Cash on Delivery order placed") in
               do order <- saveOrder order;
               do order <- attachInvoice env order;
               saveAddressToUserOnPaymentSuccess user
                 (Some (Order.shippingAddress order.2)) ;;
               clearCart user ;;
               ret (RSuccess "COD order placed successfully"
                      order.1 (Order.orderNumber order.2))
         end
     end).

(** What [getRazorpay().orders.create(options)] answers.  The gateway is
    outside the engine; its answer comes with the call. *)
Module RazorpayOrder.
Record t := mk {
  id : option string;
  currency : option string;
  amount : Z
}.
End RazorpayOrder.

(** [router.post('/create-upi-order', protect, ...)], for the [orderId] of
    the body and the answer of the gateway, [inl message] when the call to
    it throws.  The UPI id of the settings is no part of the store, and
    [order.upiId] none of the order as it is modelled. *)
Definition create_upi_order (user : nat) (orderId : option IdArg)
    (razorpayOrder : string + RazorpayOrder.t) : Store → Response * Store :=
  handler
    (do found <- Order_findByArg orderId;
     match found with
     | None => ret OrderNotFound
     | Some order =>
         if negb (bool_decide (Order.user order.2 = user))
         then ret (RFail 403 "Access denied")
         else
           match razorpayOrder with
           | inl message => throw (Error message)
           | inr razorpayOrder =>
               let order :=
                 (order.1,
                  Order.set_razorpayOrderId order.2
                    (RazorpayOrder.id razorpayOrder)) in
               saveOrder order ;;
               ret (RUpiOrder (RazorpayOrder.id razorpayOrder)
                      (RazorpayOrder.currency razorpayOrder)
                      (RazorpayOrder.amount razorpayOrder))
           end
     end).

Module VerifyUpiReq.
Record t := mk {
  razorpay_order_id : option string;
  razorpay_payment_id : option string;
  razorpay_signature : option string;
  orderId : option IdArg
}.
End VerifyUpiReq.

(** [router.post('/verify-upi', protect, ...)] *)
Definition verify_upi (env : Env) (user : nat) (req : VerifyUpiReq.t)
  : Store → Response * Store :=
  handler
    (do processed <- isPaymentAlreadyProcessed (VerifyUpiReq.razorpay_payment_id req);
     if processed then
       do existingOrder <-
         Order_findOne_paymentId (VerifyUpiReq.razorpay_payment_id req);
       respond_existing "Payment already verified" existingOrder
     else if negb (bool_decide
                     (Some (expectedSignature env
                              (VerifyUpiReq.razorpay_order_id req)
                              (VerifyUpiReq.razorpay_payment_id req))
                      = VerifyUpiReq.razorpay_signature req))
     then
       createPaymentRecord
         (PaymentData.mk
            (VerifyUpiReq.razorpay_payment_id req)
            (VerifyUpiReq.razorpay_order_id req)
            None
            (VerifyUpiReq.orderId req) user 0%Z
            None (Some "FAILED") (Some "Invalid signature")) ;;
       ret InvalidSignature
     else
       do found <- Order_findByArg (VerifyUpiReq.orderId req);
       match found with
       | None => ret OrderNotFound
       | Some order =>
           if bool_decide (Order.paymentStatus order.2 = "Paid")
           then ret (RSuccess "Order already paid"
                       order.1 (Order.orderNumber order.2))
           else
             let order :=
               (order.1,
                Order.push_history
                  (Order.set_status
                     (Order.set_paymentMethod
                        (Order.set_razorpaySignature
                           (Order.set_paymentId
                              (Order.set_paymentStatus order.2 "Paid")
                              (VerifyUpiReq.razorpay_payment_id req))
                           (VerifyUpiReq.razorpay_signature req))
                        "UPI")
                     "PAID")
                  "PAID" "Payment verified via Razorpay UPI") in
             do order <- saveOrder order;
             do '(_, order) <- reduceStockAfterPayment order;
             createPaymentRecord
               (PaymentData.mk
                  (VerifyUpiReq.razorpay_payment_id req)
                  (VerifyUpiReq.razorpay_order_id req)
                  (VerifyUpiReq.razorpay_signature req)
                  (Some (IdOf order.1)) user (Order.totalAmount order.2)
                  (Some "UPI") (Some "PAID") None) ;;
             saveAddressToUserOnPaymentSuccess user
               (Some (Order.shippingAddress order.2)) ;;
             do order <- attachInvoice env order;
             ret (RSuccess "Payment verified successfully"
                    order.1 (Order.orderNumber order.2))
       end).

(** The body of a webhook delivery: the signature header, the serialised
    body the signature covers, the event name and the payment entity. *)
Module PaymentEntity.
Record t := mk {
  id : option string;
  order_id : option string;
  notes_userId : option nat;
  notes_orderId : option nat;
  notes_shippingAddress : option Address.t
}.
End PaymentEntity.

Module WebhookReq.
Record t := mk {
  x_razorpay_signature : option string;
  body_json : string;
  event : option string;
  payment : option PaymentEntity.t
}.
End WebhookReq.

(** [RAZORPAY_WEBHOOK_SECRET || RAZORPAY_KEY_SECRET || 'placeholder'] *)
Definition webhook_secret (env : Env) : string :=
  Js.or_str (Js.or_opt (RAZORPAY_WEBHOOK_SECRET env) (RAZORPAY_KEY_SECRET env))
    "placeholder".

(** Case 1 of the webhook, the order exists already. *)
Definition webhook_existing (paymentId : option string) (userId : option nat)
    (orderId : nat) : DB unit :=
  try_catch
    (do found <- Order_findById orderId;
     match found with
     | Some order =>
         if negb (bool_decide (Order.paymentStatus order.2 = "Paid")) then
           let order :=
             (order.1,
              Order.push_history
                (Order.set_status
                   (Order.set_paymentMethod
                      (Order.set_paymentId
                         (Order.set_paymentStatus order.2 "Paid") paymentId)
                      "UPI")
                   "Placed")
                "Placed" "Payment confirmed via webhook") in
           do order <- saveOrder order;
           match userId with
           | Some u =>
               saveAddressToUserOnPaymentSuccess u
                 (Some (Order.shippingAddress order.2))
           | None => ret tt
           end
         else ret tt
     | None => ret tt
     end)
    (λ _, ret tt).

(** Case 2 of the webhook, the order is created from the cart. *)
Definition webhook_cart (env : Env) (payment : PaymentEntity.t) (userId : nat)
  : DB unit :=
  try_catch
    (createOrderFromCart env userId
       (PaymentDetails.mk
          (PaymentEntity.id payment)
          (PaymentEntity.order_id payment)
          None
          (Some "Razorpay")
          (Some (default Address.empty
                   (PaymentEntity.notes_shippingAddress payment)))) ;;
     saveAddressToUserOnPaymentSuccess userId
       (Some (default Address.empty
                (PaymentEntity.notes_shippingAddress payment))))
    (λ _, ret tt).

(** [router.post('/webhook', ...)] *)
Definition webhook (env : Env) (req : WebhookReq.t) : Store → Response * Store :=
  handler
    (if negb (bool_decide
                (WebhookReq.x_razorpay_signature req
                 = Some (hmac_sha256_hex env (webhook_secret env)
                           (WebhookReq.body_json req))))
     then ret (RFail 400 "Invalid webhook signature")
     else
       match WebhookReq.payment req with
       | Some payment =>
           if bool_decide (WebhookReq.event req = Some "payment.captured") then
             do processed <- isPaymentAlreadyProcessed (PaymentEntity.id payment);
             if processed then ret (RReceived (Some "already_processed"))
             else
               match PaymentEntity.notes_orderId payment with
               | Some orderId =>
                   webhook_existing (PaymentEntity.id payment)
                     (PaymentEntity.notes_userId payment) orderId ;;
                   ret (RReceived None)
               | None =>
                   match PaymentEntity.notes_userId payment with
                   | Some userId =>
                       webhook_cart env payment userId ;;
                       ret (RReceived None)
                   | None => ret (RReceived None)
                   end
               end
           else ret (RReceived None)
       | None => ret (RReceived None)
       end).

(** ** utils/transactions.js *)

(** The errors [withTransaction] retries: the label
    [TransientTransactionError] or one of the codes 251, 112, 244. *)
Definition isTransient (e : Err) : bool :=
  match e with
  | StorageError code transientLabel =>
      transientLabel || Nat.eqb code 251 || Nat.eqb code 112 || Nat.eqb code 244
  | _ => false
  end.

(** One turn of the loop of [withTransaction] with [retries] turns left
    after it: commit on success, abort (the store is the one the turn
    started from) on an exception. *)
Fixpoint withTransaction_attempt {A} (retries : nat) (fn : DB A) : DB A :=
  λ s,
    match fn s with
    | (inr result, s') => (inr result, s')
    | (inl error, _) =>
        match retries with
        | S r => if isTransient error then withTransaction_attempt r fn s
                 else (inl error, s)
        | O => (inl error, s)
        end
    end.

(** [withTransaction(fn, { maxRetries })] *)
Definition withTransaction {A} (maxRetries : nat) (fn : DB A) : DB A :=
  match maxRetries with
  | O => throw (Error "undefined")
  | S r => withTransaction_attempt r fn
  end.

(** The default [maxRetries = 3]. *)
Definition maxRetries : nat := 3.

(** The stock loop of [executePaymentTransaction]; every turn is one
    conditional update. *)
Fixpoint decrementStock_items (items : list OrderItem.t) : DB unit :=
  match items with
  | [] => ret tt
  | item :: rest =>
      match OrderItem.product item with
      | Some pid =>
          Product_decrementIfEnough pid (Js.or_num (OrderItem.quantity item) 1) ;;
          decrementStock_items rest
      | None => decrementStock_items rest
      end
  end.

(** [executePaymentTransaction({ order, paymentData, reduceStock })] *)
Definition executePaymentTransaction (order : OrderDoc)
    (paymentData : PaymentData.t) (reduceStock : bool)
  : DB (OrderDoc * option Payment.t) :=
  withTransaction maxRetries
    (let order :=
       (order.1,
        Order.push_history
          (Order.set_paymentMethod
             (Order.set_razorpaySignature
                (Order.set_razorpayOrderId
                   (Order.set_paymentId
                      (Order.set_status
                         (Order.set_paymentStatus order.2 "Paid") "PAID")
                      (PaymentData.paymentId paymentData))
                   (PaymentData.razorpayOrderId paymentData))
                (PaymentData.razorpaySignature paymentData))
             (Js.or_str (PaymentData.method paymentData) "Razorpay"))
          "PAID" "Payment verified via transaction") in
     do order <- saveOrder order;
     do order <-
       (if reduceStock && negb (Order.stockReduced order.2)
           && bool_decide (0 < length (Order.items order.2))
        then
          decrementStock_items (Order.items order.2) ;;
          saveOrder (order.1, Order.set_stockReduced order.2 true)
        else ret order);
     do payment <-
       try_catch
         (do p <- insertPayment
            (Payment.mk
               (PaymentData.paymentId paymentData)
               (PaymentData.razorpayOrderId paymentData)
               (PaymentData.razorpaySignature paymentData)
               (Some order.1)
               (Some (Order.user order.2))
               (Order.totalAmount order.2)
               (Js.or_str (PaymentData.method paymentData) "UPI")
               "PAID" None);
          ret (Some p))
         (λ err, match err with
                 | DuplicateKey _ => ret None
                 | _ => throw err
                 end);
     ret (order, payment)).

(** The stock loop of [cancelOrderWithStockRestore]. *)
Fixpoint restoreStock_items (items : list OrderItem.t) : DB unit :=
  match items with
  | [] => ret tt
  | item :: rest =>
      match OrderItem.product item with
      | Some pid =>
          Product_increment pid (Js.or_num (OrderItem.quantity item) 1) ;;
          restoreStock_items rest
      | None => restoreStock_items rest
      end
  end.

(** [cancelOrderWithStockRestore(orderId, reason, cancelledBy)] *)
Definition cancelOrderWithStockRestore (orderId : nat) (reason : option string)
    (cancelledBy : nat) : DB OrderDoc :=
  withTransaction maxRetries
    (do found <- Order_findById orderId;
     match found with
     | None => throw (Error "Order not found")
     | Some order =>
         if bool_decide (Order.status order.2 = "CANCELLED")
         then throw (Error "Order is already cancelled")
         else
           (if Order.stockReduced order.2
               && bool_decide (0 < length (Order.items order.2))
            then restoreStock_items (Order.items order.2)
            else ret tt) ;;
           saveOrder
             (order.1,
              Order.push_history (Order.set_status order.2 "CANCELLED")
                "CANCELLED" (Js.or_str reason "Order cancelled"))
     end).

(** ** routes/orders.js *)

(** The body of [router.post('/')].  Its lines are taken as the lines of a
    cart are, with a number for the price and for the quantity; a body
    that sends another JSON value there (a string, to which [|| 1] and the
    product apply with the coercions of the language) is outside this
    type. *)
Module CreateOrderReq.
Record t := mk {
  items : list CartItem.t;
  shippingAddress : option Address.t;
  paymentMethod : option string
}.
End CreateOrderReq.

(** The normalised address of [router.post('/')]; the legacy spellings of
    a request ([mobile], [addressLine1], [addressLine2]) are not modelled. *)
Definition normalisedAddress (addr : Address.t) : Address.t :=
  Address.mk
    (Some (Js.or_str (Js.or_opt (Address.fullName addr) (Address.name addr)) ""))
    None
    (Some (Js.or_str (Address.phone addr) ""))
    (Some (Js.or_str (Address.houseNo addr) ""))
    (Some (Js.or_str (Address.street addr) ""))
    (Some (Js.or_str (Address.landmark addr) ""))
    (Some (Js.or_str (Address.city addr) ""))
    (Some (Js.or_str (Address.state addr) ""))
    (Some (Js.or_str (Address.pincode addr) "")).

Definition complete_address (a : option Address.t) : bool :=
  match a with
  | Some a => Js.truthy (Address.fullName a) && Js.truthy (Address.phone a)
              && Js.truthy (Address.pincode a)
  | None => false
  end.

(** [router.post('/', protect, ...)].  The loop over the lines is the one
    of [createOrderFromCart]; where that one throws, this one answers 404
    with the same message. *)
Definition createOrder (user : nat) (req : CreateOrderReq.t)
  : Store → Response * Store :=
  handler
    (match CreateOrderReq.items req with
     | [] => ret (RFail 400 "No items in order")
     | items =>
         if negb (complete_address (CreateOrderReq.shippingAddress req))
         then ret (RFail 400 "Complete shipping address is required")
         else
           try_catch
             (do '(enrichedItems, subtotal) <- enrichItems items [] 0%Z;
              let shipping := shippingCharge subtotal in
              let totalAmount := (subtotal + shipping)%Z in
              do order <- insertOrder
                (Order.mk user "" enrichedItems totalAmount shipping
                   "CREATED"
                   (Js.or_str (CreateOrderReq.paymentMethod req) "Pending")
                   "Pending" None None None
                   (normalisedAddress
                      (default Address.empty (CreateOrderReq.shippingAddress req)))
                   false None None
                   [HistoryEntry.mk "CREATED" "Order created, awaiting payment"]);
              ret (ROrder 201 order))
             (λ err, match err with
                     | Error message => ret (RFail 404 message)
                     | _ => throw err
                     end)
     end).

Module StatusReq.
Record t := mk {
  status : string;
  note : option string;
  paymentStatus : option string
}.
End StatusReq.

(** [router.put('/:id/status', protect, adminOnly, ...)] *)
Definition updateStatus (id : nat) (req : StatusReq.t) : Store → Response * Store :=
  handler
    (do found <- Order_findById id;
     match found with
     | None => ret (RFail 404 "Order not found")
     | Some order =>
         let o := Order.set_status order.2 (StatusReq.status req) in
         let o := if Js.truthy (StatusReq.paymentStatus req)
                  then Order.set_paymentStatus o
                         (default "" (StatusReq.paymentStatus req))
                  else o in
         let o := Order.push_history o (StatusReq.status req)
                    (Js.or_str (StatusReq.note req) "") in
         do order <- saveOrder (order.1, o);
         ret (ROrder 200 order)
     end).

(** [router.put('/:id/confirm-payment', protect, ...)] *)
Definition confirmPayment (user : nat) (id : nat) : Store → Response * Store :=
  handler
    (do found <- Order_findById id;
     match found with
     | None => ret (RFail 404 "Order not found")
     | Some order =>
         if negb (bool_decide (Order.user order.2 = user))
         then ret (RFail 403 "Access denied")
         else if bool_decide (Order.paymentStatus order.2 = "Paid")
         then ret (RFail 400 "Payment already confirmed")
         else
           do order <- saveOrder
             (order.1,
              Order.push_history
                (Order.set_status
                   (Order.set_paymentMethod
                      (Order.set_paymentStatus order.2 "Paid") "UPI")
                   "Confirmed")
                "Confirmed" "Payment confirmed by user (UPI)");
           ret (ROrder 200 order)
     end).

(** [router.put('/:id/cancel', protect, ...)]; [admin] is
    [req.user.role === 'admin']. *)
Definition cancel (user : nat) (admin : bool) (id : nat) (reason : option string)
  : Store → Response * Store :=
  handler
    (do found <- Order_findById id;
     match found with
     | None => ret (RFail 404 "Order not found")
     | Some order =>
         if negb (bool_decide (Order.user order.2 = user)) && negb admin
         then ret (RFail 403 "Access denied")
         else if bool_decide (Order.status order.2 ∈ ["SHIPPED"; "DELIVERED"])
         then ret IllegalTransition
         else
           do cancelledOrder <- cancelOrderWithStockRestore id
             (Some (Js.or_str reason
                      ("Cancelled by " ++ (if admin then "admin" else "user"))))
             user;
           ret (RCancelled cancelledOrder)
     end).

(** ** routes/payment.js: the stock alerts of the admin *)

(** [Number(req.query.threshold) || 10].  The argument is the value of
    [Number(...)]: [None] when it is [NaN] (no threshold in the query, or
    one that is no number), the number otherwise; like every quantity of
    the model it is an integer. *)
Definition alertThreshold (queryThreshold : option Z) : Z :=
  match queryThreshold with
  | Some n => Js.or_num n 10
  | None => 10%Z
  end.

(** [Product.find({ stock: { $lte: threshold } }).sort({ stock: 1 })]:
    the products at or under the threshold, by rising stock. *)
Definition stock_le (a b : nat * Product.t) : Prop :=
  (Product.stock a.2 ≤ Product.stock b.2)%Z.

#[global] Instance stock_le_dec a b : Decision (stock_le a b) :=
  Z_le_dec (Product.stock a.2) (Product.stock b.2).

Definition Product_find_lowStock (threshold : Z) (s : Store)
  : list (nat * Product.t) :=
  merge_sort stock_le
    (filter (λ a, (Product.stock a.2 ≤ threshold)%Z) (map_to_list (products s))).

Module StockAlerts.
Record t := mk {
  outOfStock : list (nat * Product.t);
  criticalStock : list (nat * Product.t);
  lowStock : list (nat * Product.t);
  outOfStockCount : nat;
  criticalCount : nat;
  lowStockCount : nat
}.
End StockAlerts.

(** [router.get('/admin/stock/alerts', protect, adminOnly, ...)] *)
Definition stockAlerts (queryThreshold : option Z) (s : Store) : StockAlerts.t :=
  let threshold := alertThreshold queryThreshold in
  let lowStockProducts := Product_find_lowStock threshold s in
  let outOfStock :=
    filter (λ p, Product.stock p.2 = 0%Z) lowStockProducts in
  let criticalStock :=
    filter (λ p, (0 < Product.stock p.2)%Z ∧ (Product.stock p.2 ≤ 5)%Z)
      lowStockProducts in
  let lowStock := filter (λ p, (5 < Product.stock p.2)%Z) lowStockProducts in
  StockAlerts.mk outOfStock criticalStock lowStock
    (length outOfStock) (length criticalStock) (length lowStock).

(** ** Soft delete: utils/transactions.js and its routes *)

(** The soft-delete paths of a document. *)
Module Deletion.
Record t := mk {
  isDeleted : bool;
  deletedAt : option Z;        (* a [Date], as a time stamp *)
  deletedBy : option nat;
  deletionReason : option string
}.

(** A document that was never soft-deleted: [isDeleted] has its default,
    the other paths are not set. *)
Definition none : t := mk false None None None.
End Deletion.

(** The models the routes name.  Of their schemas only the one of the
    orders declares [deletionReason]; an update of a path that a schema
    does not declare is dropped. *)
Inductive Model := ModelOrder | ModelProduct.

#[global] Instance Model_eq_dec : EqDecision Model.
Proof. solve_decision. Defined.

Definition model_name (m : Model) : string :=
  match m with
  | ModelOrder => "Order"
  | ModelProduct => "Product"
  end.

Definition has_deletionReason (m : Model) : bool :=
  match m with
  | ModelOrder => true
  | ModelProduct => false
  end.

(** The store together with the soft-delete paths of its orders and
    products, by [_id]. *)
Record Archive := mkArchive {
  store : Store;
  orderDeletion : gmap nat Deletion.t;
  productDeletion : gmap nat Deletion.t
}.

Definition stored (m : Model) (id : nat) (a : Archive) : bool :=
  match m with
  | ModelOrder => bool_decide (is_Some (orders (store a) !! id))
  | ModelProduct => bool_decide (is_Some (products (store a) !! id))
  end.

Definition deletion_of (m : Model) (id : nat) (a : Archive) : Deletion.t :=
  default Deletion.none
    (match m with
     | ModelOrder => orderDeletion a !! id
     | ModelProduct => productDeletion a !! id
     end).

Definition set_deletion (m : Model) (id : nat) (d : Deletion.t) (a : Archive)
  : Archive :=
  match m with
  | ModelOrder =>
      mkArchive (store a) (<[id := d]> (orderDeletion a)) (productDeletion a)
  | ModelProduct =>
      mkArchive (store a) (orderDeletion a) (<[id := d]> (productDeletion a))
  end.

(** [softDelete(model, id, deletedBy, reason = '')]; [now] is [new Date()].
    The result is the updated document, here its soft-delete paths. *)
Definition softDelete (m : Model) (id deletedBy : nat) (reason : option string)
    (now : Z) : Archive → (Err + Deletion.t) * Archive :=
  λ a,
    if stored m id a then
      let doc :=
        Deletion.mk true (Some now) (Some deletedBy)
          (if Js.truthy reason && has_deletionReason m then reason
           else Deletion.deletionReason (deletion_of m id a)) in
      (inr doc, set_deletion m id doc a)
    else (inl (Error (model_name m ++ " not found")), a).

(** [restoreDeleted(model, id)] *)
Definition restoreDeleted (m : Model) (id : nat)
  : Archive → (Err + Deletion.t) * Archive :=
  λ a,
    if stored m id a then
      let doc :=
        Deletion.mk false None None
          (if has_deletionReason m then None
           else Deletion.deletionReason (deletion_of m id a)) in
      (inr doc, set_deletion m id doc a)
    else (inl (Error (model_name m ++ " not found")), a).

(** [router.get('/my', protect, ...)] of routes/orders.js: the orders of
    the caller that are not deleted, newest first, and their number. *)
Definition myOrders (user : nat) (a : Archive) : list OrderDoc * nat :=
  let found :=
    reverse
      (filter (λ d : OrderDoc,
                 Order.user d.2 = user ∧
                 Deletion.isDeleted (deletion_of ModelOrder d.1 a) ≠ true)
         (imap (λ i o, (i, o)) (orders (store a)))) in
  (found, length found).

(** ** utils/api.js of the front end: where the back end is *)

(** What the helpers read: two variables of the build and the host name of
    the page. *)
Module Browser.
Record t := mk {
  VITE_API_URL : option string;       (* [import.meta.env.VITE_API_URL] *)
  VITE_BACKEND_URL : option string;   (* [import.meta.env.VITE_BACKEND_URL] *)
  hostname : string                   (* [window.location.hostname] *)
}.
End Browser.

(** [s.includes(part)] and [s.startsWith(part)] *)
Definition includes (s part : string) : bool :=
  match String.index 0 part s with
  | Some _ => true
  | None => false
  end.

Definition startsWith (s part : string) : bool := String.prefix part s.

(** [hostname !== 'localhost' && !hostname.includes('127.0.0.1')] *)
Definition deployed (hostname : string) : bool :=
  negb (String.eqb hostname "localhost") && negb (includes hostname "127.0.0.1").

(** [getApiUrl()] *)
Definition getApiUrl (b : Browser.t) : string :=
  if Js.truthy (Browser.VITE_API_URL b)
  then default "" (Browser.VITE_API_URL b)
  else
    let hostname := Browser.hostname b in
    if includes hostname "vercel.app"
    then Js.or_str (Browser.VITE_BACKEND_URL b)
           "https://tcs-backend.onrender.com/api"
    else if includes hostname "onrender.com" then "/api"
    else if deployed hostname
    then Js.or_str (Browser.VITE_BACKEND_URL b) "/api"
    else "/api".

(** The [backendBase] of [getMediaUrl]. *)
Definition backendBase (b : Browser.t) : string :=
  Js.or_str (Browser.VITE_BACKEND_URL b)
    (if includes (Browser.hostname b) "vercel.app"
     then "https://tcs-backend.onrender.com" else "").

(** [getMediaUrl(path)] *)
Definition getMediaUrl (b : Browser.t) (path : option string) : string :=
  if negb (Js.truthy path) then ""
  else
    let path := default "" path in
    if startsWith path "http" then path
    else if deployed (Browser.hostname b) then backendBase b ++ path
    else "http://localhost:5000" ++ path.

(** ** Notions the properties are stated with *)

(** The stock of product [p], if the product exists. *)
Definition stock_of (s : Store) (p : nat) : option Z :=
  Product.stock <$> products s !! p.

(** [item.quantity || 1] *)
Definition line_quantity (item : OrderItem.t) : Z :=
  Js.or_num (OrderItem.quantity item) 1.

(** The quantity of product [p] an order asks for, over all its lines. *)
Fixpoint requested (items : list OrderItem.t) (p : nat) : Z :=
  match items with
  | [] => 0
  | item :: rest =>
      (if bool_decide (OrderItem.product item = Some p)
       then line_quantity item else 0) + requested rest p
  end%Z.

(** The items subtotal of an order: the sum of price times quantity over
    its lines. *)
Fixpoint items_subtotal (items : list OrderItem.t) : Z :=
  match items with
  | [] => 0
  | item :: rest =>
      OrderItem.price item * OrderItem.quantity item + items_subtotal rest
  end%Z.

(** No product has a negative stock. *)
Definition stock_nonneg (s : Store) : Prop :=
  ∀ p prod, products s !! p = Some prod → (0 ≤ Product.stock prod)%Z.

(** How many orders, and how many ledger entries, bear a payment id. *)
Definition orders_with (paymentId : option string) (s : Store) : nat :=
  length (filter (λ o, Order.paymentId o = paymentId) (orders s)).

Definition payments_with (paymentId : option string) (s : Store) : nat :=
  length (filter (λ p, Payment.razorpayPaymentId p = paymentId) (payments s)).

(** Two documents agree on everything a settlement decides: all fields
    but the order number, the stock flag and the invoice. *)
Definition same_settlement (o o' : Order.t) : Prop :=
  Order.user o' = Order.user o ∧ Order.items o' = Order.items o ∧
  Order.totalAmount o' = Order.totalAmount o ∧
  Order.shippingCharge o' = Order.shippingCharge o ∧
  Order.status o' = Order.status o ∧
  Order.paymentMethod o' = Order.paymentMethod o ∧
  Order.paymentStatus o' = Order.paymentStatus o ∧
  Order.paymentId o' = Order.paymentId o ∧
  Order.statusHistory o' = Order.statusHistory o ∧
  Order.shippingAddress o' = Order.shippingAddress o.

(** A computation keeps a property of the store. *)
Definition preserves {A} (P : Store → Prop) (m : DB A) : Prop :=
  ∀ s r s', m s = (r, s') → P s → P s'.

(** [P] does not look at the orders (payments, carts, users). *)
Definition orders_indep (P : Store → Prop) : Prop :=
  ∀ s v, P s → P (set_orders s v).
Definition payments_indep (P : Store → Prop) : Prop :=
  ∀ s v, P s → P (set_payments s v).
Definition carts_indep (P : Store → Prop) : Prop :=
  ∀ s v, P s → P (set_carts s v).
Definition users_indep (P : Store → Prop) : Prop :=
  ∀ s v, P s → P (set_users s v).

(** The payment is settled as order [id]: that order is the first to bear
    the payment id, it is paid, and exactly one order and one ledger entry
    bear the id. *)
Definition settled_as (pid : string) (s : Store) (id : nat) (o : Order.t) : Prop :=
  list_find (λ o, Order.paymentId o = Some pid) (orders s) = Some (id, o) ∧
  Order.paymentStatus o = "Paid" ∧
  orders_with (Some pid) s = 1 ∧
  payments_with (Some pid) s = 1.

(** ** Sequences of settlement calls *)

(** A settlement call: the client's [/verify] or a webhook delivery. *)
Inductive SettlementCall :=
| ClientVerify (user : nat) (req : VerifyReq.t)
| WebhookConfirm (req : WebhookReq.t).

(** The external payment id a call carries. *)
Definition call_paymentId (c : SettlementCall) : option string :=
  match c with
  | ClientVerify _ req => VerifyReq.razorpay_payment_id req
  | WebhookConfirm req => payment ← WebhookReq.payment req; PaymentEntity.id payment
  end.

Definition run_call (env : Env) (c : SettlementCall) : Store → Response * Store :=
  match c with
  | ClientVerify user req => verify env user req
  | WebhookConfirm req => webhook env req
  end.

(** The calls one after the other, with the responses in order. *)
Fixpoint run_calls (env : Env) (calls : list SettlementCall) (s : Store)
  : list Response * Store :=
  match calls with
  | [] => ([], s)
  | c :: rest =>
      let '(r, s1) := run_call env c s in
      let '(rs, s2) := run_calls env rest s1 in
      (r :: rs, s2)
  end.

(** What a call answers once the payment is settled as order [id] with
    number [num]: [/verify] answers with the order; the webhook refuses a
    wrong signature with 400 and acknowledges every other delivery, with
    the status [already_processed] when the event is [payment.captured]
    and there is a payment entity. *)
Definition settled_response (env : Env) (c : SettlementCall) (id : nat)
    (num : string) : Response :=
  match c with
  | ClientVerify _ _ => RSuccess "Payment already processed" id num
  | WebhookConfirm req =>
      if negb (bool_decide
                 (WebhookReq.x_razorpay_signature req
                  = Some (hmac_sha256_hex env (webhook_secret env)
                            (WebhookReq.body_json req))))
      then RFail 400 "Invalid webhook signature"
      else
        match WebhookReq.payment req with
        | Some _ =>
            if bool_decide (WebhookReq.event req = Some "payment.captured")
            then RReceived (Some "already_processed")
            else RReceived None
        | None => RReceived None
        end
  end.

(** The fields of an order that COD placement has no business with. *)
Definition untouched_by_cod (o o' : Order.t) : Prop :=
  Order.user o' = Order.user o ∧ Order.items o' = Order.items o ∧
  Order.totalAmount o' = Order.totalAmount o ∧
  Order.shippingCharge o' = Order.shippingCharge o ∧
  Order.paymentId o' = Order.paymentId o ∧
  Order.razorpayOrderId o' = Order.razorpayOrderId o ∧
  Order.razorpaySignature o' = Order.razorpaySignature o ∧
  Order.shippingAddress o' = Order.shippingAddress o ∧
  Order.stockReduced o' = Order.stockReduced o.

(** The order [/cod] saves first. *)
Definition cod_placed (o : Order.t) : Order.t :=
  Order.push_history
    (Order.set_status
       (Order.set_paymentStatus (Order.set_paymentMethod o "COD") "Pending")
       "PLACED")
    "PLACED" "Cash on Delivery order placed".

(** The payment id is settled already: it is not empty and an order with
    payment status [Paid] bears it. *)
Definition already_settled (paymentId : option string) (s : Store) : Prop :=
  Js.truthy paymentId = true ∧
  ∃ id o, orders s !! id = Some o ∧ Order.paymentId o = paymentId ∧
          Order.paymentStatus o = "Paid".


(** The state machine as the specification words it (section 4.4):
    CREATED goes to PENDING, PAID or PLACED, those go to SHIPPED, SHIPPED
    goes to DELIVERED, and CANCELLED is reachable from every state that is
    neither terminal nor SHIPPED.  DELIVERED and CANCELLED are terminal. *)
Definition spec_legal_successor (old new : string) : bool :=
  if String.eqb old "CREATED"
  then in_enum new ["PENDING"; "PAID"; "PLACED"; "CANCELLED"]
  else if in_enum old ["PENDING"; "PAID"; "PLACED"]
  then in_enum new ["SHIPPED"; "CANCELLED"]
  else if String.eqb old "SHIPPED" then String.eqb new "DELIVERED"
  else false.

Definition spec_terminal (status : string) : bool :=
  in_enum status ["DELIVERED"; "CANCELLED"].

(** ** Notions of the further properties *)

(** [P] does not look at the products. *)
Definition products_indep (P : Store → Prop) : Prop :=
  ∀ s v, P s → P (set_products s v).

(** Every enum path of every stored order and ledger entry holds a value
    of its enum. *)
Definition order_valid (o : Order.t) : Prop :=
  Order.status o ∈ Order.statusEnum ∧
  Order.paymentMethod o ∈ Order.paymentMethodEnum ∧
  Order.paymentStatus o ∈ Order.paymentStatusEnum.

Definition payment_valid (p : Payment.t) : Prop :=
  Payment.method p ∈ Payment.methodEnum ∧ Payment.status p ∈ Payment.statusEnum.

Definition schema_valid (s : Store) : Prop :=
  Forall order_valid (orders s) ∧ Forall payment_valid (payments s).

(** The routes of routes/payment.js and routes/orders.js that write an
    order or a ledger entry, as one type of calls.  The soft deletion of
    an order and its restoring write the deletion marks, which are kept
    apart from the store, in the archive above; [/create-order] and
    the [GET] routes write nothing. *)
Inductive Call :=
| CallVerify (user : nat) (req : VerifyReq.t)
| CallVerifyUpi (user : nat) (req : VerifyUpiReq.t)
| CallCod (user : nat) (orderId : option nat)
| CallCreateUpiOrder (user : nat) (orderId : option IdArg)
    (razorpayOrder : string + RazorpayOrder.t)
| CallWebhook (req : WebhookReq.t)
| CallCreateOrder (user : nat) (req : CreateOrderReq.t)
| CallUpdateStatus (id : nat) (req : StatusReq.t)
| CallConfirmPayment (user id : nat)
| CallCancel (user : nat) (admin : bool) (id : nat) (reason : option string).

Definition run (env : Env) (c : Call) : Store → Response * Store :=
  match c with
  | CallVerify user req => verify env user req
  | CallVerifyUpi user req => verify_upi env user req
  | CallCod user orderId => cod env user orderId
  | CallCreateUpiOrder user orderId razorpayOrder =>
      create_upi_order user orderId razorpayOrder
  | CallWebhook req => webhook env req
  | CallCreateOrder user req => createOrder user req
  | CallUpdateStatus id req => updateStatus id req
  | CallConfirmPayment user id => confirmPayment user id
  | CallCancel user admin id reason => cancel user admin id reason
  end.

(** The store after a sequence of calls. *)
Definition run_all (env : Env) (calls : list Call) (s : Store) : Store :=
  foldl (λ st c, (run env c st).2) s calls.



(** The orders are numbered by the [pre('save')] hook: the order stored
    at position [i] has the number the hook gives when [i] orders are
    stored. *)
Definition numbered (s : Store) : Prop :=
  ∀ i o, orders s !! i = Some o → Order.orderNumber o = orderNumber_for i.

Definition doc_numbered (d : OrderDoc) : Prop :=
  Order.orderNumber d.2 = orderNumber_for d.1.

(** A computation keeps [P] and returns a result with [Q]. *)
Definition keeps {A} (P : Store → Prop) (Q : A → Prop) (m : DB A) : Prop :=
  ∀ s r s', m s = (r, s') → P s → P s' ∧ ∀ a, r = inr a → Q a.


(** What a handler may do to the document it holds before it saves it:
    owner, number, lines, amounts and address stay, and the status history
    is only added to. *)
Definition amended (o o' : Order.t) : Prop :=
  Order.user o' = Order.user o ∧ Order.orderNumber o' = Order.orderNumber o ∧
  Order.items o' = Order.items o ∧
  Order.totalAmount o' = Order.totalAmount o ∧
  Order.shippingCharge o' = Order.shippingCharge o ∧
  Order.shippingAddress o' = Order.shippingAddress o ∧
  Order.statusHistory o `prefix_of` Order.statusHistory o'.

(** An order as it was and as it is: same owner, lines, amounts and
    address, and a history that starts with the old one. *)
Definition kept (o o' : Order.t) : Prop :=
  Order.user o' = Order.user o ∧ Order.items o' = Order.items o ∧
  Order.totalAmount o' = Order.totalAmount o ∧
  Order.shippingCharge o' = Order.shippingCharge o ∧
  Order.shippingAddress o' = Order.shippingAddress o ∧
  Order.statusHistory o `prefix_of` Order.statusHistory o'.

(** The store [s] has grown out of [s0]: every order of [s0] is still
    there, kept, and the ledger of [s] starts with the ledger of [s0]. *)
Definition grown (s0 s : Store) : Prop :=
  (∀ i o, orders s0 !! i = Some o → ∃ o', orders s !! i = Some o' ∧ kept o o') ∧
  payments s0 `prefix_of` payments s.

Definition doc_kept (s0 : Store) (d : OrderDoc) : Prop :=
  ∀ o, orders s0 !! d.1 = Some o → kept o d.2.

(** The order [/verify-upi] saves first. *)
Definition upi_paid (req : VerifyUpiReq.t) (o : Order.t) : Order.t :=
  Order.push_history
    (Order.set_status
       (Order.set_paymentMethod
          (Order.set_razorpaySignature
             (Order.set_paymentId
                (Order.set_paymentStatus o "Paid")
                (VerifyUpiReq.razorpay_payment_id req))
             (VerifyUpiReq.razorpay_signature req))
          "UPI")
       "PAID")
    "PAID" "Payment verified via Razorpay UPI".

(** The order as [/verify-upi] leaves it: paid, with the stock flag set
    and the invoice attached when the generator answers. *)
Definition upi_settled (env : Env) (id : nat) (req : VerifyUpiReq.t)
    (o : Order.t) : Order.t :=
  let marked := Order.set_stockReduced (upi_paid req o) true in
  match generateAndSaveInvoice env (id, marked) with
  | Some inv => Order.set_invoice marked inv.1 inv.2
  | None => marked
  end.

(** The order [/cancel] stores. *)
Definition cancelled_by (admin : bool) (reason : option string) (o : Order.t)
  : Order.t :=
  Order.push_history (Order.set_status o "CANCELLED") "CANCELLED"
    (Js.or_str
       (Some (Js.or_str reason ("Cancelled by " ++ (if admin then "admin" else "user"))))
       "Order cancelled").

(** The order the admin's status update stores when the request names no
    payment status. *)
Definition status_set (status : string) (note : option string) (o : Order.t)
  : Order.t :=
  Order.push_history (Order.set_status o status) status (Js.or_str note "").

(** ** Sample data *)

(** An environment to run the handlers in.  The properties below hold for
    every keyed hash; the examples need one to compute with. *)
Definition sample_env : Env :=
  mkEnv None None
    (λ key msg, "hmac(" ++ key ++ "," ++ msg ++ ")")
    (λ order,
       Some (Some ("/invoices/" ++ Order.orderNumber order.2 ++ ".pdf"),
             Some ("/api/orders/invoice/" ++ Order.orderNumber order.2))).

Definition sample_address : Address.t :=
  Address.mk (Some "Asha") None (Some "9000000000") (Some "12") None None
    (Some "Hyderabad") None (Some "500001").

(** An order of user 7 for [quantity] pieces of product 1 at 600 each. *)
Definition sample_order (quantity : Z) (status paymentStatus : string)
    (stockReduced : bool) : Order.t :=
  Order.mk 7 "TCS000001" [OrderItem.mk (Some 1) (Some "Shirt") 600 quantity]
    (600 * quantity + shippingCharge (600 * quantity))
    (shippingCharge (600 * quantity))
    status "Pending" paymentStatus None None None sample_address
    stockReduced None None [HistoryEntry.mk "CREATED" "Order created, awaiting payment"].

(** A store with the given orders, one product (of id 1) at [price] with
    [stock] pieces on hand, and [inCart] pieces of it in the cart of
    user 7. *)
Definition sample_store (orders : list Order.t) (price stock inCart : Z) : Store :=
  mkStore orders []
    {[ 1 := Product.mk "Shirt" price stock ]}
    {[ 7 := if (inCart =? 0)%Z then []
            else [CartItem.mk (RefProduct 1) None 0 inCart] ]}
    {[ 7 := [] ]}.

(** A [/verify] request of user 7 for payment [pay_1] of Razorpay order
    [order_1], with the signature [sample_env] expects or another one. *)
Definition sample_verify (valid : bool) : VerifyReq.t :=
  VerifyReq.mk (Some "order_1") (Some "pay_1")
    (Some (if valid then "hmac(placeholder,order_1|pay_1)" else "forged"))
    (Some sample_address).

(** A webhook delivery of [payment.captured] for the same payment, with
    the cart of user 7 named in the notes and a signature [sample_env]
    accepts. *)
Definition sample_webhook : WebhookReq.t :=
  WebhookReq.mk
    (Some "hmac(placeholder,{event:payment.captured,payment:pay_1})")
    "{event:payment.captured,payment:pay_1}"
    (Some "payment.captured")
    (Some (PaymentEntity.mk (Some "pay_1") (Some "order_1") (Some 7) None
             (Some sample_address))).

(** ** Sample data of the further properties *)

(** An environment whose invoice generator throws. *)
Definition sample_env_no_invoice : Env :=
  mkEnv None None (hmac_sha256_hex sample_env) (λ _, None).

(** A [/verify-upi] request for payment [pay_1] on the order of id 0, with
    the signature [sample_env] expects. *)
Definition sample_verify_upi : VerifyUpiReq.t :=
  VerifyUpiReq.mk (Some "order_1") (Some "pay_1")
    (Some "hmac(placeholder,order_1|pay_1)") (Some (IdOf 0)).

(** A [/verify] request for a second payment, [pay_2]. *)
Definition sample_verify_second : VerifyReq.t :=
  VerifyReq.mk (Some "order_2") (Some "pay_2")
    (Some "hmac(placeholder,order_2|pay_2)") (Some sample_address).

(** Calls of every route, one after the other. *)
Definition sample_calls : list Call :=
  [CallCreateOrder 7
     (CreateOrderReq.mk [CartItem.mk (RefProduct 1) None 0 1]
        (Some sample_address) None);
   CallVerify 7 (sample_verify true);
   CallWebhook sample_webhook;
   CallVerifyUpi 8
     (VerifyUpiReq.mk (Some "order_2") (Some "pay_2")
        (Some "hmac(placeholder,order_2|pay_2)") (Some (IdOf 0)));
   CallCod 7 (Some 0);
   CallUpdateStatus 1 (StatusReq.mk "SHIPPED" None None);
   CallConfirmPayment 7 0;
   CallCancel 7 false 0 None;
   CallCancel 7 false 1 None;
   CallCreateUpiOrder 7 (Some (IdOf 0))
     (inr (RazorpayOrder.mk (Some "order_3") (Some "INR") 120000))].

(** The sample store with one paid order of user 7 and nothing deleted. *)
Definition sample_archive : Archive :=
  mkArchive (sample_store [sample_order 2 "PAID" "Paid" true] 600 3 0) ∅ ∅.

(** A shop on its own domain, built with a protocol-relative
    [VITE_BACKEND_URL]. *)
Definition sample_browser : Browser.t :=
  Browser.mk None (Some "//cdn.example.com") "shop.example.com".

(** * Properties *)

#[global] Arguments orderNumber_for : simpl never.
#[global] Arguments assign_orderNumber : simpl never.
#[global] Arguments saveOrder : simpl never.
#[global] Arguments insertOrder : simpl never.
#[global] Arguments insertPayment : simpl never.
#[global] Arguments reduceStockAfterPayment : simpl never.
#[global] Arguments createPaymentRecord : simpl never.
#[global] Arguments saveAddressToUserOnPaymentSuccess : simpl never.
#[global] Arguments isPaymentAlreadyProcessed : simpl never.
#[global] Arguments createOrderFromCart : simpl never.
#[global] Arguments attachInvoice : simpl never.
#[global] Arguments invoiceFor : simpl never.
#[global] Arguments clearCart : simpl never.
#[global] Arguments webhook_existing : simpl never.
#[global] Arguments webhook_cart : simpl never.
#[global] Arguments cancelOrderWithStockRestore : simpl never.
#[global] Arguments executePaymentTransaction : simpl never.
#[global] Arguments withTransaction : simpl never.

(** ** The store monad *)

Ltac db_unfold :=
  unfold handler, bind, ret, throw, gets, modify, try_catch in *.

Lemma bind_inr {A B} (m : DB A) (k : A → DB B) s b s' :
  bind m k s = (inr b, s') →
  ∃ a s1, m s = (inr a, s1) ∧ k a s1 = (inr b, s').
Proof.
  unfold bind. destruct (m s) as [[e|a] s1]; [discriminate|]. eauto.
Qed.

Lemma bind_inl {A B} (m : DB A) (k : A → DB B) s e s' :
  bind m k s = (inl e, s') →
  m s = (inl e, s') ∨ ∃ a s1, m s = (inr a, s1) ∧ k a s1 = (inl e, s').
Proof.
  unfold bind. destruct (m s) as [[e'|a] s1].
  - intros [= <- <-]. by left.
  - intros H. right. eauto.
Qed.

Lemma bind_eq {A B} (m : DB A) (k : A → DB B) s a s1 :
  m s = (inr a, s1) → bind m k s = k a s1.
Proof. unfold bind. by intros ->. Qed.

Lemma bind_throw {A B} (m : DB A) (k : A → DB B) s e s1 :
  m s = (inl e, s1) → bind m k s = (inl e, s1).
Proof. unfold bind. by intros ->. Qed.

(** ** Saving orders *)

Lemma assign_orderNumber_fields count o :
  let o' := assign_orderNumber count o in
  Order.user o' = Order.user o ∧ Order.items o' = Order.items o ∧
  Order.totalAmount o' = Order.totalAmount o ∧
  Order.shippingCharge o' = Order.shippingCharge o ∧
  Order.status o' = Order.status o ∧
  Order.paymentMethod o' = Order.paymentMethod o ∧
  Order.paymentStatus o' = Order.paymentStatus o ∧
  Order.paymentId o' = Order.paymentId o ∧
  Order.stockReduced o' = Order.stockReduced o ∧
  Order.statusHistory o' = Order.statusHistory o ∧
  Order.shippingAddress o' = Order.shippingAddress o.
Proof.
  unfold assign_orderNumber. destruct (String.eqb _ _); simpl; tauto.
Qed.

Lemma assign_orderNumber_id count o :
  Order.orderNumber o ≠ "" → assign_orderNumber count o = o.
Proof.
  intros H. unfold assign_orderNumber.
  destruct (String.eqb_spec (Order.orderNumber o) ""); [done|done].
Qed.

Lemma saveOrder_ok d s d' s' :
  saveOrder d s = (inr d', s') →
  ∃ old, orders s !! d.1 = Some old ∧
         d' = (d.1, assign_orderNumber (length (orders s)) d.2) ∧
         s' = set_orders s (<[d.1 := d'.2]> (orders s)).
Proof.
  destruct d as [id o]. unfold saveOrder. simpl.
  destruct (orders s !! id) as [old|]; [|discriminate].
  destruct (order_invalid o); [discriminate|].
  destruct (order_index_error_update _ _ _ _); [discriminate|].
  intros [= <- <-]. eauto.
Qed.

Lemma saveOrder_err d s e s' :
  saveOrder d s = (inl e, s') → s' = s.
Proof.
  destruct d as [id o]. unfold saveOrder.
  destruct (orders s !! id) as [old|]; [|by intros [= <- <-]].
  destruct (order_invalid o); [by intros [= <- <-]|].
  destruct (order_index_error_update _ _ _ _); [by intros [= <- <-]|].
  discriminate.
Qed.

(** The document [saveOrder] hands back is stored, and differs from the
    one it was given in its order number at most. *)
Lemma saveOrder_doc d s d' s' :
  saveOrder d s = (inr d', s') →
  d'.1 = d.1 ∧ orders s' !! d.1 = Some d'.2 ∧
  Order.user d'.2 = Order.user d.2 ∧ Order.items d'.2 = Order.items d.2 ∧
  Order.totalAmount d'.2 = Order.totalAmount d.2 ∧
  Order.shippingCharge d'.2 = Order.shippingCharge d.2 ∧
  Order.status d'.2 = Order.status d.2 ∧
  Order.paymentMethod d'.2 = Order.paymentMethod d.2 ∧
  Order.paymentStatus d'.2 = Order.paymentStatus d.2 ∧
  Order.paymentId d'.2 = Order.paymentId d.2 ∧
  Order.stockReduced d'.2 = Order.stockReduced d.2 ∧
  Order.statusHistory d'.2 = Order.statusHistory d.2 ∧
  Order.shippingAddress d'.2 = Order.shippingAddress d.2.
Proof.
  intros (old & Hold & -> & ->)%saveOrder_ok.
  split; [done|]. split.
  { simpl. apply list_lookup_insert_eq. eauto using lookup_lt_Some. }
  apply assign_orderNumber_fields.
Qed.

(** Whatever [saveOrder] answers, it touches the orders only. *)
Lemma saveOrder_frame d s r s' :
  saveOrder d s = (r, s') →
  payments s' = payments s ∧ products s' = products s ∧
  carts s' = carts s ∧ users s' = users s ∧
  length (orders s') = length (orders s) ∧
  ∀ j, j ≠ d.1 → orders s' !! j = orders s !! j.
Proof.
  destruct r as [e|d'].
  - intros ->%saveOrder_err. done.
  - intros (old & Hold & -> & ->)%saveOrder_ok. simpl.
    rewrite length_insert. split_and!; try done.
    intros j Hj. by rewrite list_lookup_insert_ne.
Qed.

Lemma insertOrder_ok o s d s' :
  insertOrder o s = (inr d, s') →
  d = (length (orders s), assign_orderNumber (length (orders s)) o) ∧
  s' = set_orders s (orders s ++ [d.2]) ∧
  order_invalid o = None ∧
  order_index_error d.2 (orders s) = None.
Proof.
  unfold insertOrder.
  destruct (order_invalid o); [discriminate|].
  destruct (order_index_error _ _) eqn:E; [discriminate|].
  intros [= <- <-]. done.
Qed.

Lemma insertOrder_err o s e s' :
  insertOrder o s = (inl e, s') → s' = s.
Proof.
  unfold insertOrder.
  destruct (order_invalid o); [by intros [= <- <-]|].
  destruct (order_index_error _ _); [by intros [= <- <-]|discriminate].
Qed.

(** A document whose validated paths hold values of their enums, and
    whose index keys are those of the stored document, is saved as it
    is. *)
Lemma order_invalid_None o :
  Order.status o ∈ Order.statusEnum →
  Order.paymentMethod o ∈ Order.paymentMethodEnum →
  Order.paymentStatus o ∈ Order.paymentStatusEnum →
  order_invalid o = None.
Proof.
  intros Hs Hm Hps. unfold order_invalid, in_enum.
  by rewrite !bool_decide_eq_true_2.
Qed.

Lemma order_invalid_valid o :
  order_invalid o = None →
  Order.status o ∈ Order.statusEnum ∧
  Order.paymentMethod o ∈ Order.paymentMethodEnum ∧
  Order.paymentStatus o ∈ Order.paymentStatusEnum.
Proof.
  unfold order_invalid, in_enum.
  destruct (bool_decide_reflect (Order.status o ∈ Order.statusEnum));
    [|discriminate].
  destruct (bool_decide_reflect (Order.paymentMethod o ∈ Order.paymentMethodEnum));
    [|discriminate].
  destruct (bool_decide_reflect (Order.paymentStatus o ∈ Order.paymentStatusEnum));
    [|discriminate].
  done.
Qed.

(** A value of an enum, by hypothesis or by computation. *)
Ltac enum :=
  solve [ assumption
        | match goal with H : _ ∈ _ |- _ => exact H end
        | apply (bool_decide_unpack _); vm_compute; exact I ].

Lemma saveOrder_valid id o old s :
  orders s !! id = Some old →
  Order.orderNumber o = Order.orderNumber old →
  Order.orderNumber old ≠ "" →
  Order.paymentId o = Order.paymentId old →
  Order.status o ∈ Order.statusEnum →
  Order.paymentMethod o ∈ Order.paymentMethodEnum →
  Order.paymentStatus o ∈ Order.paymentStatusEnum →
  saveOrder (id, o) s = (inr (id, o), set_orders s (<[id := o]> (orders s))).
Proof.
  intros Hold Hn Hne Hp Hs Hm Hps. unfold saveOrder. rewrite Hold.
  rewrite order_invalid_None by done.
  rewrite assign_orderNumber_id by congruence.
  unfold order_index_error_update.
  rewrite Hn, String.eqb_refl, Hp. simpl.
  rewrite bool_decide_eq_true_2 by done. done.
Qed.

(** ** The idempotency guard *)

Lemma isPaymentAlreadyProcessed_store paymentId s :
  (isPaymentAlreadyProcessed paymentId s).2 = s.
Proof.
  unfold isPaymentAlreadyProcessed.
  destruct (negb (Js.truthy paymentId)); reflexivity.
Qed.

Lemma isPaymentAlreadyProcessed_falsy paymentId s :
  Js.truthy paymentId = false →
  isPaymentAlreadyProcessed paymentId s = (inr false, s).
Proof. unfold isPaymentAlreadyProcessed. by intros ->. Qed.

Lemma isPaymentAlreadyProcessed_true paymentId s :
  (isPaymentAlreadyProcessed paymentId s).1 = inr true →
  Js.truthy paymentId = true ∧
  ∃ id o, orders s !! id = Some o ∧ Order.paymentId o = paymentId ∧
          Order.paymentStatus o = "Paid".
Proof.
  unfold isPaymentAlreadyProcessed.
  destruct (Js.truthy paymentId); simpl; [|discriminate].
  unfold Order_findOne_paid. db_unfold. simpl.
  intros [= H%bool_decide_eq_true]. split; [done|].
  destruct H as [[id o] (Hlook & [Hpid Hpaid] & _)%list_find_Some]. eauto.
Qed.

Lemma Order_findByArg_run v s :
  (∃ found, Order_findByArg v s = (inr found, s)) ∨
  Order_findByArg v s = (inl (CastError "_id"), s).
Proof.
  destruct v as [[id|]|]; cbn; [left|by right|left];
    unfold Order_findById; db_unfold; eauto.
Qed.

Lemma isPaymentAlreadyProcessed_result paymentId s :
  ∃ b, isPaymentAlreadyProcessed paymentId s = (inr b, s).
Proof.
  unfold isPaymentAlreadyProcessed.
  destruct (negb (Js.truthy paymentId)); db_unfold; eauto.
Qed.

(** C10. The guard answers false whenever the payment id is null,
    undefined or empty, so [/verify], [/verify-upi] and the webhook never
    short-circuit such a request to an existing order; and whenever the
    guard answers true, an order with that payment id and payment status
    [Paid] is stored. *)
Theorem guard_false_without_payment_id
    (env : Env) (paymentId : option string) (s : Store)
    (Hfalsy : Js.truthy paymentId = false) :
  isPaymentAlreadyProcessed paymentId s = (inr false, s) ∧
  (∀ user req id n,
     VerifyReq.razorpay_payment_id req = paymentId →
     (verify env user req s).1 ≠ RSuccess "Payment already processed" id n) ∧
  (∀ user req id n,
     VerifyUpiReq.razorpay_payment_id req = paymentId →
     (verify_upi env user req s).1 ≠ RSuccess "Payment already verified" id n) ∧
  (∀ req payment,
     WebhookReq.payment req = Some payment →
     PaymentEntity.id payment = paymentId →
     (webhook env req s).1 ≠ RReceived (Some "already_processed")) ∧
  (∀ paymentId' s',
     (isPaymentAlreadyProcessed paymentId' s').1 = inr true →
     ∃ id o, orders s' !! id = Some o ∧ Order.paymentId o = paymentId' ∧
             Order.paymentStatus o = "Paid").
Proof.
  pose proof (isPaymentAlreadyProcessed_falsy _ s Hfalsy) as Hg.
  split_and!; [done|..].
  - intros user req id n Hreq. unfold verify, handler.
    rewrite (bind_eq _ _ _ _ _ (eq_ind_r (λ p, isPaymentAlreadyProcessed p s = _) Hg Hreq)).
    simpl. destruct (negb _); [done|].
    unfold bind.
    destruct (createOrderFromCart _ _ _ _) as [[?|?] ?]; [done|].
    destruct (saveAddressToUserOnPaymentSuccess _ _ _) as [[?|?] ?]; [done|].
    simpl. intros [= ? ? ?].
  - intros user req id n Hreq. unfold verify_upi, handler.
    rewrite (bind_eq _ _ _ _ _ (eq_ind_r (λ p, isPaymentAlreadyProcessed p s = _) Hg Hreq)).
    simpl. destruct (negb _).
    { unfold bind. destruct (createPaymentRecord _ _) as [[?|?] ?]; done. }
    destruct (Order_findByArg_run (VerifyUpiReq.orderId req) s)
      as [[found Hfound]|Hfound].
    2: { by rewrite (bind_throw _ _ _ _ _ Hfound). }
    rewrite (bind_eq _ _ _ _ _ Hfound).
    destruct found as [order|]; [|done].
    destruct (bool_decide _); [simpl; intros [= ? ? ?]|].
    unfold bind.
    destruct (saveOrder _ _) as [[?|?] ?]; [done|].
    destruct (reduceStockAfterPayment _ _) as [[?|[? ?]] ?]; [done|]. simpl.
    destruct (createPaymentRecord _ _) as [[?|?] ?]; [done|].
    destruct (saveAddressToUserOnPaymentSuccess _ _ _) as [[?|?] ?]; [done|].
    destruct (attachInvoice _ _ _) as [[?|?] ?]; [done|].
    simpl. intros [= ? ? ?].
  - intros req payment Hp Hid. unfold webhook, handler. rewrite Hp.
    destruct (negb _); [done|].
    destruct (bool_decide _); [|done].
    rewrite (bind_eq _ _ _ _ _ (eq_ind_r (λ p, isPaymentAlreadyProcessed p s = _) Hg Hid)).
    simpl.
    destruct (PaymentEntity.notes_orderId payment).
    { unfold bind. destruct (webhook_existing _ _ _ _) as [[?|?] ?]; done. }
    destruct (PaymentEntity.notes_userId payment); [|done].
    unfold bind. destruct (webhook_cart _ _ _ _) as [[?|?] ?]; done.
  - intros p s' H. by apply isPaymentAlreadyProcessed_true in H as [_ ?].
Qed.

(** ** Transactions *)

(** A transaction either commits the store its body produced or leaves
    the store it started from. *)
Lemma withTransaction_attempt_cases {A} retries (fn : DB A) s res s' :
  withTransaction_attempt retries fn s = (res, s') →
  (∃ a, res = inr a ∧ fn s = (inr a, s')) ∨
  (∃ e s1, res = inl e ∧ s' = s ∧ fn s = (inl e, s1)).
Proof.
  revert res s'. induction retries as [|r IH]; intros res s'; simpl.
  - destruct (fn s) as [[e|a] s1] eqn:E; intros [= <- <-].
    + right. by eexists _, _.
    + left. by eexists.
  - destruct (fn s) as [[e|a] s1] eqn:E.
    + destruct (isTransient e).
      * intros H. by apply IH.
      * intros [= <- <-]. right. by eexists _, _.
    + intros [= <- <-]. left. by eexists.
Qed.

Lemma withTransaction_cases {A} (fn : DB A) s res s' :
  withTransaction maxRetries fn s = (res, s') →
  (∃ a, res = inr a ∧ fn s = (inr a, s')) ∨
  (∃ e s1, res = inl e ∧ s' = s ∧ fn s = (inl e, s1)).
Proof. apply withTransaction_attempt_cases. Qed.

(** A body that succeeds is committed at the first attempt. *)
Lemma withTransaction_commit {A} (fn : DB A) s a s' :
  fn s = (inr a, s') → withTransaction maxRetries fn s = (inr a, s').
Proof. intros H. unfold withTransaction, maxRetries. simpl. by rewrite H. Qed.

(** ** The ledger *)

Lemma insertPayment_frame p s r s' :
  insertPayment p s = (r, s') →
  orders s' = orders s ∧ products s' = products s ∧
  carts s' = carts s ∧ users s' = users s.
Proof.
  unfold insertPayment.
  destruct (payment_invalid p); [by intros [= <- <-]|].
  destruct (existsb _ _); by intros [= <- <-].
Qed.

Lemma insertPayment_ok p s p' s' :
  insertPayment p s = (inr p', s') →
  p' = p ∧ payments s' = (payments s ++ [p])%list ∧
  payment_invalid p = None ∧
  existsb (clash_razorpayPaymentId p) (payments s) = false.
Proof.
  unfold insertPayment.
  destruct (payment_invalid p); [discriminate|].
  destruct (existsb _ _); [discriminate|]. by intros [= <- <-].
Qed.

Lemma insertPayment_err p s e s' :
  insertPayment p s = (inl e, s') → s' = s.
Proof.
  unfold insertPayment.
  destruct (payment_invalid p); [by intros [= <- <-]|].
  destruct (existsb _ _); [by intros [= <- <-]|discriminate].
Qed.

(** The order a ledger entry names, once cast. *)
Lemma createPaymentRecord_unfold paymentData s :
  createPaymentRecord paymentData s
  = match PaymentData.orderId paymentData with
    | Some IdMalformed => (inr None, s)
    | v =>
        match insertPayment
                (payment_record paymentData
                   (match v with Some (IdOf id) => Some id | _ => None end)) s
        with
        | (inr payment, s') => (inr (Some payment), s')
        | (inl _, s') => (inr None, s')
        end
    end.
Proof.
  unfold createPaymentRecord, cast_ObjectId, try_catch, bind.
  destruct (PaymentData.orderId paymentData) as [[id|]|]; [|done|];
    unfold ret;
    match goal with
    | |- context [insertPayment ?p s] =>
        by destruct (insertPayment p s) as [[e|p'] s']
    end.
Qed.

(** [createPaymentRecord] never throws and writes the ledger only. *)
Lemma createPaymentRecord_run paymentData s :
  ∃ r s', createPaymentRecord paymentData s = (inr r, s') ∧
          orders s' = orders s ∧ products s' = products s ∧
          carts s' = carts s ∧ users s' = users s.
Proof.
  rewrite createPaymentRecord_unfold.
  destruct (PaymentData.orderId paymentData) as [[id|]|];
    [|by eexists _, _|];
    (destruct (insertPayment _ s) as [[e|p] s'] eqn:E;
     apply insertPayment_frame in E; eauto).
Qed.

(** ** Stock reduction *)

Lemma reduceStock_item_run item s :
  ∃ s', reduceStock_item item s = (inr tt, s') ∧
        orders s' = orders s ∧ payments s' = payments s ∧
        carts s' = carts s ∧ users s' = users s.
Proof.
  unfold reduceStock_item.
  destruct (OrderItem.product item) as [pid|]; [|by eexists].
  unfold Product_findById. db_unfold.
  destruct (products s !! pid) as [p|]; [|by eexists].
  unfold saveProductStock.
  destruct (Z.ltb_spec (Z.max 0 (Product.stock p -
              Js.or_num (OrderItem.quantity item) 1)) 0); [lia|].
  by eexists.
Qed.

Lemma reduceStock_items_run items s :
  ∃ s', reduceStock_items items s = (inr tt, s') ∧
        orders s' = orders s ∧ payments s' = payments s ∧
        carts s' = carts s ∧ users s' = users s.
Proof.
  revert s. induction items as [|item rest IH]; intros s; simpl.
  - by eexists.
  - destruct (reduceStock_item_run item s) as (s1 & H1 & Ho & Hp & Hc & Hu).
    destruct (IH s1) as (s2 & H2 & Ho2 & Hp2 & Hc2 & Hu2).
    exists s2. rewrite (bind_eq _ _ _ _ _ H1). split; [done|].
    split_and!; congruence.
Qed.

(** What [reduceStockAfterPayment] does to an order whose flag is not
    set: it runs the loop, then saves the marked document. *)
Lemma reduceStockAfterPayment_unfold order s s1 :
  Order.stockReduced order.2 = false →
  reduceStock_items (Order.items order.2) s = (inr tt, s1) →
  reduceStockAfterPayment order s =
    match saveOrder (order.1, Order.set_stockReduced order.2 true) s1 with
    | (inr saved, s2) => (inr (true, saved), s2)
    | (inl _, s2) =>
        (inr (false, (order.1, Order.set_stockReduced order.2 true)), s2)
    end.
Proof.
  intros Hflag Hloop. unfold reduceStockAfterPayment. rewrite Hflag.
  unfold try_catch at 1. rewrite (bind_eq _ _ _ _ _ Hloop).
  unfold try_catch, bind, ret.
  by destruct (saveOrder _ s1) as [[?|?] ?].
Qed.

(** C8. Replaying the stock reduction for an order whose [stockReduced]
    flag is set answers false and changes neither the store (so no stock)
    nor the document; a reduction that answers true started from a clear
    flag, stores the flag set, and its replay is such a no-op; and the
    transactional settlement leaves the stock alone when the flag is set. *)
Theorem reduceStock_replay_is_noop
    (order : OrderDoc) (s : Store)
    (Hflag : Order.stockReduced order.2 = true) :
  reduceStockAfterPayment order s = (inr (false, order), s) ∧
  (∀ paymentData reduceStock,
     products (executePaymentTransaction order paymentData reduceStock s).2
     = products s) ∧
  (∀ order0 s0 saved s1,
     reduceStockAfterPayment order0 s0 = (inr (true, saved), s1) →
     Order.stockReduced order0.2 = false ∧
     Order.stockReduced saved.2 = true ∧
     orders s1 !! saved.1 = Some saved.2 ∧
     reduceStockAfterPayment saved s1 = (inr (false, saved), s1)).
Proof.
  split_and!.
  - unfold reduceStockAfterPayment. by rewrite Hflag.
  - intros pd rs. unfold executePaymentTransaction.
    set (o1 := Order.push_history _ _ _).
    assert (Order.stockReduced o1 = true) as Hfl1 by exact Hflag.
    clearbody o1.
    destruct (withTransaction _ _ _) as [res s'] eqn:E.
    apply withTransaction_cases in E as [(a & -> & E)|(e & s1 & -> & -> & _)];
      [|done].
    cbn [snd].
    apply bind_inr in E as (d1 & s1 & Hsave & E).
    apply bind_inr in E as (d2 & s2 & Hskip & E).
    apply bind_inr in E as (pay & s3 & Hpay & E).
    injection E as <- <-.
    pose proof (saveOrder_frame _ _ _ _ Hsave) as (_ & Hp1 & _).
    apply saveOrder_doc in Hsave
      as (_ & _ & _ & _ & _ & _ & _ & _ & _ & _ & Hfl & _).
    cbn [snd] in Hfl.
    rewrite Hfl, Hfl1, andb_false_r in Hskip. simpl in Hskip.
    injection Hskip as <- <-.
    unfold try_catch, bind, ret, throw in Hpay.
    destruct (insertPayment _ _) as [[e|p] s4] eqn:Hins;
      apply insertPayment_frame in Hins as (_ & Hprod & _).
    + destruct e; try discriminate. injection Hpay as <- <-. congruence.
    + injection Hpay as <- <-. congruence.
  - intros order0 s0 saved s1 H.
    destruct (Order.stockReduced order0.2) eqn:Hf0.
    { unfold reduceStockAfterPayment in H. rewrite Hf0 in H. discriminate. }
    destruct (reduceStock_items_run (Order.items order0.2) s0) as (s' & Hl & _).
    rewrite (reduceStockAfterPayment_unfold _ _ _ Hf0 Hl) in H.
    destruct (saveOrder _ s') as [[e|d] s2] eqn:Hsave; [discriminate|].
    injection H as -> ->.
    apply saveOrder_doc in Hsave
      as (Hid & Hst & _ & _ & _ & _ & _ & _ & _ & _ & Hfl & _).
    cbn [fst snd] in *.
    split_and!; [done|done|by rewrite Hid|].
    unfold reduceStockAfterPayment. by rewrite Hfl.
Qed.

(** ** Properties of the store that a computation keeps *)

Section Preserves.
Context (P : Store → Prop).

Lemma preserves_ret {A} (a : A) : preserves P (ret a).
Proof. intros s r s' [= <- <-]. done. Qed.

Lemma preserves_throw {A} e : preserves P (@throw A e).
Proof. intros s r s' [= <- <-]. done. Qed.

Lemma preserves_gets {A} (f : Store → A) : preserves P (gets f).
Proof. intros s r s' [= <- <-]. done. Qed.

Lemma preserves_bind {A B} (m : DB A) (k : A → DB B) :
  preserves P m → (∀ a, preserves P (k a)) → preserves P (bind m k).
Proof.
  intros Hm Hk s r s'. unfold bind.
  destruct (m s) as [[e|a] s1] eqn:E.
  - intros [= <- <-]. eauto.
  - intros H HP. eapply Hk; eauto.
Qed.

Lemma preserves_try_catch {A} (m : DB A) (h : Err → DB A) :
  preserves P m → (∀ e, preserves P (h e)) → preserves P (try_catch m h).
Proof.
  intros Hm Hh s r s'. unfold try_catch.
  destruct (m s) as [[e|a] s1] eqn:E.
  - intros H HP. eapply Hh; eauto.
  - intros [= <- <-]. eauto.
Qed.

Lemma preserves_withTransaction {A} (fn : DB A) :
  preserves P fn → preserves P (withTransaction maxRetries fn).
Proof.
  intros Hfn s r s' H HP.
  apply withTransaction_cases in H as [(a & -> & E)|(e & s1 & -> & -> & _)];
    eauto.
Qed.


Lemma preserves_saveOrder d : orders_indep P → preserves P (saveOrder d).
Proof.
  intros HI s [e|d'] s'.
  - by intros ->%saveOrder_err.
  - intros (old & _ & _ & ->)%saveOrder_ok HP. by apply HI.
Qed.

Lemma preserves_insertOrder o : orders_indep P → preserves P (insertOrder o).
Proof.
  intros HI s [e|d'] s'.
  - by intros ->%insertOrder_err.
  - intros (_ & -> & _)%insertOrder_ok HP. by apply HI.
Qed.

Lemma preserves_insertPayment p :
  payments_indep P → preserves P (insertPayment p).
Proof.
  intros HI s [e|d'] s'.
  - by intros ->%insertPayment_err.
  - unfold insertPayment. destruct (payment_invalid p); [discriminate|].
    destruct (existsb _ _); [discriminate|].
    intros [= <- <-] HP. by apply HI.
Qed.

Lemma preserves_createPaymentRecord paymentData :
  payments_indep P → preserves P (createPaymentRecord paymentData).
Proof.
  intros HI. apply preserves_try_catch.
  - apply preserves_bind.
    + unfold cast_ObjectId.
      destruct (PaymentData.orderId paymentData) as [[id|]|];
        first [apply preserves_ret|apply preserves_throw].
    + intros order. apply preserves_bind; [by apply preserves_insertPayment|].
      intros a. apply preserves_ret.
  - intros e. apply preserves_ret.
Qed.

Lemma preserves_clearCart userId : carts_indep P → preserves P (clearCart userId).
Proof. intros HI s r s' [= <- <-] HP. by apply HI. Qed.

Lemma preserves_saveAddress userId shippingAddress :
  users_indep P →
  preserves P (saveAddressToUserOnPaymentSuccess userId shippingAddress).
Proof.
  intros HI. unfold saveAddressToUserOnPaymentSuccess.
  destruct shippingAddress as [a|]; [|apply preserves_ret].
  destruct (negb _); [apply preserves_ret|].
  apply preserves_try_catch; [|intros; apply preserves_ret].
  apply preserves_bind; [apply preserves_gets|].
  intros [addresses|]; [|apply preserves_ret].
  destruct (existsb _ _); [apply preserves_ret|].
  intros s r s' [= <- <-] HP. by apply HI.
Qed.

Lemma preserves_invoiceFor env order : preserves P (invoiceFor env order).
Proof.
  unfold invoiceFor. destruct (generateAndSaveInvoice env order).
  - apply preserves_ret.
  - apply preserves_throw.
Qed.

Lemma preserves_attachInvoice env order :
  orders_indep P → preserves P (attachInvoice env order).
Proof.
  intros HI. apply preserves_try_catch; [|intros; apply preserves_ret].
  apply preserves_bind; [apply preserves_invoiceFor|].
  intros a. by apply preserves_saveOrder.
Qed.

Lemma preserves_isPaymentAlreadyProcessed paymentId :
  preserves P (isPaymentAlreadyProcessed paymentId).
Proof.
  unfold isPaymentAlreadyProcessed. destruct (negb _); [apply preserves_ret|].
  apply preserves_bind; [apply preserves_gets|]. intros; apply preserves_ret.
Qed.

Lemma preserves_enrichItems items acc total :
  preserves P (enrichItems items acc total).
Proof.
  revert acc total. induction items as [|item rest IH]; intros acc total; simpl.
  - apply preserves_ret.
  - destruct (CartItem.product item); [apply IH| |apply IH].
    apply preserves_bind; [apply preserves_gets|].
    intros [prod|]; [apply IH|apply preserves_throw].
Qed.
End Preserves.

(** ** Stock: the three updates *)

Lemma stock_of_set_products s pid p n q :
  stock_of (set_products s (<[pid := Product.set_stock p n]> (products s))) q
  = if decide (q = pid) then Some n else stock_of s q.
Proof.
  unfold stock_of. simpl. destruct (decide (q = pid)) as [->|Hne].
  - by rewrite lookup_insert_eq.
  - by rewrite lookup_insert_ne.
Qed.

Lemma stock_nonneg_set_products s pid p n :
  stock_nonneg s → (0 ≤ n)%Z →
  stock_nonneg (set_products s (<[pid := Product.set_stock p n]> (products s))).
Proof.
  intros Hs Hn q prod. simpl. destruct (decide (q = pid)) as [->|Hne].
  - rewrite lookup_insert_eq. by intros [= <-].
  - rewrite lookup_insert_ne by done. apply Hs.
Qed.

(** The clamped write of [reduceStockAfterPayment]. *)
Lemma reduceStock_item_stock item s q :
  stock_of (reduceStock_item item s).2 q
  = if bool_decide (OrderItem.product item = Some q)
    then (λ st, Z.max 0 (st - line_quantity item))%Z <$> stock_of s q
    else stock_of s q.
Proof.
  unfold reduceStock_item.
  destruct (OrderItem.product item) as [pid|]; [|done].
  unfold Product_findById. db_unfold.
  destruct (products s !! pid) as [p|] eqn:Hp.
  - unfold saveProductStock.
    destruct (Z.ltb_spec (Z.max 0 (Product.stock p -
                Js.or_num (OrderItem.quantity item) 1)) 0); [lia|].
    unfold modify. cbn [snd]. rewrite stock_of_set_products.
    case_bool_decide as Hq.
    + injection Hq as ->. rewrite decide_True by done.
      unfold stock_of. by rewrite Hp.
    + rewrite decide_False; [done|congruence].
  - simpl. case_bool_decide as Hq; [|done].
    injection Hq as ->. unfold stock_of. by rewrite Hp.
Qed.

Lemma reduceStock_item_nonneg item : preserves stock_nonneg (reduceStock_item item).
Proof.
  intros s r s'. unfold reduceStock_item.
  destruct (OrderItem.product item) as [pid|]; [|by intros [= <- <-]].
  unfold Product_findById. db_unfold.
  destruct (products s !! pid) as [p|]; [|by intros [= <- <-]].
  unfold saveProductStock. destruct (_ <? 0)%Z; [by intros [= <- <-]|].
  intros [= <- <-] Hs. apply stock_nonneg_set_products; [done|lia].
Qed.




(** The unconditional add of [cancelOrderWithStockRestore]. *)
Lemma Product_increment_stock pid qty s q :
  stock_of (Product_increment pid qty s).2 q
  = if decide (q = pid) then (λ st, st + qty)%Z <$> stock_of s q
    else stock_of s q.
Proof.
  unfold Product_increment.
  destruct (products s !! pid) as [p|] eqn:Hp.
  - cbn [snd]. rewrite stock_of_set_products.
    destruct (decide (q = pid)) as [->|]; [|done].
    unfold stock_of. by rewrite Hp.
  - simpl. destruct (decide (q = pid)) as [->|]; [|done].
    unfold stock_of. by rewrite Hp.
Qed.

Lemma Product_increment_result pid qty s :
  ∃ s', Product_increment pid qty s = (inr tt, s') ∧ orders s' = orders s.
Proof.
  unfold Product_increment. destruct (products s !! pid); by eexists.
Qed.


(** ** Stock: the loops *)


Lemma reduceStock_items_nonneg items :
  preserves stock_nonneg (reduceStock_items items).
Proof.
  induction items as [|item rest IH]; simpl.
  - apply preserves_ret.
  - apply preserves_bind; [apply reduceStock_item_nonneg|]. intros _. apply IH.
Qed.




(** The restore loop adds, to every product, what the order asks of it. *)
Lemma restoreStock_items_stock items s q :
  ∃ s', restoreStock_items items s = (inr tt, s') ∧ orders s' = orders s ∧
        stock_of s' q = (λ st, st + requested items q)%Z <$> stock_of s q.
Proof.
  revert s. induction items as [|item rest IH]; intros s; simpl.
  - exists s. split_and!; [done..|].
    destruct (stock_of s q); simpl; f_equal; lia.
  - destruct (OrderItem.product item) as [pid|] eqn:Hprod.
    + destruct (Product_increment_result pid
                  (Js.or_num (OrderItem.quantity item) 1) s) as (s1 & H1 & Ho1).
      destruct (IH s1) as (s2 & H2 & Ho2 & Hst).
      exists s2. rewrite (bind_eq _ _ _ _ _ H1). split_and!; [done|congruence|].
      rewrite Hst.
      pose proof (Product_increment_stock pid
                    (Js.or_num (OrderItem.quantity item) 1) s q) as Hinc.
      rewrite H1 in Hinc. cbn [snd] in Hinc. rewrite Hinc.
      case_bool_decide as Hq.
      * injection Hq as ->. rewrite decide_True by done.
        destruct (stock_of s q); simpl; f_equal; unfold line_quantity; lia.
      * rewrite decide_False by congruence.
        destruct (stock_of s q); simpl; f_equal; lia.
    + destruct (IH s) as (s2 & H2 & Ho2 & Hst).
      exists s2. split_and!; [done..|]. rewrite Hst.
      rewrite bool_decide_eq_false_2 by congruence.
      by destruct (stock_of s q).
Qed.

(** ** Preservation through the helpers and the handlers *)

Ltac indep := first [assumption | by (intros ? ? ?)].

Ltac pres_step :=
  match goal with
  | |- preserves _ (ret _) => apply preserves_ret
  | |- preserves _ (throw _) => apply preserves_throw
  | |- preserves _ (gets _) => apply preserves_gets
  | |- preserves _ (saveOrder _) => apply preserves_saveOrder; indep
  | |- preserves _ (insertOrder _) => apply preserves_insertOrder; indep
  | |- preserves _ (insertPayment _) => apply preserves_insertPayment; indep
  | |- preserves _ (createPaymentRecord _) =>
      apply preserves_createPaymentRecord; indep
  | |- preserves _ (clearCart _) => apply preserves_clearCart; indep
  | |- preserves _ (saveAddressToUserOnPaymentSuccess _ _) =>
      apply preserves_saveAddress; indep
  | |- preserves _ (invoiceFor _ _) => apply preserves_invoiceFor
  | |- preserves _ (attachInvoice _ _) => apply preserves_attachInvoice; indep
  | |- preserves _ (isPaymentAlreadyProcessed _) =>
      apply preserves_isPaymentAlreadyProcessed
  | |- preserves _ (enrichItems _ _ _) => apply preserves_enrichItems
  | |- preserves _ (Order_findById _) => apply preserves_gets
  | |- preserves _ (Order_findByArg ?v) =>
      unfold Order_findByArg; destruct v as [[?|]|]
  | |- preserves _ (cast_ObjectId _ ?v) =>
      unfold cast_ObjectId; destruct v as [[?|]|]
  | |- preserves _ (Order_findOne_paymentId _) => apply preserves_gets
  | |- preserves _ (Order_findOne_paid _) => apply preserves_gets
  | |- preserves _ (respond_existing _ ?x) =>
      unfold respond_existing; destruct x
  | |- preserves _ (withTransaction maxRetries _) =>
      apply preserves_withTransaction
  | |- preserves _ (bind _ _) => apply preserves_bind; [|intros ?]
  | |- preserves _ (try_catch _ _) => apply preserves_try_catch; [|intros ?]
  | |- preserves _ (match ?x with _ => _ end) => destruct x
  | H : preserves ?P ?m |- preserves ?P ?m => exact H
  end.


Section PreservesHandlers.
Context (P : Store → Prop).
Context (HO : orders_indep P) (HP : payments_indep P)
        (HC : carts_indep P) (HU : users_indep P).
(** [P] survives the clamped stock write. *)
Context (Hreduce : ∀ item, preserves P (reduceStock_item item)).







End PreservesHandlers.

(** ** Stock is never negative *)





(** ** What the stock steps write *)


(** With enough stock for all its lines, the clamped write subtracts what
    the order asks for. *)
Lemma reduceStock_items_sufficient items s q st :
  Forall (λ item, 0 ≤ line_quantity item)%Z items →
  stock_of s q = Some st →
  (requested items q ≤ st)%Z →
  stock_of (reduceStock_items items s).2 q = Some (st - requested items q)%Z.
Proof.
  revert s st. induction items as [|item rest IH]; intros s st Hq Hst Hle.
  - simpl. rewrite Hst. f_equal. lia.
  - apply Forall_cons in Hq as [Hq Hrest]. simpl in *.
    assert (0 ≤ requested rest q)%Z as Hpos.
    { clear -Hrest. induction Hrest; simpl; [lia|].
      case_bool_decide; lia. }
    destruct (reduceStock_item_run item s) as (s1 & H1 & _).
    pose proof (reduceStock_item_stock item s q) as Hitem.
    rewrite H1 in Hitem. cbn [snd] in Hitem.
    rewrite (bind_eq _ _ _ _ _ H1).
    rewrite Hst in Hitem. simpl in Hitem.
    case_bool_decide as Hp.
    + rewrite (IH s1 (st - line_quantity item)%Z); [f_equal; lia|done| |lia].
      rewrite Hitem. f_equal. lia.
    + rewrite (IH s1 st); [f_equal; lia|done..|lia].
Qed.

Lemma Product_decrementIfEnough_run pid qty s :
  ∃ n s', Product_decrementIfEnough pid qty s = (inr n, s') ∧
          orders s' = orders s ∧ payments s' = payments s ∧
          carts s' = carts s ∧ users s' = users s.
Proof.
  unfold Product_decrementIfEnough.
  destruct (products s !! pid); [destruct (_ <=? _)%Z|]; by eexists _, _.
Qed.

Lemma decrementStock_items_run items s :
  ∃ s', decrementStock_items items s = (inr tt, s') ∧
        orders s' = orders s ∧ payments s' = payments s ∧
        carts s' = carts s ∧ users s' = users s.
Proof.
  revert s. induction items as [|item rest IH]; intros s; simpl.
  - by eexists.
  - destruct (OrderItem.product item) as [pid|]; [|apply IH].
    destruct (Product_decrementIfEnough_run pid
                (Js.or_num (OrderItem.quantity item) 1) s)
      as (n & s1 & H1 & Ho & Hp & Hc & Hu).
    destruct (IH s1) as (s2 & H2 & Ho2 & Hp2 & Hc2 & Hu2).
    exists s2. rewrite (bind_eq _ _ _ _ _ H1).
    split_and!; congruence.
Qed.








(** ** Settlement followed by cancellation *)

Lemma stock_of_products s s' q :
  products s' = products s → stock_of s' q = stock_of s q.
Proof. unfold stock_of. by intros ->. Qed.

(** What a committed cancellation does to the stock of a product. *)
Lemma cancelOrderWithStockRestore_stock id reason cancelledBy s c s' o q :
  cancelOrderWithStockRestore id reason cancelledBy s = (inr c, s') →
  orders s !! id = Some o →
  Order.status o ≠ "CANCELLED" ∧
  stock_of s' q
  = if Order.stockReduced o
    then (λ st, st + requested (Order.items o) q)%Z <$> stock_of s q
    else stock_of s q.
Proof.
  intros E Ho. unfold cancelOrderWithStockRestore in E.
  apply withTransaction_cases in E as [(a & [= <-] & E)|(e & s1 & ? & _)];
    [|discriminate].
  unfold Order_findById in E.
  apply bind_inr in E as (found & s1 & Hfound & E).
  injection Hfound as <- <-. rewrite Ho in E. simpl in E.
  case_bool_decide as Hst; [discriminate|]. split; [done|].
  apply bind_inr in E as ([] & s2 & Hrestore & Hsave).
  apply saveOrder_frame in Hsave as (_ & Hprod & _).
  rewrite (stock_of_products _ _ _ Hprod).
  destruct (Order.stockReduced o); simpl in Hrestore.
  - case_bool_decide as Hlen.
    + destruct (restoreStock_items_stock (Order.items o) s q)
        as (s2' & H2 & _ & Hstock).
      rewrite H2 in Hrestore. by injection Hrestore as <-.
    + injection Hrestore as <-.
      destruct (Order.items o); [|simpl in Hlen; lia]. simpl.
      destruct (stock_of s q); simpl; f_equal; lia.
  - by injection Hrestore as <-.
Qed.

(** Cancelling an order whose stock was never reduced leaves every
    product as it is, whether the cancellation commits or not. *)
Lemma cancelOrderWithStockRestore_unsettled id reason cancelledBy s o :
  orders s !! id = Some o →
  Order.stockReduced o = false →
  products (cancelOrderWithStockRestore id reason cancelledBy s).2 = products s.
Proof.
  intros Ho Hflag. unfold cancelOrderWithStockRestore.
  destruct (withTransaction _ _ _) as [res s'] eqn:E.
  apply withTransaction_cases in E as [(a & -> & E)|(e & s1 & -> & -> & _)];
    [|done].
  cbn [snd]. unfold Order_findById in E.
  apply bind_inr in E as (found & s1 & Hfound & E).
  injection Hfound as <- <-. rewrite Ho in E. simpl in E.
  destruct (bool_decide _); [discriminate|].
  rewrite Hflag in E. simpl in E.
  apply bind_inr in E as ([] & s2 & [= <-] & Hsave).
  by apply saveOrder_frame in Hsave as (_ & Hprod & _).
Qed.

(** A stock reduction that answers true ran the loop and stored the
    marked document. *)
Lemma reduceStockAfterPayment_true order s saved s1 :
  reduceStockAfterPayment order s = (inr (true, saved), s1) →
  Order.stockReduced order.2 = false ∧
  saved.1 = order.1 ∧
  orders s1 !! order.1 = Some saved.2 ∧
  Order.items saved.2 = Order.items order.2 ∧
  Order.stockReduced saved.2 = true ∧
  products s1 = products (reduceStock_items (Order.items order.2) s).2.
Proof.
  intros H.
  destruct (Order.stockReduced order.2) eqn:Hf0.
  { unfold reduceStockAfterPayment in H. rewrite Hf0 in H. discriminate. }
  destruct (reduceStock_items_run (Order.items order.2) s) as (s' & Hl & _).
  rewrite (reduceStockAfterPayment_unfold _ _ _ Hf0 Hl) in H.
  destruct (saveOrder _ s') as [[e|d] s2] eqn:Hsave; [discriminate|].
  injection H as -> ->.
  pose proof (saveOrder_frame _ _ _ _ Hsave) as (_ & Hprod & _).
  apply saveOrder_doc in Hsave
    as (Hid & Hst & _ & Hitems & _ & _ & _ & _ & _ & _ & Hfl & _).
  rewrite Hl. cbn [fst snd] in *. done.
Qed.

(** C4, as the code has it.  After a settlement that reduced the stock of
    an order, a committed cancellation adds to every product exactly the
    quantity the order asks of it, whatever the settlement had taken.  So
    where the settlement had subtracted that quantity, as it does whenever
    the stock covers the order, the stock is what it was before the
    settlement; where the stock did not cover the order the settlement
    has written the clamped difference and the stock ends higher than it
    was: for an order of one line, at the larger of the old stock and the
    quantity.  Cancelling an order whose stock was never reduced changes
    no stock. *)
Theorem settle_then_cancel_restores_stock
    (order saved cancelled : OrderDoc) (s s1 s2 : Store)
    (reason : option string) (cancelledBy : nat)
    (Hsettle : reduceStockAfterPayment order s = (inr (true, saved), s1))
    (Hcancel : cancelOrderWithStockRestore order.1 reason cancelledBy s1
               = (inr cancelled, s2)) :
  (∀ q, stock_of s2 q
        = (λ st, st + requested (Order.items order.2) q)%Z <$> stock_of s1 q) ∧
  (∀ q, stock_of s1 q
        = (λ st, st - requested (Order.items order.2) q)%Z <$> stock_of s q →
        stock_of s2 q = stock_of s q) ∧
  (∀ q st,
     Forall (λ item, 0 ≤ line_quantity item)%Z (Order.items order.2) →
     stock_of s q = Some st →
     (requested (Order.items order.2) q ≤ st)%Z →
     stock_of s1 q = Some (st - requested (Order.items order.2) q)%Z ∧
     stock_of s2 q = Some st) ∧
  (∀ item q st,
     Order.items order.2 = [item] →
     OrderItem.product item = Some q →
     stock_of s q = Some st →
     stock_of s1 q = Some (Z.max 0 (st - line_quantity item)) ∧
     stock_of s2 q = Some (Z.max st (line_quantity item)) ∧
     ((st < line_quantity item)%Z →
      stock_of s1 q = Some 0%Z ∧ stock_of s2 q = Some (line_quantity item) ∧
      stock_of s2 q ≠ stock_of s q)) ∧
  (∀ id o s0 reason' cancelledBy',
     orders s0 !! id = Some o →
     Order.stockReduced o = false →
     products (cancelOrderWithStockRestore id reason' cancelledBy' s0).2
     = products s0).
Proof.
  apply reduceStockAfterPayment_true in Hsettle
    as (Hf0 & Hid & Hstored & Hitems & Hfl & Hprod).
  assert (∀ q, stock_of s2 q
        = (λ st, st + requested (Order.items order.2) q)%Z <$> stock_of s1 q)
    as Hrestore.
  { intros q.
    destruct (cancelOrderWithStockRestore_stock _ _ _ _ _ _ _ q Hcancel Hstored)
      as [_ H].
    by rewrite Hfl, Hitems in H. }
  split_and!.
  - exact Hrestore.
  - intros q Hdec. rewrite Hrestore, Hdec.
    destruct (stock_of s q); simpl; f_equal; lia.
  - intros q st Hpos Hst Hle.
    assert (stock_of s1 q = Some (st - requested (Order.items order.2) q)%Z)
      as H1.
    { rewrite (stock_of_products _ _ _ Hprod).
      by apply reduceStock_items_sufficient. }
    split; [done|]. rewrite Hrestore, H1. simpl. f_equal. lia.
  - intros item q st Hone Hq Hst.
    assert (stock_of s1 q = Some (Z.max 0 (st - line_quantity item))) as H1.
    { rewrite (stock_of_products _ _ _ Hprod), Hone. cbn [reduceStock_items].
      destruct (reduceStock_item_run item s) as (t & Ht & _).
      rewrite (bind_eq _ _ _ _ _ Ht). cbn [ret snd].
      pose proof (reduceStock_item_stock item s q) as Hitem.
      rewrite Ht, bool_decide_eq_true_2, Hst in Hitem by done.
      exact Hitem. }
    assert (stock_of s2 q = Some (Z.max st (line_quantity item))) as H2.
    { rewrite Hrestore, H1, Hone. cbn [requested].
      rewrite bool_decide_eq_true_2 by done. simpl. f_equal. lia. }
    split_and!; [done..|]. intros Hlt. rewrite H1, H2, Hst.
    split_and!; [f_equal; lia..|]. intros [=]. lia.
  - intros. by eapply cancelOrderWithStockRestore_unsettled.
Qed.

(** ** Documents through the helpers *)

Lemma same_settlement_refl o : same_settlement o o.
Proof. by repeat split. Qed.

Lemma same_settlement_trans o1 o2 o3 :
  same_settlement o1 o2 → same_settlement o2 o3 → same_settlement o1 o3.
Proof. unfold same_settlement. intuition congruence. Qed.

Lemma same_settlement_assign count o :
  same_settlement o (assign_orderNumber count o).
Proof.
  unfold assign_orderNumber. destruct (String.eqb _ _); by repeat split.
Qed.

Lemma saveOrder_same d s d' s' :
  saveOrder d s = (inr d', s') →
  d'.1 = d.1 ∧ same_settlement d.2 d'.2 ∧ orders s' !! d.1 = Some d'.2 ∧
  Order.stockReduced d'.2 = Order.stockReduced d.2 ∧
  Order.invoicePath d'.2 = Order.invoicePath d.2 ∧
  Order.invoiceUrl d'.2 = Order.invoiceUrl d.2.
Proof.
  intros H. pose proof (saveOrder_doc _ _ _ _ H) as Hdoc.
  apply saveOrder_ok in H as (old & Hold & -> & ->).
  cbn [fst snd] in *. split_and!; try tauto.
  - apply same_settlement_assign.
  - unfold assign_orderNumber. by destruct (String.eqb _ _).
  - unfold assign_orderNumber. by destruct (String.eqb _ _).
Qed.

Lemma insertOrder_same o s d s' :
  insertOrder o s = (inr d, s') →
  d.1 = length (orders s) ∧ same_settlement o d.2 ∧
  orders s' = (orders s ++ [d.2])%list ∧
  Order.orderNumber d.2 ≠ "" ∧
  Order.stockReduced d.2 = Order.stockReduced o ∧
  existsb (clash_paymentId d.2) (orders s) = false ∧
  payments s' = payments s ∧ products s' = products s ∧
  carts s' = carts s ∧ users s' = users s.
Proof.
  intros (-> & -> & _ & Hidx)%insertOrder_ok. cbn [fst snd] in *.
  split_and!; [done|apply same_settlement_assign|done|..|done|done|done|done].
  - unfold assign_orderNumber.
    destruct (String.eqb_spec (Order.orderNumber o) ""); [|done].
    unfold orderNumber_for. done.
  - unfold assign_orderNumber. by destruct (String.eqb _ _).
  - unfold order_index_error in Hidx.
    destruct (existsb (clash_orderNumber _) _); [discriminate|].
    by destruct (existsb (clash_paymentId _) _).
Qed.

(** The document [reduceStockAfterPayment] leaves in the caller's hands. *)
Lemma reduceStockAfterPayment_same order s b d s' :
  reduceStockAfterPayment order s = (inr (b, d), s') →
  d.1 = order.1 ∧ same_settlement order.2 d.2 ∧
  Order.invoicePath d.2 = Order.invoicePath order.2 ∧
  Order.invoiceUrl d.2 = Order.invoiceUrl order.2.
Proof.
  destruct (Order.stockReduced order.2) eqn:Hf0.
  { unfold reduceStockAfterPayment. rewrite Hf0. intros [= <- <- <-].
    split_and!; [done|apply same_settlement_refl|done..]. }
  destruct (reduceStock_items_run (Order.items order.2) s) as (s1 & Hl & _).
  rewrite (reduceStockAfterPayment_unfold _ _ _ Hf0 Hl).
  destruct (saveOrder _ s1) as [[e|d'] s2] eqn:Hsave.
  - intros [= <- <- <-]. by repeat split.
  - intros [= <- <- <-].
    apply saveOrder_same in Hsave as (Hid & Hsame & _ & _ & Hp & Hu).
    cbn [fst snd] in *. split_and!; [done| |done..].
    eapply same_settlement_trans; [|exact Hsame]. by repeat split.
Qed.

(** ** Shipping charge and total *)

Lemma items_subtotal_snoc items item :
  items_subtotal (items ++ [item])
  = (items_subtotal items + OrderItem.price item * OrderItem.quantity item)%Z.
Proof. induction items as [|i rest IH]; simpl; lia. Qed.

(** The loop reads the store only, and the total it accumulates is the
    subtotal of the lines it adds. *)
Lemma enrichItems_total items acc total s enriched total' s' :
  enrichItems items acc total s = (inr (enriched, total'), s') →
  s' = s ∧
  (total' - total = items_subtotal enriched - items_subtotal acc)%Z.
Proof.
  revert acc total. induction items as [|item rest IH]; intros acc total; simpl.
  - intros [= <- <- <-]. split; [done|lia].
  - destruct (CartItem.product item) as [demo|pid|].
    + intros (-> & H)%IH. split; [done|].
      rewrite items_subtotal_snoc in H. simpl in H. lia.
    + unfold bind, Product_findById, gets.
      destruct (products s !! pid) as [p|]; [|discriminate].
      intros (-> & H)%IH. split; [done|].
      rewrite items_subtotal_snoc in H. simpl in H. lia.
    + intros (-> & H)%IH. split; [done|].
      rewrite items_subtotal_snoc in H. simpl in H. lia.
Qed.

(** ** Counting the documents that bear a payment id *)

Lemma no_clash_paymentId o l pid :
  Order.paymentId o = Some pid →
  existsb (clash_paymentId o) l = false →
  filter (λ o', Order.paymentId o' = Some pid) l = [].
Proof.
  intros Hpid. unfold clash_paymentId. rewrite Hpid.
  induction l as [|o' l IH]; [done|]. simpl.
  intros [H1 H2]%orb_false_elim. apply bool_decide_eq_false in H1.
  rewrite filter_cons_False by done. by apply IH.
Qed.

Lemma no_clash_razorpayPaymentId p l pid :
  Payment.razorpayPaymentId p = Some pid →
  existsb (clash_razorpayPaymentId p) l = false →
  filter (λ p', Payment.razorpayPaymentId p' = Some pid) l = [].
Proof.
  intros Hpid. unfold clash_razorpayPaymentId. rewrite Hpid.
  induction l as [|p' l IH]; [done|]. simpl.
  intros [H1 H2]%orb_false_elim. apply bool_decide_eq_false in H1.
  rewrite filter_cons_False by done. by apply IH.
Qed.

Lemma clash_razorpayPaymentId_some p l pid :
  Payment.razorpayPaymentId p = Some pid →
  existsb (clash_razorpayPaymentId p) l = true →
  0 < length (filter (λ p', Payment.razorpayPaymentId p' = Some pid) l).
Proof.
  intros Hpid. unfold clash_razorpayPaymentId. rewrite Hpid.
  induction l as [|p' l IH]; [done|]. simpl.
  destruct (bool_decide_reflect (Payment.razorpayPaymentId p' = Some pid)).
  - intros _. rewrite filter_cons_True by done. simpl. lia.
  - simpl. intros H. rewrite filter_cons_False by done. by apply IH.
Qed.

Lemma insertPayment_count p s pid :
  Payment.razorpayPaymentId p = Some pid →
  payment_invalid p = None →
  payments_with (Some pid) (insertPayment p s).2
  = Nat.max 1 (payments_with (Some pid) s).
Proof.
  intros Hp Hvalid. unfold insertPayment. rewrite Hvalid.
  destruct (existsb _ _) eqn:Hclash; unfold payments_with; cbn [snd payments set_payments].
  - apply (clash_razorpayPaymentId_some _ _ _ Hp) in Hclash. lia.
  - rewrite filter_app, length_app.
    rewrite (no_clash_razorpayPaymentId _ _ _ Hp Hclash).
    rewrite filter_cons_True by done. done.
Qed.

(** A valid ledger entry with a payment id, for an order id that casts,
    is written unless the id is taken: afterwards the ledger holds the
    entries it held, and at least one with that id. *)
Lemma createPaymentRecord_count paymentData s pid :
  PaymentData.orderId paymentData ≠ Some IdMalformed →
  PaymentData.paymentId paymentData = Some pid →
  in_enum (Js.or_str (PaymentData.method paymentData) "UPI") Payment.methodEnum
  = true →
  in_enum (Js.or_str (PaymentData.status paymentData) "PAID") Payment.statusEnum
  = true →
  payments_with (Some pid) (createPaymentRecord paymentData s).2
  = Nat.max 1 (payments_with (Some pid) s).
Proof.
  intros Hcast Hpid Hm Hst. rewrite createPaymentRecord_unfold.
  assert (∀ order, payment_invalid (payment_record paymentData order) = None)
    as Hvalid.
  { intros order. unfold payment_invalid.
    cbn [payment_record Payment.method Payment.status]. by rewrite Hm, Hst. }
  destruct (PaymentData.orderId paymentData) as [[id|]|]; [|done|];
    match goal with
    | |- context [insertPayment ?p s] =>
        rewrite <- (insertPayment_count p s pid Hpid (Hvalid _));
        by destruct (insertPayment p s) as [[e|p'] s']
    end.
Qed.

(** ** Creating the order from the cart *)

Lemma reduceStockAfterPayment_frame order s r s' :
  reduceStockAfterPayment order s = (r, s') →
  payments s' = payments s ∧ carts s' = carts s ∧ users s' = users s ∧
  length (orders s') = length (orders s) ∧
  ∀ j, j ≠ order.1 → orders s' !! j = orders s !! j.
Proof.
  destruct (Order.stockReduced order.2) eqn:Hf0.
  { unfold reduceStockAfterPayment. rewrite Hf0. by intros [= <- <-]. }
  destruct (reduceStock_items_run (Order.items order.2) s)
    as (s1 & Hl & Ho & Hp & Hc & Hu).
  rewrite (reduceStockAfterPayment_unfold _ _ _ Hf0 Hl).
  destruct (saveOrder _ s1) as [[e|d'] s2] eqn:Hsave;
    apply saveOrder_frame in Hsave as (Hp2 & _ & Hc2 & Hu2 & Hlen & Hother);
    intros [= <- <-]; cbn [fst] in Hother;
    (split_and!; [congruence..|]); intros j Hj; rewrite Hother by done;
    by rewrite Ho.
Qed.

Lemma createOrderFromCart_ok env userId paymentDetails s order s' :
  createOrderFromCart env userId paymentDetails s = (inr order, s') →
  ∃ items enrichedItems subtotal,
    carts s !! userId = Some items ∧ items ≠ [] ∧
    enrichItems items [] 0%Z s = (inr (enrichedItems, subtotal), s) ∧
    order.1 = length (orders s) ∧
    orders s' = (orders s ++ [order.2])%list ∧
    Order.user order.2 = userId ∧
    Order.items order.2 = enrichedItems ∧
    Order.totalAmount order.2 = (subtotal + shippingCharge subtotal)%Z ∧
    Order.shippingCharge order.2 = shippingCharge subtotal ∧
    Order.status order.2 = "PAID" ∧
    Order.paymentStatus order.2 = "Paid" ∧
    Order.paymentId order.2 = PaymentDetails.paymentId paymentDetails ∧
    (∀ pid, PaymentDetails.paymentId paymentDetails = Some pid →
            orders_with (Some pid) s = 0 ∧
            payments_with (Some pid) s' = Nat.max 1 (payments_with (Some pid) s)) ∧
    users s' = users s ∧
    carts s' = alter (λ _, []) userId (carts s).
Proof.
  unfold createOrderFromCart. intros H.
  apply bind_inr in H as (cart & s0 & [= <- <-] & H).
  destruct (carts s !! userId) as [[|item items]|] eqn:Hcart; try discriminate.
  apply bind_inr in H as ([enriched subtotal] & s0 & Henrich & H).
  pose proof (enrichItems_total _ _ _ _ _ _ _ Henrich) as [-> _].
  cbn beta iota in H.
  apply bind_inr in H as (d1 & s1 & Hins & H).
  apply insertOrder_same in Hins
    as (Hid1 & Hsame1 & Ho1 & Hnum1 & Hfl1 & Hclash1 & Hp1 & _ & Hc1 & Hu1).
  apply bind_inr in H as ([b d2] & s2 & Hred & H). cbn beta iota in H.
  pose proof (reduceStockAfterPayment_frame _ _ _ _ Hred)
    as (Hp2 & Hc2 & Hu2 & Hlen2 & Hoth2).
  apply reduceStockAfterPayment_same in Hred as (Hid2 & Hsame2 & _).
  apply bind_inr in H as (rec & s3 & Hrec & H).
  match type of Hrec with
  | createPaymentRecord ?data _ = _ =>
      destruct (createPaymentRecord_run data s2)
        as (rec' & s3' & Hrec' & Ho3 & _ & Hc3 & Hu3)
  end.
  pose proof Hrec as Hrec0.
  rewrite Hrec' in Hrec. injection Hrec as <- <-.
  apply bind_inr in H as (inv & s4 & Hinv & H).
  assert (s4 = s3') as ->.
  { unfold invoiceFor in Hinv. destruct (generateAndSaveInvoice _ _).
    - by injection Hinv as <- <-.
    - discriminate. }
  apply bind_inr in H as (d3 & s5 & Hsave & H).
  pose proof (saveOrder_frame _ _ _ _ Hsave) as (Hp5 & _ & Hc5 & Hu5 & Hlen5 & Hoth5).
  apply saveOrder_same in Hsave as (Hid3 & Hsame3 & Hst3 & _).
  cbn [fst snd] in *.
  apply bind_inr in H as ([] & s6 & [= <-] & [= <- <-]).
  assert (same_settlement d1.2 d3.2) as Hsame13.
  { eapply same_settlement_trans; [exact Hsame2|].
    eapply same_settlement_trans; [|exact Hsame3]. by repeat split. }
  pose proof (same_settlement_trans _ _ _ Hsame1 Hsame13) as Hsame.
  destruct Hsame as (Huser & Hitems & Htot & Hship & Hstat & _ & Hps & Hpid & _).
  cbn in Huser, Hitems, Htot, Hship, Hstat, Hps, Hpid.
  exists (item :: items), enriched, subtotal.
  split_and!; try done.
  - congruence.
  - apply list_eq. intros j. cbn [orders set_carts].
    destruct (decide (j = d2.1)) as [->|Hj].
    + rewrite Hst3, Hid2, Hid1. by rewrite lookup_app_r, Nat.sub_diag.
    + rewrite Hoth5 by done.
      rewrite Ho3, Hoth2 by congruence. rewrite Ho1.
      destruct (decide (j < length (orders s))).
      * by rewrite !lookup_app_l.
      * rewrite !lookup_ge_None_2; [done|rewrite length_app; simpl..].
        -- lia.
        -- rewrite Hid2, Hid1 in Hj. lia.
  - intros pid Hpd. split.
    + unfold orders_with. erewrite no_clash_paymentId; [done| |exact Hclash1].
      destruct Hsame1 as (_ & _ & _ & _ & _ & _ & _ & Hpid1 & _).
      cbn in Hpid1. congruence.
    + unfold payments_with in *. cbn [payments set_carts]. rewrite Hp5.
      match type of Hrec0 with
      | createPaymentRecord ?data _ = _ =>
          pose proof (createPaymentRecord_count data s2 pid ltac:(done) Hpd) as Hcount
      end.
      rewrite Hrec0 in Hcount. cbn [snd] in Hcount.
      unfold payments_with in Hcount. rewrite Hp2, Hp1 in Hcount.
      apply Hcount.
      * cbn. by destruct (bool_decide _).
      * done.
  - cbn [users set_carts]. congruence.
  - cbn [carts set_carts]. congruence.
Qed.

(** What [router.post('/')] stores when it answers 201. *)
Lemma createOrder_created user req s created :
  (createOrder user req s).1 = ROrder 201 created →
  ∃ enrichedItems subtotal,
    enrichItems (CreateOrderReq.items req) [] 0%Z s
    = (inr (enrichedItems, subtotal), s) ∧
    orders (createOrder user req s).2 !! created.1 = Some created.2 ∧
    Order.items created.2 = enrichedItems ∧
    Order.totalAmount created.2 = (subtotal + shippingCharge subtotal)%Z ∧
    Order.shippingCharge created.2 = shippingCharge subtotal ∧
    Order.status created.2 = "CREATED" ∧
    Order.stockReduced created.2 = false.
Proof.
  unfold createOrder, handler.
  destruct (CreateOrderReq.items req) as [|item items] eqn:Hitems; [discriminate|].
  destruct (negb _); [discriminate|].
  unfold try_catch.
  destruct (bind (enrichItems _ _ _) _ s) as [[e|r] s1] eqn:E.
  { destruct e; simpl; discriminate. }
  cbn [fst snd]. intros ->.
  apply bind_inr in E as ([enriched subtotal] & s0 & Henrich & E).
  pose proof (enrichItems_total _ _ _ _ _ _ _ Henrich) as [-> _].
  cbn beta iota in E.
  apply bind_inr in E as (d & s2 & Hins & [= <- <-]).
  apply insertOrder_same in Hins as (Hid & Hsame & Ho & _ & Hfl & _).
  destruct Hsame as (_ & Hi & Htot & Hship & Hst & _). cbn in Hi, Htot, Hship, Hst, Hfl.
  exists enriched, subtotal. split_and!; try done.
  rewrite Ho, Hid. by rewrite lookup_app_r, Nat.sub_diag.
Qed.

(** C5, as the code has it.  An order created at settlement (and one
    created by [router.post('/')]) carries a shipping charge of 0 when the
    items subtotal is above 999 and of 49 otherwise, 999 included; its
    stored total amount is the items subtotal plus the shipping charge.
    A subtotal of 1200 gives shipping 0 and total 1200. *)
Theorem shipping_charge_and_total
    (env : Env) (userId : nat) (paymentDetails : PaymentDetails.t)
    (s s' : Store) (order : OrderDoc)
    (Hcreated : createOrderFromCart env userId paymentDetails s = (inr order, s')) :
  orders s' !! order.1 = Some order.2 ∧
  Order.shippingCharge order.2
  = (if (items_subtotal (Order.items order.2) >? 999)%Z then 0 else 49)%Z ∧
  Order.totalAmount order.2
  = (items_subtotal (Order.items order.2) + Order.shippingCharge order.2)%Z ∧
  (items_subtotal (Order.items order.2) = 1200%Z →
   Order.shippingCharge order.2 = 0%Z ∧ Order.totalAmount order.2 = 1200%Z) ∧
  (∀ user req s0 created,
     (createOrder user req s0).1 = ROrder 201 created →
     orders (createOrder user req s0).2 !! created.1 = Some created.2 ∧
     Order.shippingCharge created.2
     = (if (items_subtotal (Order.items created.2) >? 999)%Z then 0 else 49)%Z ∧
     Order.totalAmount created.2
     = (items_subtotal (Order.items created.2)
        + Order.shippingCharge created.2)%Z).
Proof.
  apply createOrderFromCart_ok in Hcreated
    as (items & enriched & subtotal & _ & _ & Henrich & Hid & Ho & _ & Hitems
        & Htot & Hship & _).
  apply enrichItems_total in Henrich as [_ Hsub]. simpl in Hsub.
  assert (items_subtotal (Order.items order.2) = subtotal) as Hs by (rewrite Hitems; lia).
  split_and!.
  - rewrite Ho, Hid. by rewrite lookup_app_r, Nat.sub_diag.
  - by rewrite Hship, Hs.
  - by rewrite Htot, Hship, Hs.
  - intros H1200. rewrite Htot, Hship, <- Hs, H1200. done.
  - intros user req s0 created Hc.
    apply createOrder_created in Hc
      as (enriched' & subtotal' & Henrich' & Hst & Hitems' & Htot' & Hship' & _).
    apply enrichItems_total in Henrich' as [_ Hsub']. simpl in Hsub'.
    assert (items_subtotal (Order.items created.2) = subtotal') as Hs'
      by (rewrite Hitems'; lia).
    split_and!; [done|by rewrite Hship', Hs'|by rewrite Htot', Hship', Hs'].
Qed.

(** ** The address list *)

(** [saveAddressToUserOnPaymentSuccess] never throws and writes the
    caller's address list only. *)
Lemma saveAddress_run userId shippingAddress s :
  ∃ s', saveAddressToUserOnPaymentSuccess userId shippingAddress s = (inr tt, s') ∧
        orders s' = orders s ∧ payments s' = payments s ∧
        products s' = products s ∧ carts s' = carts s ∧
        ∀ u, u ≠ userId → users s' !! u = users s !! u.
Proof.
  unfold saveAddressToUserOnPaymentSuccess.
  destruct shippingAddress as [a|]; [|by eexists].
  destruct (negb _); [by eexists|].
  db_unfold. destruct (users s !! userId) as [addresses|]; [|by eexists].
  destruct (existsb _ _); [by eexists|].
  eexists. split_and!; try done.
  intros u Hu. simpl. by rewrite lookup_insert_ne.
Qed.

(** ** Idempotent settlement *)

Lemma truthy_nonempty pid : pid ≠ "" → Js.truthy (Some pid) = true.
Proof.
  intros H. unfold Js.truthy. by destruct (String.eqb_spec pid "").
Qed.

(** A payment id no order bears is not short-circuited. *)
Lemma guard_miss paymentId s :
  orders_with paymentId s = 0 →
  isPaymentAlreadyProcessed paymentId s = (inr false, s).
Proof.
  intros H. unfold isPaymentAlreadyProcessed.
  destruct (negb _); [done|].
  unfold Order_findOne_paid. db_unfold.
  rewrite bool_decide_eq_false_2; [done|].
  intros [[id o] (Hl & [Hpid _] & _)%list_find_Some].
  unfold orders_with in H. apply length_zero_iff_nil in H.
  assert (o ∈ filter (λ o, Order.paymentId o = paymentId) (orders s)) as Hin.
  { apply list_elem_of_filter. split; [done|]. by eapply list_elem_of_lookup_2. }
  rewrite H in Hin. by apply not_elem_of_nil in Hin.
Qed.

(** A payment id that the first order bearing it has settled is. *)
Lemma guard_hit pid s id o :
  pid ≠ "" →
  list_find (λ o, Order.paymentId o = Some pid) (orders s) = Some (id, o) →
  Order.paymentStatus o = "Paid" →
  isPaymentAlreadyProcessed (Some pid) s = (inr true, s).
Proof.
  intros Hne Hfind Hpaid. unfold isPaymentAlreadyProcessed.
  rewrite truthy_nonempty by done. simpl.
  unfold Order_findOne_paid. db_unfold.
  rewrite bool_decide_eq_true_2; [done|].
  apply list_find_Some in Hfind as (Hl & Hpid & _).
  eapply list_find_elem_of; [by eapply list_elem_of_lookup_2|done].
Qed.

(** Once settled, every call carrying the payment id is answered from the
    existing order and leaves the store as it is. *)
Lemma settled_call env c pid s id o :
  call_paymentId c = Some pid →
  pid ≠ "" →
  list_find (λ o, Order.paymentId o = Some pid) (orders s) = Some (id, o) →
  Order.paymentStatus o = "Paid" →
  run_call env c s = (settled_response env c id (Order.orderNumber o), s).
Proof.
  intros Hc Hne Hfind Hpaid.
  pose proof (guard_hit _ _ _ _ Hne Hfind Hpaid) as Hg.
  destruct c as [user req|req]; cbn [run_call call_paymentId settled_response] in *.
  - unfold verify, handler. rewrite Hc. rewrite (bind_eq _ _ _ _ _ Hg).
    unfold Order_findOne_paymentId. db_unfold. by rewrite Hfind.
  - unfold webhook, handler.
    destruct (negb _); [done|].
    destruct (WebhookReq.payment req) as [payment|]; [|done].
    cbn in Hc. rewrite Hc.
    destruct (bool_decide _); [|done].
    by rewrite (bind_eq _ _ _ _ _ Hg).
Qed.

Lemma settled_calls env calls pid s id o :
  Forall (λ c, call_paymentId c = Some pid) calls →
  pid ≠ "" →
  list_find (λ o, Order.paymentId o = Some pid) (orders s) = Some (id, o) →
  Order.paymentStatus o = "Paid" →
  run_calls env calls s
  = ((λ c, settled_response env c id (Order.orderNumber o)) <$> calls, s).
Proof.
  intros Hcalls Hne Hfind Hpaid.
  induction Hcalls as [|c rest Hc Hrest IH]; cbn [run_calls fmap list_fmap];
    [done|].
  rewrite (settled_call env c pid s id o Hc Hne Hfind Hpaid).
  by rewrite IH.
Qed.

(** The first [/verify] of a payment id no order bears yet. *)
Lemma verify_first env user req s pid message id num :
  VerifyReq.razorpay_payment_id req = Some pid →
  orders_with (Some pid) s = 0 →
  (payments_with (Some pid) s ≤ 1)%nat →
  (verify env user req s).1 = RSuccess message id num →
  ∃ o, list_find (λ o, Order.paymentId o = Some pid)
         (orders (verify env user req s).2) = Some (id, o) ∧
       Order.paymentStatus o = "Paid" ∧ Order.orderNumber o = num ∧
       Order.user o = user ∧
       Some (expectedSignature env (VerifyReq.razorpay_order_id req)
               (VerifyReq.razorpay_payment_id req))
       = VerifyReq.razorpay_signature req ∧
       orders_with (Some pid) (verify env user req s).2 = 1 ∧
       payments_with (Some pid) (verify env user req s).2 = 1.
Proof.
  intros Hpid Hfresh Hledger.
  destruct (verify env user req s) as [r sf] eqn:Hv. cbn [fst snd]. intros ->.
  unfold verify, handler in Hv.
  assert (isPaymentAlreadyProcessed (VerifyReq.razorpay_payment_id req) s
          = (inr false, s)) as Hg by (rewrite Hpid; by apply guard_miss).
  rewrite (bind_eq _ _ _ _ _ Hg) in Hv. cbn iota in Hv.
  case_bool_decide as Hsig; [|discriminate]. cbn [negb] in Hv.
  unfold bind at 1 in Hv.
  destruct (createOrderFromCart _ _ _ s) as [[e|order] s1] eqn:Hcreate;
    [discriminate|].
  apply createOrderFromCart_ok in Hcreate
    as (items & enriched & subtotal & _ & _ & _ & Hid & Ho & Hu & _ & _ & _ & _
        & Hps & Hp & Hcount & _).
  cbn [PaymentDetails.paymentId] in Hp, Hcount.
  destruct (Hcount pid Hpid) as [_ Hpay].
  unfold bind in Hv.
  destruct (saveAddressToUserOnPaymentSuccess _ _ s1) as [[e|[]] s2] eqn:Hsave;
    [discriminate|].
  assert (orders s2 = orders s1 ∧ payments s2 = payments s1) as [Ho2 Hp2].
  { apply (preserves_saveAddress
             (λ s', orders s' = orders s1 ∧ payments s' = payments s1)
             _ _ ltac:(by intros ? ? ?) _ _ _ Hsave). done. }
  injection Hv as <- <- <- <-.
  unfold orders_with in Hfresh. apply length_zero_iff_nil in Hfresh.
  exists order.2. split_and!; try done.
  - rewrite Ho2, Ho, Hid. rewrite list_find_app_r.
    + rewrite <- Hpid, <- Hp. simpl. by rewrite decide_True by done.
    + apply list_find_None, Forall_forall. intros o' Hin Ho'.
      assert (o' ∈ filter (λ o, Order.paymentId o = Some pid) (orders s)) as Hf
        by (by apply list_elem_of_filter).
      rewrite Hfresh in Hf. by apply not_elem_of_nil in Hf.
  - unfold orders_with. rewrite Ho2, Ho, filter_app, Hfresh. simpl.
    rewrite filter_cons_True by congruence. done.
  - unfold payments_with in *. rewrite Hp2, Hpay. lia.
Qed.

(** ** What one settlement call can do *)

(** Rewriting the last document of a collection. *)
Lemma orders_snoc_shape (l l1 l2 : list Order.t) y x :
  l1 = (l ++ [y])%list →
  length l2 = length l1 →
  (∀ j, j ≠ length l → l2 !! j = l1 !! j) →
  l2 !! length l = Some x →
  l2 = (l ++ [x])%list.
Proof.
  intros -> Hlen Hother Hx. apply list_eq. intros j.
  destruct (decide (j = length l)) as [->|Hj].
  - by rewrite Hx, lookup_app_r, Nat.sub_diag.
  - rewrite Hother by done.
    destruct (decide (j < length l)).
    + by rewrite !lookup_app_l.
    + rewrite !lookup_ge_None_2; [done|rewrite length_app; simpl; lia..].
Qed.

(** [reduceStockAfterPayment] never throws, and the document stored under
    the order's id afterwards agrees with the one it was given. *)
Lemma reduceStockAfterPayment_stored order s :
  orders s !! order.1 = Some order.2 →
  ∃ b d s' x,
    reduceStockAfterPayment order s = (inr (b, d), s') ∧
    orders s' !! order.1 = Some x ∧ same_settlement order.2 x.
Proof.
  intros Hstored.
  destruct (Order.stockReduced order.2) eqn:Hf0.
  { unfold reduceStockAfterPayment. rewrite Hf0.
    exists false, order, s, order.2. split_and!; [done..|apply same_settlement_refl]. }
  destruct (reduceStock_items_run (Order.items order.2) s) as (s1 & Hl & Ho & _).
  rewrite (reduceStockAfterPayment_unfold _ _ _ Hf0 Hl).
  destruct (saveOrder _ s1) as [[e|d'] s2] eqn:Hsave.
  - apply saveOrder_err in Hsave as ->.
    eexists _, _, _, order.2. split_and!; [done| |apply same_settlement_refl].
    by rewrite Ho.
  - apply saveOrder_same in Hsave as (_ & Hsame & Hst & _). cbn [fst snd] in *.
    eexists _, _, _, d'.2. split_and!; [done..|].
    eapply same_settlement_trans; [|exact Hsame]. by repeat split.
Qed.

Lemma enrichItems_err items acc total s e s' :
  enrichItems items acc total s = (inl e, s') → s' = s.
Proof.
  intros H.
  by apply (preserves_enrichItems (λ x, x = s) _ _ _ _ _ _ H).
Qed.

(** Whatever [createOrderFromCart] answers, either it wrote nothing, or
    it appended one paid order bearing the payment id, which no order bore
    before, and the ledger holds an entry with that id. *)
Lemma createOrderFromCart_effect env userId paymentDetails s r s' pid :
  PaymentDetails.paymentId paymentDetails = Some pid →
  createOrderFromCart env userId paymentDetails s = (r, s') →
  (s' = s ∧ ∃ e, r = inl e) ∨
  (∃ o, orders s' = (orders s ++ [o])%list ∧
        Order.paymentId o = Some pid ∧ Order.paymentStatus o = "Paid" ∧
        Order.status o = "PAID" ∧
        orders_with (Some pid) s = 0 ∧
        payments_with (Some pid) s' = Nat.max 1 (payments_with (Some pid) s) ∧
        ∀ order, r = inr order → order = (length (orders s), o)).
Proof.
  intros Hpd H. destruct r as [e|order].
  2:{ right. apply createOrderFromCart_ok in H
        as (_ & _ & _ & _ & _ & _ & Hid & Ho & _ & _ & _ & _ & Hst & Hps & Hp
            & Hcount & _).
      destruct (Hcount pid Hpd) as [Hfresh Hpay].
      exists order.2. split_and!; try done; [congruence|].
      intros order' [= <-]. destruct order as [i o]. simpl in *. by subst. }
  unfold createOrderFromCart in H.
  apply bind_inl in H as [[= ]|(cart & s0 & [= <- <-] & H)].
  destruct (carts s !! userId) as [[|item items]|] eqn:Hcart;
    try (left; injection H as <- <-; by eauto).
  apply bind_inl in H as [H|([enriched subtotal] & s0 & Henrich & H)].
  { apply enrichItems_err in H as ->. left. eauto. }
  pose proof (enrichItems_total _ _ _ _ _ _ _ Henrich) as [-> _].
  cbn beta iota in H.
  apply bind_inl in H as [H|(d1 & s1 & Hins & H)].
  { apply insertOrder_err in H as ->. left. eauto. }
  right.
  apply insertOrder_same in Hins
    as (Hid1 & Hsame1 & Ho1 & Hnum1 & Hfl1 & Hclash1 & Hp1 & _ & Hc1 & Hu1).
  assert (orders s1 !! d1.1 = Some d1.2) as Hstored1.
  { rewrite Ho1, Hid1. by rewrite lookup_app_r, Nat.sub_diag. }
  destruct (reduceStockAfterPayment_stored d1 s1 Hstored1)
    as (b & d2 & s2 & x & Hred & Hx & Hsamex).
  pose proof (reduceStockAfterPayment_frame _ _ _ _ Hred)
    as (Hp2 & Hc2 & Hu2 & Hlen2 & Hoth2).
  pose proof (reduceStockAfterPayment_same _ _ _ _ _ Hred) as (Hid2 & Hsame2 & _).
  rewrite (bind_eq _ _ _ _ _ Hred) in H. cbn beta iota in H.
  match type of H with
  | bind (createPaymentRecord ?data) _ _ = _ =>
      destruct (createPaymentRecord_run data s2)
        as (rec & s3 & Hrec & Ho3 & _ & Hc3 & Hu3);
      pose proof (createPaymentRecord_count data s2 pid ltac:(done) Hpd) as Hcount
  end.
  rewrite Hrec in Hcount. cbn [snd] in Hcount.
  rewrite (bind_eq _ _ _ _ _ Hrec) in H.
  assert (payments_with (Some pid) s3 = Nat.max 1 (payments_with (Some pid) s))
    as Hpay.
  { unfold payments_with in *. rewrite Hp2, Hp1 in Hcount. apply Hcount.
    - cbn. by destruct (bool_decide _).
    - done. }
  destruct Hsame1 as (_ & _ & _ & _ & Hst1 & _ & Hps1 & Hpid1 & _).
  cbn in Hst1, Hps1, Hpid1.
  assert (orders_with (Some pid) s = 0) as Hfresh.
  { unfold orders_with. erewrite no_clash_paymentId; [done| |exact Hclash1].
    congruence. }
  assert (orders s3 = (orders s ++ [x])%list) as Hshape3.
  { eapply (orders_snoc_shape (orders s) (orders s1) _ d1.2 x Ho1).
    - congruence.
    - intros j Hj. rewrite Ho3. apply Hoth2. congruence.
    - rewrite Ho3, <- Hid1. exact Hx. }
  destruct Hsamex as (_ & _ & _ & _ & Hstx & _ & Hpsx & Hpidx & _).
  apply bind_inl in H as [H|(inv & s4 & Hinv & H)].
  { assert (s' = s3) as ->.
    { unfold invoiceFor in H. destruct (generateAndSaveInvoice _ _); [discriminate|].
      by injection H as <- <-. }
    exists x. split_and!; try done; congruence. }
  assert (s4 = s3) as ->.
  { unfold invoiceFor in Hinv. destruct (generateAndSaveInvoice _ _).
    - by injection Hinv as <- <-.
    - discriminate. }
  apply bind_inl in H as [H|(d3 & s5 & Hsave & H)].
  { apply saveOrder_err in H as ->.
    exists x. split_and!; try done; congruence. }
  apply bind_inl in H as [H|([] & s6 & _ & H)]; discriminate.
Qed.

(** The webhook's update of an existing order writes the status [Placed],
    which is not in the enum of the schema: the save is refused and
    nothing is written. *)
Lemma webhook_existing_noop paymentId userId orderId s :
  webhook_existing paymentId userId orderId s = (inr tt, s).
Proof.
  unfold webhook_existing, try_catch, Order_findById.
  unfold bind at 1. unfold gets.
  destruct (orders s !! orderId) as [o|] eqn:Ho;
    cbn [fmap option_fmap option_map fst snd]; [|done].
  destruct (negb _); [|done].
  unfold bind, saveOrder. cbn [fst snd]. rewrite Ho.
  unfold order_invalid.
  cbn [Order.status Order.push_history Order.set_status].
  by cbn.
Qed.

(** An appended paid order that bears a payment id no order bore is the
    one the guard and the look-up find. *)
Lemma settled_after_append pid s s' o :
  orders_with (Some pid) s = 0 →
  (payments_with (Some pid) s ≤ 1)%nat →
  orders s' = (orders s ++ [o])%list →
  Order.paymentId o = Some pid →
  Order.paymentStatus o = "Paid" →
  payments_with (Some pid) s' = Nat.max 1 (payments_with (Some pid) s) →
  settled_as pid s' (length (orders s)) o.
Proof.
  intros Hfresh Hledger Ho Hpid Hpaid Hpay.
  unfold orders_with in Hfresh. apply length_zero_iff_nil in Hfresh.
  split_and!; [|done| |lia].
  - rewrite Ho, list_find_app_r.
    + simpl. by rewrite decide_True by done.
    + apply list_find_None, Forall_forall. intros o' Hin Ho'.
      assert (o' ∈ filter (λ o, Order.paymentId o = Some pid) (orders s)) as Hf
        by (by apply list_elem_of_filter).
      rewrite Hfresh in Hf. by apply not_elem_of_nil in Hf.
  - unfold orders_with. rewrite Ho, filter_app, Hfresh. simpl.
    by rewrite filter_cons_True by done.
Qed.

(** One call on a payment id that is not settled yet: either it leaves
    the store as it is and tells no order number, or it settles the
    payment, and tells the number of the new order if it tells one. *)
Lemma unsettled_call env c pid s :
  call_paymentId c = Some pid →
  orders_with (Some pid) s = 0 →
  (payments_with (Some pid) s ≤ 1)%nat →
  ((run_call env c s).2 = s ∧ response_orderNumber (run_call env c s).1 = None) ∨
  (∃ id o, settled_as pid (run_call env c s).2 id o ∧
           (response_orderNumber (run_call env c s).1 = None ∨
            response_orderNumber (run_call env c s).1 = Some (Order.orderNumber o))).
Proof.
  intros Hc Hfresh Hledger.
  pose proof (guard_miss _ _ Hfresh) as Hg.
  destruct (run_call env c s) as [r0 sf] eqn:Hrun. cbn [fst snd].
  destruct c as [user req|req]; cbn [run_call call_paymentId] in *.
  - unfold verify, handler in Hrun.
    rewrite Hc, (bind_eq _ _ _ _ _ Hg) in Hrun. cbn iota in Hrun.
    destruct (negb _); [left; by injection Hrun as <- <-|].
    unfold bind at 1 in Hrun.
    destruct (createOrderFromCart _ _ _ s) as [r s1] eqn:Hcreate.
    eapply (createOrderFromCart_effect _ _ _ _ _ _ pid) in Hcreate; [|reflexivity].
    destruct Hcreate
      as [[-> [e ->]]|(o & Ho & Hpid & Hpaid & _ & _ & Hpay & Hr)];
      [left; by injection Hrun as <- <-|].
    right. exists (length (orders s)), o.
    destruct r as [e|order].
    + injection Hrun as <- <-. split; [|by left]. by apply settled_after_append.
    + rewrite (Hr order eq_refl) in Hrun.
      destruct (saveAddress_run user (VerifyReq.shippingAddress req) s1)
        as (s2 & Hsave & Ho2 & Hp2 & _).
      unfold bind in Hrun. rewrite Hsave in Hrun. injection Hrun as <- <-.
      split; [|by right].
      apply (settled_after_append pid s); try done; [congruence|].
      unfold payments_with in *. by rewrite Hp2.
  - unfold webhook, handler in Hrun.
    destruct (negb _); [left; by injection Hrun as <- <-|].
    destruct (WebhookReq.payment req) as [payment|]; [|discriminate].
    cbn in Hc.
    destruct (bool_decide _); [|left; by injection Hrun as <- <-].
    rewrite Hc, (bind_eq _ _ _ _ _ Hg) in Hrun. cbn iota in Hrun.
    destruct (PaymentEntity.notes_orderId payment) as [orderId|].
    { rewrite (bind_eq _ _ _ _ _ (webhook_existing_noop _ _ _ _)) in Hrun.
      left. by injection Hrun as <- <-. }
    destruct (PaymentEntity.notes_userId payment) as [userId|];
      [|left; by injection Hrun as <- <-].
    unfold bind at 1 in Hrun. unfold webhook_cart, try_catch in Hrun.
    unfold bind at 1 in Hrun.
    destruct (createOrderFromCart _ _ _ s) as [r s1] eqn:Hcreate.
    eapply (createOrderFromCart_effect _ _ _ _ _ _ pid) in Hcreate; [|exact Hc].
    destruct Hcreate
      as [[-> [e ->]]|(o & Ho & Hpid & Hpaid & _ & _ & Hpay & Hr)];
      [left; by injection Hrun as <- <-|].
    right. exists (length (orders s)), o.
    destruct r as [e|order].
    + injection Hrun as <- <-. split; [|by left]. by apply settled_after_append.
    + match type of Hrun with
      | context [saveAddressToUserOnPaymentSuccess ?u ?a ?st] =>
          destruct (saveAddress_run u a st) as (s2 & Hsave & Ho2 & Hp2 & _)
      end.
      rewrite Hsave in Hrun. injection Hrun as <- <-.
      split; [|by left].
      apply (settled_after_append pid s); try done; [congruence|].
      unfold payments_with in *. by rewrite Hp2.
Qed.

Lemma settled_response_number env c id num :
  response_orderNumber (settled_response env c id num) = None ∨
  response_orderNumber (settled_response env c id num) = Some num.
Proof.
  destruct c as [user req|req]; cbn [settled_response]; [by right|left].
  destruct (negb _); [done|].
  destruct (WebhookReq.payment req); [|done]. by destruct (bool_decide _).
Qed.

(** Any number of calls on a payment id that is not settled at first. *)
Lemma unsettled_calls env calls pid s :
  pid ≠ "" →
  Forall (λ c, call_paymentId c = Some pid) calls →
  orders_with (Some pid) s = 0 →
  (payments_with (Some pid) s ≤ 1)%nat →
  ((run_calls env calls s).2 = s ∧
   Forall (λ r, response_orderNumber r = None) (run_calls env calls s).1) ∨
  (∃ id o, settled_as pid (run_calls env calls s).2 id o ∧
           Forall (λ r, response_orderNumber r = None ∨
                        response_orderNumber r = Some (Order.orderNumber o))
             (run_calls env calls s).1).
Proof.
  intros Hne Hcalls Hfresh Hledger.
  induction Hcalls as [|c rest Hc Hrest IH]; [left; by split|].
  cbn [run_calls].
  destruct (unsettled_call env c pid s Hc Hfresh Hledger)
    as [[Hs Hr]|(id & o & Hsettled & Hr)];
    destruct (run_call env c s) as [r s1]; cbn [fst snd] in *.
  - subst s1. destruct (run_calls env rest s) as [rs s2]. cbn [fst snd] in *.
    destruct IH as [[-> Hrs]|(id & o & Hsettled & Hrs)].
    + left. split; [done|]. by constructor.
    + right. exists id, o. split; [done|]. constructor; [by left|done].
  - destruct Hsettled as (Hfind & Hpaid & Ho & Hp).
    rewrite (settled_calls env rest pid s1 id o Hrest Hne Hfind Hpaid).
    cbn [fst snd].
    right. exists id, o. split; [done|]. constructor; [done|].
    apply Forall_fmap, Forall_forall. intros c' _.
    apply settled_response_number.
Qed.

(** ** When the first settlement goes through *)

(** An order whose payment id no stored order bears, and whose number no
    stored order has, passes both unique indexes. *)
Lemma fresh_no_clash_paymentId o l :
  filter (λ o', Order.paymentId o' = Order.paymentId o) l = [] →
  existsb (clash_paymentId o) l = false.
Proof.
  unfold clash_paymentId. destruct (Order.paymentId o) as [pid|].
  - induction l as [|o' l IH]; [done|]. simpl.
    destruct (bool_decide_reflect (Order.paymentId o' = Some pid)) as [Heq|Hne].
    + by rewrite filter_cons_True.
    + rewrite filter_cons_False by done. exact IH.
  - intros _. by induction l.
Qed.

Lemma fresh_no_clash_orderNumber o l :
  Forall (λ o', Order.orderNumber o' ≠ Order.orderNumber o) l →
  existsb (clash_orderNumber o) l = false.
Proof.
  unfold clash_orderNumber. induction 1 as [|o' l Hne _ IH]; [done|]. simpl.
  rewrite IH. destruct (String.eqb_spec (Order.orderNumber o) (Order.orderNumber o'));
    [congruence|done].
Qed.



(** C1, as the code has it.  Take a payment id that is not empty and
    that no order bears yet, and any number of [/verify] calls and webhook
    deliveries carrying it.  Either no call creates the order, and then
    the store is untouched and no call tells an order number; or exactly
    one order and exactly one ledger entry bear the id afterwards, and
    every order number a call tells is the number of that order.  When the
    first call is a [/verify] that succeeds, the store afterwards is the
    one that call left, and every later call is answered as
    [settled_response] says: a [/verify] with the order and its number,
    whatever signature it carries, a webhook delivery with the refusal of
    its signature when that is wrong and with an acknowledgement
    otherwise. *)
Theorem idempotent_settlement
    (env : Env) (calls : list SettlementCall) (s : Store) (pid : string)
    (Hne : pid ≠ "")
    (Hcalls : Forall (λ c, call_paymentId c = Some pid) calls)
    (Hfresh : orders_with (Some pid) s = 0)
    (Hledger : (payments_with (Some pid) s ≤ 1)%nat) :
  let result := run_calls env calls s in
  ((result.2 = s ∧ Forall (λ r, response_orderNumber r = None) result.1) ∨
   (∃ id o,
      orders result.2 !! id = Some o ∧
      Order.paymentId o = Some pid ∧ Order.paymentStatus o = "Paid" ∧
      orders_with (Some pid) result.2 = 1 ∧
      payments_with (Some pid) result.2 = 1 ∧
      Forall (λ r, response_orderNumber r = None ∨
                   response_orderNumber r = Some (Order.orderNumber o))
        result.1)) ∧
  (∀ user req rest message id num,
     calls = ClientVerify user req :: rest →
     (verify env user req s).1 = RSuccess message id num →
     result.2 = (verify env user req s).2 ∧
     orders_with (Some pid) result.2 = 1 ∧
     payments_with (Some pid) result.2 = 1 ∧
     result.1
     = RSuccess message id num :: ((λ c, settled_response env c id num) <$> rest)).
Proof.
  cbn zeta. split.
  - destruct (unsettled_calls env calls pid s Hne Hcalls Hfresh Hledger)
      as [?|(id & o & (Hfind & Hpaid & Ho & Hp) & Hrs)]; [by left|right].
    exists id, o. apply list_find_Some in Hfind as (Hl & Hpid & _). by split_and!.
  - intros user req rest message id num -> Hfirst.
    apply Forall_cons in Hcalls as [Hpid Hrest]. cbn in Hpid.
    destruct (verify_first _ _ _ _ _ _ _ _ Hpid Hfresh Hledger Hfirst)
      as (o & Hfind & Hpaid & Hnum & _ & _ & Horders & Hpayments).
    cbn [run_calls run_call].
    destruct (verify env user req s) as [r1 s1] eqn:Hv. cbn [fst snd] in *.
    subst r1.
    rewrite (settled_calls env rest pid s1 id o Hrest Hne Hfind Hpaid).
    cbn [fst snd]. by rewrite Hnum.
Qed.

(** ** Cash on delivery *)

Lemma set_orders_id s : set_orders s (orders s) = s.
Proof. by destruct s. Qed.

Lemma untouched_by_cod_assign count o :
  untouched_by_cod o (assign_orderNumber count o).
Proof.
  unfold assign_orderNumber. destruct (String.eqb _ _); by repeat split.
Qed.

Lemma untouched_by_cod_trans o1 o2 o3 :
  untouched_by_cod o1 o2 → untouched_by_cod o2 o3 → untouched_by_cod o1 o3.
Proof. unfold untouched_by_cod. intuition congruence. Qed.

(** The invoice step on a stored document that has its number. *)
Lemma attachInvoice_run env id o s :
  orders s !! id = Some o →
  Order.orderNumber o ≠ "" →
  Order.status o ∈ Order.statusEnum →
  Order.paymentMethod o ∈ Order.paymentMethodEnum →
  Order.paymentStatus o ∈ Order.paymentStatusEnum →
  attachInvoice env (id, o) s =
    match generateAndSaveInvoice env (id, o) with
    | Some inv =>
        (inr (id, Order.set_invoice o inv.1 inv.2),
         set_orders s (<[id := Order.set_invoice o inv.1 inv.2]> (orders s)))
    | None => (inr (id, o), s)
    end.
Proof.
  intros Ho Hnum Hs Hm Hps. unfold attachInvoice, try_catch, bind, invoiceFor.
  destruct (generateAndSaveInvoice env (id, o)) as [inv|]; [|done].
  unfold ret. cbn [fst snd].
  by rewrite (saveOrder_valid id _ o s Ho).
Qed.

(** [/cod] on an order of the caller within the limit. *)
Lemma cod_run env user id o s :
  orders s !! id = Some o →
  Order.user o = user →
  (Order.totalAmount o ≤ 5000)%Z →
  Order.orderNumber o ≠ "" →
  ∃ s',
    cod env user (Some id) s
    = (RSuccess "COD order placed successfully" id (Order.orderNumber o), s') ∧
    orders s'
    = <[id := match generateAndSaveInvoice env (id, cod_placed o) with
              | Some inv => Order.set_invoice (cod_placed o) inv.1 inv.2
              | None => cod_placed o
              end]> (orders s) ∧
    products s' = products s ∧ payments s' = payments s.
Proof.
  intros Ho Hown Hle Hnum. unfold cod, handler.
  unfold Order_findById. unfold bind at 1. unfold gets. rewrite Ho.
  cbn [fmap option_fmap option_map fst snd].
  rewrite bool_decide_eq_true_2 by done. cbn [negb].
  destruct (Z.gtb_spec (Order.totalAmount o) 5000); [lia|].
  fold (cod_placed o).
  assert (id < length (orders s)) as Hlt by eauto using lookup_lt_Some.
  rewrite (bind_eq _ _ _ _ _
    (saveOrder_valid id (cod_placed o) o s Ho eq_refl Hnum eq_refl
       ltac:(enum) ltac:(enum) ltac:(enum))).
  assert (orders (set_orders s (<[id := cod_placed o]> (orders s))) !! id
          = Some (cod_placed o)) as Hstored
    by (by apply list_lookup_insert_eq).
  pose proof (attachInvoice_run env id (cod_placed o) _ Hstored Hnum
                ltac:(enum) ltac:(enum) ltac:(enum)) as Hatt.
  destruct (generateAndSaveInvoice env (id, cod_placed o)) as [inv|];
    rewrite (bind_eq _ _ _ _ _ Hatt).
  - cbn [fst snd orders set_orders]. rewrite list_insert_insert_eq.
    unfold bind at 1.
    match goal with
    | |- context [saveAddressToUserOnPaymentSuccess ?u ?a ?st] =>
        destruct (saveAddress_run u a st) as (s2 & Hsave & Ho2 & Hp2 & Hpr2 & _)
    end.
    rewrite Hsave. unfold bind, clearCart, modify, ret.
    eexists. split; [done|]. cbn [orders products payments set_carts].
    rewrite Ho2, Hp2, Hpr2. done.
  - cbn [fst snd]. unfold bind at 1.
    match goal with
    | |- context [saveAddressToUserOnPaymentSuccess ?u ?a ?st] =>
        destruct (saveAddress_run u a st) as (s2 & Hsave & Ho2 & Hp2 & Hpr2 & _)
    end.
    rewrite Hsave. unfold bind, clearCart, modify, ret.
    eexists. split; [done|]. cbn [orders products payments set_carts].
    rewrite Ho2, Hp2, Hpr2. done.
Qed.

(** C7. A COD call on an existing order the caller owns: above the ceiling
    of 5000 it fails with [CODLimitExceeded] and the store, hence the
    order's status, payment status and history, is unchanged; otherwise
    the stored order has payment method COD, payment status Pending,
    status PLACED and one more history entry. *)
Theorem cod_limit_and_placement
    (env : Env) (user id : nat) (o : Order.t) (s : Store)
    (Hexists : orders s !! id = Some o)
    (Howner : Order.user o = user)
    (Hnumbered : Order.orderNumber o ≠ "") :
  ((Order.totalAmount o > 5000)%Z →
   cod env user (Some id) s = (CODLimitExceeded, s)) ∧
  ((Order.totalAmount o ≤ 5000)%Z →
   (cod env user (Some id) s).1
   = RSuccess "COD order placed successfully" id (Order.orderNumber o) ∧
   ∃ o', orders (cod env user (Some id) s).2 !! id = Some o' ∧
         Order.paymentMethod o' = "COD" ∧
         Order.paymentStatus o' = "Pending" ∧
         Order.status o' = "PLACED" ∧
         Order.statusHistory o'
         = (Order.statusHistory o
            ++ [HistoryEntry.mk "PLACED" "Cash on Delivery order placed"])%list).
Proof.
  split.
  - intros Hgt. unfold cod, handler, Order_findById, bind, gets.
    rewrite Hexists. cbn [fmap option_fmap option_map fst snd].
    rewrite bool_decide_eq_true_2 by done. cbn [negb].
    by destruct (Z.gtb_spec (Order.totalAmount o) 5000); [|lia].
  - intros Hle.
    destruct (cod_run env user id o s Hexists Howner Hle Hnumbered)
      as (s' & -> & Ho & _).
    split; [done|]. cbn [snd]. rewrite Ho.
    assert (id < length (orders s)) as Hlt by eauto using lookup_lt_Some.
    rewrite list_lookup_insert_eq by done.
    eexists. split; [done|].
    by destruct (generateAndSaveInvoice env (id, cod_placed o)).
Qed.

(** Every run of [/cod]: either the store is left as it is, or the target
    order is replaced by a document that agrees with it outside the COD
    fields, the caller's cart is cleared, and only the caller's address
    list may change. *)
Lemma cod_cases env user orderId s :
  (cod env user orderId s).2 = s ∨
  ∃ id o x,
    orderId = Some id ∧ orders s !! id = Some o ∧ untouched_by_cod o x ∧
    orders (cod env user orderId s).2 = <[id := x]> (orders s) ∧
    products (cod env user orderId s).2 = products s ∧
    payments (cod env user orderId s).2 = payments s ∧
    carts (cod env user orderId s).2 = alter (λ _, []) user (carts s) ∧
    ∀ u, u ≠ user → users (cod env user orderId s).2 !! u = users s !! u.
Proof.
  destruct (cod env user orderId s) as [r sf] eqn:Hcod. cbn [snd].
  unfold cod, handler in Hcod.
  destruct orderId as [id|]; [|left; by injection Hcod as <- <-].
  unfold Order_findById in Hcod. unfold bind at 1 in Hcod. unfold gets in Hcod.
  destruct (orders s !! id) as [o|] eqn:Ho;
    cbn [fmap option_fmap option_map fst snd] in Hcod;
    [|left; by injection Hcod as <- <-].
  destruct (negb _); [left; by injection Hcod as <- <-|].
  destruct (_ >? _)%Z; [left; by injection Hcod as <- <-|].
  fold (cod_placed o) in Hcod. unfold bind at 1 in Hcod.
  destruct (saveOrder (id, cod_placed o) s) as [[e|d1] s1] eqn:Hsave1.
  { apply saveOrder_err in Hsave1 as ->. left. by injection Hcod as <- <-. }
  apply saveOrder_ok in Hsave1 as (old & Hold & -> & ->). cbn [fst snd] in *.
  set (o1 := assign_orderNumber (length (orders s)) (cod_placed o)) in *.
  assert (untouched_by_cod o o1) as Ho1.
  { eapply untouched_by_cod_trans; [|apply untouched_by_cod_assign].
    by repeat split. }
  clearbody o1.
  set (s1 := set_orders s (<[id := o1]> (orders s))) in *.
  assert (∃ d2 s2 x,
            attachInvoice env (id, o1) s1 = (inr d2, s2) ∧
            Order.shippingAddress d2.2 = Order.shippingAddress o1 ∧
            untouched_by_cod o x ∧ orders s2 = <[id := x]> (orders s) ∧
            products s2 = products s ∧ payments s2 = payments s ∧
            carts s2 = carts s ∧ users s2 = users s)
    as (d2 & s2 & x & Hatt & Haddr & Hx & Ho2 & Hpr2 & Hp2 & Hc2 & Hu2).
  { unfold attachInvoice, try_catch, bind, invoiceFor.
    destruct (generateAndSaveInvoice env (id, o1)) as [inv|]; cbn [throw ret];
      [|by exists (id, o1), s1, o1].
    destruct (saveOrder _ s1) as [[e|d] s2] eqn:Hsave2.
    - apply saveOrder_err in Hsave2 as ->. by exists (id, o1), s1, o1.
    - pose proof (saveOrder_doc _ _ _ _ Hsave2) as Hdoc.
      apply saveOrder_ok in Hsave2 as (old2 & _ & -> & ->). cbn [fst snd] in *.
      exists (id, assign_orderNumber (length (orders s1))
                    (Order.set_invoice o1 inv.1 inv.2)),
             (set_orders s1
                (<[id := assign_orderNumber (length (orders s1))
                           (Order.set_invoice o1 inv.1 inv.2)]> (orders s1))),
             (assign_orderNumber (length (orders s1))
                (Order.set_invoice o1 inv.1 inv.2)).
      split; [done|]. cbn [fst snd]. split_and!.
      + unfold assign_orderNumber. by destruct (String.eqb _ _).
      + eapply untouched_by_cod_trans; [exact Ho1|].
        eapply untouched_by_cod_trans; [|apply untouched_by_cod_assign].
        by repeat split.
      + subst s1. simpl. by rewrite list_insert_insert_eq.
      + done.
      + done.
      + done.
      + done. }
  rewrite (bind_eq _ _ _ _ _ Hatt) in Hcod. unfold bind at 1 in Hcod.
  match type of Hcod with
  | context [saveAddressToUserOnPaymentSuccess ?u ?a ?st] =>
      destruct (saveAddress_run u a st) as (s3 & Hsave3 & Ho3 & Hp3 & Hpr3 & Hc3 & Hu3)
  end.
  rewrite Hsave3 in Hcod. unfold bind, clearCart, modify, ret in Hcod.
  injection Hcod as <- <-. right.
  exists id, o, x. cbn [orders products payments carts users set_carts].
  split_and!; try congruence.
  intros u Hu. rewrite Hu3 by done. by rewrite Hu2.
Qed.

(** C9. A COD call, successful or not, leaves the product stock and the
    payment ledger as they are, changes no order but the target, and of
    the target only the COD fields (payment method, payment status,
    status, history, invoice, order number if it had none); it touches no
    cart and no address list but the caller's, whose cart it clears when
    it writes at all. *)
Theorem cod_frame (env : Env) (user : nat) (orderId : option nat) (s : Store) :
  products (cod env user orderId s).2 = products s ∧
  payments (cod env user orderId s).2 = payments s ∧
  length (orders (cod env user orderId s).2) = length (orders s) ∧
  (∀ j, orderId ≠ Some j →
        orders (cod env user orderId s).2 !! j = orders s !! j) ∧
  (∀ id o, orderId = Some id → orders s !! id = Some o →
           ∃ o', orders (cod env user orderId s).2 !! id = Some o' ∧
                 untouched_by_cod o o') ∧
  (∀ u, u ≠ user →
        carts (cod env user orderId s).2 !! u = carts s !! u ∧
        users (cod env user orderId s).2 !! u = users s !! u) ∧
  (carts (cod env user orderId s).2 = carts s ∨
   carts (cod env user orderId s).2 = alter (λ _, []) user (carts s)).
Proof.
  destruct (cod_cases env user orderId s)
    as [->|(id & o & x & -> & Ho & Hx & Horders & Hprod & Hpay & Hcarts & Husers)].
  { split_and!; try done.
    - intros id o _ Ho. exists o. split; [done|]. by repeat split.
    - by left. }
  assert (id < length (orders s)) as Hlt by eauto using lookup_lt_Some.
  split_and!; try done.
  - by rewrite Horders, length_insert.
  - intros j Hj. rewrite Horders. apply list_lookup_insert_ne. congruence.
  - intros id' o' [= <-] Ho'. exists x. rewrite Horders.
    split; [by apply list_lookup_insert_eq|]. congruence.
  - intros u Hu. split; [|by apply Husers].
    rewrite Hcarts. by apply lookup_alter_ne.
  - by right.
Qed.

(** ** Refused signatures *)

Lemma guard_not_settled paymentId s :
  ¬ already_settled paymentId s →
  isPaymentAlreadyProcessed paymentId s = (inr false, s).
Proof.
  intros Hnot.
  destruct (isPaymentAlreadyProcessed_result paymentId s) as [[|] Hb]; [|done].
  exfalso. apply Hnot.
  apply isPaymentAlreadyProcessed_true. by rewrite Hb.
Qed.


(** ** Settling an existing order *)

Lemma no_bearer_no_clash o (l : list Order.t) :
  (∀ y, y ∈ l → Order.paymentId y = Order.paymentId o → Order.paymentId o = None) →
  existsb (clash_paymentId o) l = false.
Proof.
  intros H. induction l as [|y l IH]; [done|]. cbn.
  rewrite IH by (intros; eapply H; [by right|done]).
  unfold clash_paymentId. destruct (Order.paymentId o) as [pid|] eqn:E; [|done].
  rewrite bool_decide_eq_false_2; [done|].
  intros Hy. by specialize (H y ltac:(left) Hy).
Qed.

(** [order.save()] goes through when the number is the stored one, the
    payment id is the stored one or one no other order bears, and every
    enum path holds a value of its enum. *)
Lemma saveOrder_accepts id o old s :
  orders s !! id = Some old →
  Order.orderNumber o = Order.orderNumber old →
  Order.orderNumber old ≠ "" →
  (Order.paymentId o = Order.paymentId old ∨
   ∀ y, y ∈ others id (orders s) → Order.paymentId y = Order.paymentId o →
        Order.paymentId o = None) →
  Order.status o ∈ Order.statusEnum →
  Order.paymentMethod o ∈ Order.paymentMethodEnum →
  Order.paymentStatus o ∈ Order.paymentStatusEnum →
  saveOrder (id, o) s = (inr (id, o), set_orders s (<[id := o]> (orders s))).
Proof.
  intros Hold Hnum Hne Hpid Hs Hm Hp. unfold saveOrder. rewrite Hold.
  rewrite order_invalid_None by done.
  rewrite assign_orderNumber_id by congruence.
  unfold order_index_error_update.
  rewrite Hnum, String.eqb_refl. cbn [negb andb].
  destruct Hpid as [Heq|Hfree].
  - by rewrite Heq, bool_decide_eq_true_2.
  - by rewrite (no_bearer_no_clash o _ Hfree), andb_false_r.
Qed.

Lemma set_stockReduced_id o :
  Order.stockReduced o = true → Order.set_stockReduced o true = o.
Proof. destruct o. cbn. by intros ->. Qed.

(** The stock step on a document that is stored as it is held. *)
Lemma reduceStockAfterPayment_run id o s :
  orders s !! id = Some o →
  Order.orderNumber o ≠ "" →
  order_valid o →
  ∃ b s',
    reduceStockAfterPayment (id, o) s
    = (inr (b, (id, Order.set_stockReduced o true)), s') ∧
    orders s' = <[id := Order.set_stockReduced o true]> (orders s) ∧
    products s'
    = (if Order.stockReduced o then products s
       else products (reduceStock_items (Order.items o) s).2) ∧
    payments s' = payments s ∧ carts s' = carts s ∧ users s' = users s.
Proof.
  intros Ho Hnum (Hs & Hm & Hps).
  destruct (Order.stockReduced o) eqn:Hflag.
  - unfold reduceStockAfterPayment. cbn [fst snd]. rewrite Hflag.
    rewrite set_stockReduced_id by done.
    exists false, s. split_and!; try done.
    symmetry. by apply list_insert_id.
  - destruct (reduceStock_items_run (Order.items o) s)
      as (s1 & Hloop & Ho1 & Hp1 & Hc1 & Hu1).
    rewrite (reduceStockAfterPayment_unfold (id, o) s s1 Hflag Hloop).
    cbn [fst snd].
    rewrite (saveOrder_valid id (Order.set_stockReduced o true) o s1);
      [|by rewrite Ho1|done..].
    exists true. eexists. split; [done|].
    cbn [orders products payments carts users set_orders].
    rewrite Ho1, Hloop. done.
Qed.

(** The stock loop reads and writes the products only. *)
Lemma reduceStock_items_products items s s' :
  products s = products s' →
  products (reduceStock_items items s).2 = products (reduceStock_items items s').2.
Proof.
  revert s s'. induction items as [|item rest IH]; intros s s' Heq; [done|].
  cbn [reduceStock_items]. unfold bind.
  assert (∃ t t', reduceStock_item item s = (inr tt, t) ∧
                  reduceStock_item item s' = (inr tt, t') ∧
                  products t = products t') as (t & t' & -> & -> & Ht).
  { unfold reduceStock_item.
    destruct (OrderItem.product item) as [pid|]; [|by eexists _, _].
    unfold bind, Product_findById, gets. rewrite <- Heq.
    destruct (products s !! pid) as [p|]; [|by eexists _, _].
    unfold saveProductStock.
    match goal with |- context [(?n <? 0)%Z] =>
      destruct (Z.ltb_spec n 0); [lia|] end.
    unfold modify. eexists _, _. split_and!; [done..|]. cbn. by rewrite Heq. }
  by apply IH.
Qed.

(** [/verify-upi] with the right signature, for a payment id no order
    bears, on a stored order that is not paid: what it answers and what
    it leaves. *)
Lemma verify_upi_run env user req id o s :
  VerifyUpiReq.razorpay_signature req
  = Some (expectedSignature env (VerifyUpiReq.razorpay_order_id req)
            (VerifyUpiReq.razorpay_payment_id req)) →
  (∀ y, y ∈ orders s →
        Order.paymentId y ≠ VerifyUpiReq.razorpay_payment_id req ∨
        VerifyUpiReq.razorpay_payment_id req = None) →
  VerifyUpiReq.orderId req = Some (IdOf id) →
  orders s !! id = Some o →
  Order.paymentStatus o ≠ "Paid" →
  Order.orderNumber o ≠ "" →
  ∃ s',
    verify_upi env user req s
    = (RSuccess "Payment verified successfully" id (Order.orderNumber o), s') ∧
    orders s' = <[id := upi_settled env id req o]> (orders s) ∧
    products s'
    = (if Order.stockReduced o then products s
       else products (reduceStock_items (Order.items o) s).2) ∧
    (∀ pid, VerifyUpiReq.razorpay_payment_id req = Some pid →
            payments_with (Some pid) s' = Nat.max 1 (payments_with (Some pid) s)) ∧
    carts s' = carts s.
Proof.
  intros Hsig Hfresh Hid Ho Hunpaid Hnum.
  assert (id < length (orders s)) as Hlt by eauto using lookup_lt_Some.
  unfold verify_upi, handler.
  assert (¬ already_settled (VerifyUpiReq.razorpay_payment_id req) s) as Hnew.
  { intros [Ht (j & y & Hj & Hy & _)].
    destruct (Hfresh y) as [Hne|Hnone]; [by eapply list_elem_of_lookup_2|done|].
    by rewrite Hnone in Ht. }
  rewrite (bind_eq _ _ _ _ _ (guard_not_settled _ _ Hnew)). cbn iota.
  rewrite bool_decide_eq_true_2 by done. cbn [negb].
  rewrite Hid. unfold Order_findByArg, Order_findById. unfold bind at 1.
  unfold gets. rewrite Ho.
  cbn [fmap option_fmap option_map fst snd].
  rewrite bool_decide_eq_false_2 by done.
  fold (upi_paid req o).
  (* the first save *)
  rewrite (bind_eq _ _ _ _ _
    (saveOrder_accepts id (upi_paid req o) o s Ho eq_refl Hnum
       ltac:(right; intros y Hy%list_elem_of_delete_inv Heq;
             by destruct (Hfresh y Hy))
       ltac:(enum) ltac:(enum) ltac:(enum))).
  set (s1 := set_orders s (<[id := upi_paid req o]> (orders s))).
  assert (orders s1 !! id = Some (upi_paid req o)) as Hstored1
    by (by apply list_lookup_insert_eq).
  (* the stock step *)
  destruct (reduceStockAfterPayment_run id (upi_paid req o) s1 Hstored1 Hnum
              ltac:(split_and!; enum))
    as (b & s2 & Hred & Ho2 & Hpr2 & Hp2 & Hc2 & Hu2).
  rewrite (bind_eq _ _ _ _ _ Hred). cbn beta iota.
  set (o2 := Order.set_stockReduced (upi_paid req o) true) in *.
  assert (orders s2 !! id = Some o2) as Hstored2.
  { rewrite Ho2. apply list_lookup_insert_eq. subst s1. cbn.
    by rewrite length_insert. }
  (* the ledger step *)
  unfold bind at 1.
  match goal with
  | |- context [createPaymentRecord ?data s2] =>
      pose proof (createPaymentRecord_count data s2) as Hcount;
      destruct (createPaymentRecord_run data s2)
        as (rec & s3 & Hrec & Ho3 & Hpr3 & Hc3 & Hu3)
  end.
  rewrite Hrec in Hcount |- *. cbn [snd] in Hcount.
  (* the address step *)
  unfold bind at 1.
  match goal with
  | |- context [saveAddressToUserOnPaymentSuccess ?u ?a s3] =>
      destruct (saveAddress_run u a s3) as (s4 & Hsave & Ho4 & Hp4 & Hpr4 & Hc4 & _)
  end.
  rewrite Hsave.
  (* the invoice step *)
  assert (orders s4 !! id = Some o2) as Hstored4 by (by rewrite Ho4, Ho3).
  pose proof (attachInvoice_run env id o2 s4 Hstored4 Hnum
                ltac:(enum) ltac:(enum) ltac:(enum)) as Hatt.
  unfold upi_settled. fold o2.
  assert (products s4
          = (if Order.stockReduced o then products s
             else products (reduceStock_items (Order.items o) s).2)) as Hproducts.
  { rewrite Hpr4, Hpr3, Hpr2. cbn [upi_paid Order.stockReduced Order.items
      Order.push_history Order.set_status Order.set_paymentMethod
      Order.set_razorpaySignature Order.set_paymentId Order.set_paymentStatus].
    destruct (Order.stockReduced o); [done|].
    by apply reduceStock_items_products. }
  assert (∀ pid, VerifyUpiReq.razorpay_payment_id req = Some pid →
            payments_with (Some pid) s4 = Nat.max 1 (payments_with (Some pid) s))
    as Hpayments.
  { intros pid Hpid. unfold payments_with in *. rewrite Hp4.
    rewrite (Hcount pid ltac:(done) Hpid eq_refl eq_refl). by rewrite Hp2. }
  assert (carts s4 = carts s) as Hcarts by (by rewrite Hc4, Hc3, Hc2).
  assert (<[id := o2]> (orders s1) = <[id := o2]> (orders s)) as Hins
    by (subst s1; cbn; by rewrite list_insert_insert_eq).
  assert (Order.orderNumber o2 = Order.orderNumber o) as Hnum2 by done.
  clearbody o2. clear Hcount.
  destruct (generateAndSaveInvoice env (id, o2)) as [inv|];
    rewrite (bind_eq _ _ _ _ _ Hatt);
    cbn [fst snd ret Order.orderNumber Order.set_invoice]; rewrite Hnum2;
    eexists; (split; [reflexivity|]).
  - cbn [orders products payments carts set_orders]. split_and!; try done.
    by rewrite Ho4, Ho3, Ho2, Hins, list_insert_insert_eq.
  - split_and!; try done. by rewrite Ho4, Ho3, Ho2, Hins.
Qed.


(** ** Status transitions *)

(** The document a committed cancellation stores. *)
Lemma cancelOrderWithStockRestore_doc id reason cancelledBy s c s' o :
  cancelOrderWithStockRestore id reason cancelledBy s = (inr c, s') →
  orders s !! id = Some o →
  c.1 = id ∧ orders s' !! id = Some c.2 ∧
  Order.status o ≠ "CANCELLED" ∧
  Order.status c.2 = "CANCELLED" ∧
  Order.statusHistory c.2
  = (Order.statusHistory o
     ++ [HistoryEntry.mk "CANCELLED" (Js.or_str reason "Order cancelled")])%list ∧
  (length (orders s') = length (orders s)) ∧
  ∀ j, j ≠ id → orders s' !! j = orders s !! j.
Proof.
  intros E Ho. unfold cancelOrderWithStockRestore in E.
  apply withTransaction_cases in E as [(a & [= <-] & E)|(e & s1 & ? & _)];
    [|discriminate].
  unfold Order_findById in E.
  apply bind_inr in E as (found & s1 & Hfound & E).
  injection Hfound as <- <-. rewrite Ho in E. simpl in E.
  case_bool_decide as Hst; [discriminate|].
  apply bind_inr in E as ([] & s2 & Hrestore & Hsave).
  assert (orders s2 = orders s) as Ho2.
  { destruct (_ && _).
    - destruct (restoreStock_items_stock (Order.items o) s 0) as (s2' & H2 & Hos & _).
      rewrite H2 in Hrestore. by injection Hrestore as <-.
    - by injection Hrestore as <-. }
  pose proof (saveOrder_frame _ _ _ _ Hsave) as (_ & _ & _ & _ & Hlen & Hother).
  apply saveOrder_same in Hsave as (Hid & Hsame & Hstored & _).
  destruct Hsame as (_ & _ & _ & _ & Hstatus & _ & _ & _ & Hhist & _).
  cbn [fst snd] in *. rewrite Ho2 in Hlen.
  split_and!; try done. intros j Hj. by rewrite Hother, Ho2.
Qed.

Lemma in_statusEnum_successor st :
  st ∈ Order.statusEnum →
  st ∉ ["SHIPPED"; "DELIVERED"; "CANCELLED"] →
  spec_legal_successor st "CANCELLED" = true.
Proof.
  unfold Order.statusEnum. intros Hin Hnot.
  repeat (apply elem_of_cons in Hin as [->|Hin]); try done;
    try (exfalso; apply Hnot; set_solver).
Qed.

(** What the admin's status update stores. *)
Lemma updateStatus_run id o s status note :
  orders s !! id = Some o →
  Order.orderNumber o ≠ "" →
  status ∈ Order.statusEnum →
  Order.paymentMethod o ∈ Order.paymentMethodEnum →
  Order.paymentStatus o ∈ Order.paymentStatusEnum →
  ∃ o', updateStatus id (StatusReq.mk status note None) s
        = (ROrder 200 (id, o'), set_orders s (<[id := o']> (orders s))) ∧
        Order.status o' = status ∧
        Order.statusHistory o'
        = (Order.statusHistory o ++ [HistoryEntry.mk status (Js.or_str note "")])%list.
Proof.
  intros Ho Hnum Hst Hm Hps. unfold updateStatus, handler, Order_findById.
  unfold bind at 1. unfold gets. rewrite Ho.
  cbn [fmap option_fmap option_map fst snd StatusReq.status StatusReq.note
       StatusReq.paymentStatus Js.truthy].
  set (o' := Order.push_history (Order.set_status o status) status
               (Js.or_str note "")).
  rewrite (bind_eq _ _ _ _ _
    (saveOrder_valid id o' o s Ho eq_refl Hnum eq_refl Hst Hm Hps)).
  by exists o'.
Qed.

(** C6, as the code has it.  Cancellation is guarded: on an order the
    caller may cancel, [/cancel] fails with [IllegalTransition] when the
    status is SHIPPED or DELIVERED and throws when it is CANCELLED,
    leaving the store as it is; a cancellation that goes through started
    from none of these, stores the status CANCELLED with one more history
    entry, and is a legal transition of the state machine whenever the old
    status is one of its states.  The other operations store their status
    whatever the current one is: the admin's status update any status of
    the schema (on a numbered order whose payment method and payment
    status are of the schema), [/cod] PLACED (on a numbered order of the
    caller within the limit), and [/verify-upi] PAID (with the right
    signature and a payment id no order bears, on a numbered order that is
    not paid). *)
Theorem cancellation_is_the_guarded_transition
    (user : nat) (admin : bool) (id : nat) (reason : option string)
    (s : Store) (o : Order.t)
    (Hexists : orders s !! id = Some o)
    (Hmay : Order.user o = user ∨ admin = true) :
  (Order.status o ∈ ["SHIPPED"; "DELIVERED"] →
   cancel user admin id reason s = (IllegalTransition, s)) ∧
  (Order.status o = "CANCELLED" →
   cancel user admin id reason s
   = (RThrown (Error "Order is already cancelled"), s)) ∧
  (∀ cancelled,
     (cancel user admin id reason s).1 = RCancelled cancelled →
     (Order.status o ∉ ["SHIPPED"; "DELIVERED"; "CANCELLED"]) ∧
     orders (cancel user admin id reason s).2 !! id = Some cancelled.2 ∧
     Order.status cancelled.2 = "CANCELLED" ∧
     length (Order.statusHistory cancelled.2)
     = S (length (Order.statusHistory o)) ∧
     (Order.status o ∈ Order.statusEnum →
      spec_legal_successor (Order.status o) "CANCELLED" = true)) ∧
  (∀ status note,
     status ∈ Order.statusEnum →
     Order.orderNumber o ≠ "" →
     Order.paymentMethod o ∈ Order.paymentMethodEnum →
     Order.paymentStatus o ∈ Order.paymentStatusEnum →
     ∃ o', orders (updateStatus id (StatusReq.mk status note None) s).2 !! id
           = Some o' ∧ Order.status o' = status) ∧
  (∀ env,
     Order.user o = user →
     (Order.totalAmount o ≤ 5000)%Z →
     Order.orderNumber o ≠ "" →
     ∃ o', orders (cod env user (Some id) s).2 !! id = Some o' ∧
           Order.status o' = "PLACED") ∧
  (∀ env caller req,
     VerifyUpiReq.razorpay_signature req
     = Some (expectedSignature env (VerifyUpiReq.razorpay_order_id req)
               (VerifyUpiReq.razorpay_payment_id req)) →
     (∀ y, y ∈ orders s →
           Order.paymentId y ≠ VerifyUpiReq.razorpay_payment_id req ∨
           VerifyUpiReq.razorpay_payment_id req = None) →
     VerifyUpiReq.orderId req = Some (IdOf id) →
     Order.paymentStatus o ≠ "Paid" →
     Order.orderNumber o ≠ "" →
     ∃ o', orders (verify_upi env caller req s).2 !! id = Some o' ∧
           Order.status o' = "PAID").
Proof.
  assert (id < length (orders s)) as Hlt by eauto using lookup_lt_Some.
  assert (negb (bool_decide (Order.user o = user)) && negb admin = false) as Hauth.
  { destruct Hmay as [->| ->].
    - by rewrite bool_decide_eq_true_2.
    - apply andb_false_r. }
  split_and!.
  - intros Hst. unfold cancel, handler, Order_findById, bind, gets.
    rewrite Hexists. cbn [fmap option_fmap option_map fst snd].
    rewrite Hauth. by rewrite bool_decide_eq_true_2.
  - intros Hst. unfold cancel, handler, Order_findById. unfold bind at 1.
    unfold gets. rewrite Hexists. cbn [fmap option_fmap option_map fst snd].
    rewrite Hauth. rewrite bool_decide_eq_false_2.
    2:{ rewrite Hst, !elem_of_cons. intros [H|[H|H]];
          [discriminate|discriminate|by apply elem_of_nil in H]. }
    unfold bind, cancelOrderWithStockRestore, withTransaction, maxRetries.
    cbn [withTransaction_attempt]. unfold Order_findById, bind, gets.
    rewrite Hexists. cbn [fmap option_fmap option_map fst snd].
    by rewrite bool_decide_eq_true_2.
  - intros c. destruct (cancel user admin id reason s) as [r sf] eqn:Hc.
    cbn [fst snd]. intros ->.
    unfold cancel, handler, Order_findById in Hc. unfold bind at 1 in Hc.
    unfold gets in Hc. rewrite Hexists in Hc.
    cbn [fmap option_fmap option_map fst snd] in Hc. rewrite Hauth in Hc.
    case_bool_decide as Hship; [discriminate|].
    unfold bind in Hc.
    destruct (cancelOrderWithStockRestore _ _ _ s) as [[e|c'] s'] eqn:E;
      [discriminate|].
    injection Hc as <- <-.
    apply (cancelOrderWithStockRestore_doc _ _ _ _ _ _ o) in E
      as (_ & Hstored & Hnot & Hst & Hhist & _); [|done].
    assert (Order.status o ∉ ["SHIPPED"; "DELIVERED"; "CANCELLED"]) as Hout.
    { rewrite !elem_of_cons. intros [H|[H|[H|H]]].
      - apply Hship. rewrite H. apply elem_of_cons. by left.
      - apply Hship. rewrite H. apply elem_of_cons. right.
        apply elem_of_cons. by left.
      - done.
      - by apply elem_of_nil in H. }
    split_and!; try done.
    + rewrite Hhist, length_app. simpl. lia.
    + intros Hin. by apply in_statusEnum_successor.
  - intros status note Hst Hnum Hm Hps.
    destruct (updateStatus_run id o s status note Hexists Hnum Hst Hm Hps)
      as (o' & -> & Hstatus & _).
    exists o'. split; [|done]. cbn [snd orders set_orders].
    by apply list_lookup_insert_eq.
  - intros env Hown Hle Hnum.
    destruct (cod_run env user id o s Hexists Hown Hle Hnum)
      as (s' & -> & Hos & _).
    cbn [snd]. rewrite Hos.
    eexists. split; [by apply list_lookup_insert_eq|].
    by destruct (generateAndSaveInvoice _ _).
  - intros env caller req Hsig Hfresh Hid Hunpaid Hnum.
    destruct (verify_upi_run env caller req id o s Hsig Hfresh Hid Hexists
                Hunpaid Hnum) as (s' & -> & Hos & _).
    cbn [snd]. rewrite Hos.
    eexists. split; [by apply list_lookup_insert_eq|].
    unfold upi_settled. by destruct (generateAndSaveInvoice _ _).
Qed.

(** * The properties on the sample data *)

Lemma sample_store_nonneg orders price stock inCart :
  (0 ≤ stock)%Z → stock_nonneg (sample_store orders price stock inCart).
Proof.
  intros Hstock p prod. unfold sample_store. cbn [products].
  intros [<- <-]%lookup_singleton_Some. exact Hstock.
Defined.

(** C1 on four calls after the first: the order is created once, and the
    later calls are answered from it: a repeated and a forged [/verify]
    with the order, a webhook delivery with the acknowledgement, one with
    a wrong signature with the refusal. *)
Lemma idempotent_settlement_witness :
  let s := sample_store [] 600 3 2 in
  let unsigned :=
    WebhookReq.mk (Some "forged") (WebhookReq.body_json sample_webhook)
      (WebhookReq.event sample_webhook) (WebhookReq.payment sample_webhook) in
  let rest := [ClientVerify 7 (sample_verify true);
               WebhookConfirm sample_webhook;
               WebhookConfirm unsigned;
               ClientVerify 8 (sample_verify false)] in
  let result := run_calls sample_env (ClientVerify 7 (sample_verify true) :: rest) s in
  orders_with (Some "pay_1") s = 0 ∧
  (verify sample_env 7 (sample_verify true) s).1
  = RSuccess "Payment verified & order created" 0 "TCS000001" ∧
  result.2 = (verify sample_env 7 (sample_verify true) s).2 ∧
  orders_with (Some "pay_1") result.2 = 1 ∧
  payments_with (Some "pay_1") result.2 = 1 ∧
  result.1
  = [RSuccess "Payment verified & order created" 0 "TCS000001";
     RSuccess "Payment already processed" 0 "TCS000001";
     RReceived (Some "already_processed");
     RFail 400 "Invalid webhook signature";
     RSuccess "Payment already processed" 0 "TCS000001"].
Proof.
  cbn zeta. split; [reflexivity|].
  split; [vm_compute; reflexivity|].
  pose proof (idempotent_settlement sample_env
    [ClientVerify 7 (sample_verify true); ClientVerify 7 (sample_verify true);
     WebhookConfirm sample_webhook;
     WebhookConfirm
       (WebhookReq.mk (Some "forged") (WebhookReq.body_json sample_webhook)
          (WebhookReq.event sample_webhook) (WebhookReq.payment sample_webhook));
     ClientVerify 8 (sample_verify false)]
    (sample_store [] 600 3 2) "pay_1"
    ltac:(discriminate) ltac:(repeat constructor) eq_refl
    ltac:(vm_compute; lia)) as [_ H].
  destruct (H 7 (sample_verify true) _ "Payment verified & order created"
              0 "TCS000001" eq_refl ltac:(vm_compute; reflexivity))
    as (H1 & H2 & H3 & H4).
  split_and!; [exact H1|exact H2|exact H3|].
  rewrite H4. vm_compute. reflexivity.
Defined.

(** C1 as stated fails: a webhook delivery that settles the payment
    answers with an acknowledgement and no order number, while the
    [/verify] call after it answers the order number; and a first call
    with a valid proof on an empty cart creates no order at all. *)
Lemma idempotent_settlement_counterexample :
  (run_calls sample_env
     [WebhookConfirm sample_webhook; ClientVerify 7 (sample_verify true)]
     (sample_store [] 600 3 2)).1
  = [RReceived None; RSuccess "Payment already processed" 0 "TCS000001"] ∧
  response_orderNumber (RReceived None) = None ∧
  verify sample_env 7 (sample_verify true) (sample_store [] 600 3 0)
  = (RThrown (Error "Cart is empty"), sample_store [] 600 3 0) ∧
  orders_with (Some "pay_1") (sample_store [] 600 3 0) = 0.
Proof. split_and!; vm_compute; reflexivity. Qed.





(** C4 on an order of two pieces with three on hand: settlement leaves
    one, cancellation brings back three. *)
Lemma settle_then_cancel_witness :
  let o := sample_order 2 "PAID" "Paid" false in
  let s := sample_store [o] 600 3 0 in
  let settled := reduceStockAfterPayment (0, o) s in
  let cancelled := cancelOrderWithStockRestore 0 None 7 settled.2 in
  settled.1 = inr (true, (0, Order.set_stockReduced o true)) ∧
  stock_of s 1 = Some 3%Z ∧
  stock_of settled.2 1 = Some 1%Z ∧
  stock_of cancelled.2 1 = Some 3%Z.
Proof.
  cbn zeta.
  set (o := sample_order 2 "PAID" "Paid" false).
  set (s := sample_store [o] 600 3 0).
  set (s1 := (reduceStockAfterPayment (0, o) s).2).
  set (s2 := (cancelOrderWithStockRestore 0 None 7 s1).2).
  set (marked := Order.set_stockReduced o true).
  set (gone := Order.push_history (Order.set_status marked "CANCELLED")
                 "CANCELLED" "Order cancelled").
  assert (reduceStockAfterPayment (0, o) s = (inr (true, (0, marked)), s1))
    as Hsettle by (vm_compute; reflexivity).
  assert (cancelOrderWithStockRestore 0 None 7 s1 = (inr (0, gone), s2))
    as Hcancel by (vm_compute; reflexivity).
  destruct (settle_then_cancel_restores_stock (0, o) (0, marked) (0, gone)
              s s1 s2 None 7 Hsettle Hcancel) as (_ & _ & Hround & _).
  destruct (Hround 1 3%Z) as [H1 H2].
  - repeat constructor. vm_compute. discriminate.
  - reflexivity.
  - vm_compute. discriminate.
  - split_and!; [by rewrite Hsettle|reflexivity|exact H1|exact H2].
Defined.

(** C4 as stated fails: with three pieces on hand and an order of five,
    the settlement reduces the stock, by the three that are there, and the
    cancellation that follows adds five: the stock ends at five, not at
    the three it was. *)
Lemma settle_then_cancel_counterexample :
  let o := sample_order 5 "PAID" "Paid" false in
  let s := sample_store [o] 600 3 0 in
  let settled := reduceStockAfterPayment (0, o) s in
  let cancelled := cancelOrderWithStockRestore 0 None 7 settled.2 in
  settled.1 = inr (true, (0, Order.set_stockReduced o true)) ∧
  (∃ c, cancelled.1 = inr c ∧ Order.status c.2 = "CANCELLED") ∧
  stock_of s 1 = Some 3%Z ∧
  stock_of settled.2 1 = Some 0%Z ∧
  stock_of cancelled.2 1 = Some 5%Z.
Proof.
  cbn zeta. split_and!; [vm_compute; reflexivity| |vm_compute; reflexivity..].
  eexists. split; vm_compute; reflexivity.
Qed.

(** C5 on a cart of two pieces at 600. *)
Lemma shipping_charge_and_total_witness :
  let created := createOrderFromCart sample_env 7
                   (PaymentDetails.mk (Some "pay_1") (Some "order_1") None
                      (Some "Razorpay") (Some sample_address))
                   (sample_store [] 600 3 2) in
  ∃ order, created.1 = inr order ∧
           items_subtotal (Order.items order.2) = 1200%Z ∧
           Order.shippingCharge order.2 = 0%Z ∧
           Order.totalAmount order.2 = 1200%Z.
Proof.
  cbn zeta.
  destruct (createOrderFromCart sample_env 7
              (PaymentDetails.mk (Some "pay_1") (Some "order_1") None
                 (Some "Razorpay") (Some sample_address))
              (sample_store [] 600 3 2)) as [[e|order] s'] eqn:Hcreated.
  - vm_compute in Hcreated. discriminate.
  - exists order. split; [reflexivity|].
    destruct (shipping_charge_and_total _ _ _ _ _ _ Hcreated)
      as (_ & _ & _ & H1200 & _).
    assert (items_subtotal (Order.items order.2) = 1200%Z) as Hsub.
    { vm_compute in Hcreated. injection Hcreated as <- _. reflexivity. }
    split; [exact Hsub|]. by apply H1200.
Defined.

(** C5 as stated fails at the threshold: a subtotal of exactly 999 is
    charged 49, for a total of 1048. *)
Lemma shipping_charge_counterexample :
  let s' := (verify sample_env 7 (sample_verify true)
               (sample_store [] 999 3 1)).2 in
  (items_subtotal <$> (Order.items <$> orders s' !! 0)) = Some 999%Z ∧
  (Order.shippingCharge <$> orders s' !! 0) = Some 49%Z ∧
  (Order.totalAmount <$> orders s' !! 0) = Some 1048%Z.
Proof. cbn zeta. split_and!; vm_compute; reflexivity. Qed.

(** C6 on a shipped order: its owner cannot cancel it, and [/cod] places
    it again. *)
Lemma cancellation_guard_witness :
  let o := sample_order 2 "SHIPPED" "Paid" true in
  let s := sample_store [o] 600 3 0 in
  orders s !! 0 = Some o ∧ Order.user o = 7 ∧
  cancel 7 false 0 None s = (IllegalTransition, s) ∧
  ∃ o', orders (cod sample_env 7 (Some 0) s).2 !! 0 = Some o' ∧
        Order.status o' = "PLACED".
Proof.
  cbn zeta.
  destruct (cancellation_is_the_guarded_transition 7 false 0 None
              (sample_store [sample_order 2 "SHIPPED" "Paid" true] 600 3 0)
              (sample_order 2 "SHIPPED" "Paid" true) eq_refl (or_introl eq_refl))
    as (Hshipped & _ & _ & _ & Hcod & _).
  split_and!; [reflexivity..| |].
  - apply Hshipped. apply elem_of_cons. by left.
  - apply (Hcod sample_env); [reflexivity|vm_compute; discriminate|discriminate].
Defined.

(** C6 as stated fails: the admin's status update moves a delivered order
    back to CREATED, [/cod] moves a delivered order to PLACED and
    [/verify-upi] moves a cancelled order to PAID; none is a legal
    successor of a terminal state. *)
Lemma status_transition_counterexample :
  let o := sample_order 1 "DELIVERED" "Paid" true in
  let gone := sample_order 1 "CANCELLED" "Pending" false in
  let s := sample_store [o] 600 3 0 in
  let updated := (updateStatus 0 (StatusReq.mk "CREATED" None None) s).2 in
  let placed := (cod sample_env 7 (Some 0) s).2 in
  let paid := (verify_upi sample_env 7 sample_verify_upi
                 (sample_store [gone] 600 3 0)).2 in
  spec_terminal "DELIVERED" = true ∧ spec_terminal "CANCELLED" = true ∧
  (Order.status <$> orders updated !! 0) = Some "CREATED" ∧
  spec_legal_successor "DELIVERED" "CREATED" = false ∧
  (Order.status <$> orders placed !! 0) = Some "PLACED" ∧
  spec_legal_successor "DELIVERED" "PLACED" = false ∧
  (Order.status <$> orders paid !! 0) = Some "PAID" ∧
  spec_legal_successor "CANCELLED" "PAID" = false.
Proof. cbn zeta. split_and!; vm_compute; reflexivity. Qed.

(** C7 on an order of 6000 and on one of 1200. *)
Lemma cod_limit_and_placement_witness :
  let large := sample_order 10 "CREATED" "Pending" false in
  let small := sample_order 2 "CREATED" "Pending" false in
  Order.totalAmount large = 6000%Z ∧
  cod sample_env 7 (Some 0) (sample_store [large] 600 30 0)
  = (CODLimitExceeded, sample_store [large] 600 30 0) ∧
  (cod sample_env 7 (Some 0) (sample_store [small] 600 30 0)).1
  = RSuccess "COD order placed successfully" 0 "TCS000001".
Proof.
  cbn zeta. split; [reflexivity|]. split.
  - apply (cod_limit_and_placement sample_env 7 0
             (sample_order 10 "CREATED" "Pending" false)
             (sample_store [sample_order 10 "CREATED" "Pending" false] 600 30 0)
             eq_refl eq_refl ltac:(discriminate)).
    vm_compute. reflexivity.
  - apply (cod_limit_and_placement sample_env 7 0
             (sample_order 2 "CREATED" "Pending" false)
             (sample_store [sample_order 2 "CREATED" "Pending" false] 600 30 0)
             eq_refl eq_refl ltac:(discriminate)).
    vm_compute. discriminate.
Defined.

(** C8 on an order whose stock was reduced. *)
Lemma reduceStock_replay_witness :
  let o := sample_order 2 "PAID" "Paid" true in
  let s := sample_store [o] 600 1 0 in
  Order.stockReduced o = true ∧
  reduceStockAfterPayment (0, o) s = (inr (false, (0, o)), s).
Proof.
  cbn zeta. split; [reflexivity|].
  apply (reduceStock_replay_is_noop (0, sample_order 2 "PAID" "Paid" true)
           (sample_store [sample_order 2 "PAID" "Paid" true] 600 1 0) eq_refl).
Defined.

(** C10 on the empty payment id, against a store where a settled order
    exists. *)
Lemma guard_false_without_payment_id_witness :
  let s := (verify sample_env 7 (sample_verify true) (sample_store [] 600 3 2)).2 in
  Js.truthy (Some "") = false ∧
  isPaymentAlreadyProcessed (Some "") s = (inr false, s) ∧
  isPaymentAlreadyProcessed None s = (inr false, s).
Proof.
  cbn zeta. split; [reflexivity|]. split.
  - apply (guard_false_without_payment_id sample_env (Some "") _ eq_refl).
  - apply (guard_false_without_payment_id sample_env None _ eq_refl).
Defined.

(** * Further properties *)

(** ** What the webhook answers, and two writes the schema refuses *)

(** X1. With the right signature the webhook acknowledges, whatever the
    delivery holds and whatever happens to the order. *)
Theorem webhook_always_acknowledges (env : Env) (req : WebhookReq.t) (s : Store)
    (Hsig : WebhookReq.x_razorpay_signature req
            = Some (hmac_sha256_hex env (webhook_secret env)
                      (WebhookReq.body_json req))) :
  ∃ status, (webhook env req s).1 = RReceived status.
Proof.
  unfold webhook, handler.
  rewrite bool_decide_eq_true_2 by done. cbn [negb].
  destruct (WebhookReq.payment req) as [payment|]; [|by eexists].
  destruct (bool_decide _); [|by eexists].
  destruct (isPaymentAlreadyProcessed_result (PaymentEntity.id payment) s)
    as [b Hb].
  rewrite (bind_eq _ _ _ _ _ Hb).
  destruct b; [by eexists|].
  destruct (PaymentEntity.notes_orderId payment) as [orderId|].
  - unfold bind, webhook_existing, try_catch.
    destruct (bind _ _ s) as [[e|[]] s1]; by eexists.
  - destruct (PaymentEntity.notes_userId payment) as [userId|]; [|by eexists].
    unfold bind, webhook_cart, try_catch.
    destruct (bind _ _ s) as [[e|[]] s1]; by eexists.
Qed.

Lemma saveOrder_refused id o old s :
  orders s !! id = Some old →
  Order.status o ∉ Order.statusEnum →
  saveOrder (id, o) s = (inl (ValidationError "status"), s).
Proof.
  intros Ho Hout. unfold saveOrder. rewrite Ho.
  unfold order_invalid, in_enum. by rewrite bool_decide_eq_false_2.
Qed.

(** X2. The self-confirmation route never confirms: it writes the status
    [Confirmed], which the schema refuses, so no call changes the store and
    none answers with the order. *)
Theorem confirmPayment_never_confirms (user id : nat) (s : Store) :
  (confirmPayment user id s).2 = s ∧
  ∀ code order, (confirmPayment user id s).1 ≠ ROrder code order.
Proof.
  assert (∃ r, confirmPayment user id s = (r, s) ∧
               ∀ code order, r ≠ ROrder code order) as (r & -> & Hr);
    [|by split].
  unfold confirmPayment, handler, Order_findById.
  unfold bind at 1. unfold gets.
  destruct (orders s !! id) as [o|] eqn:Ho;
    cbn [fmap option_fmap option_map fst snd]; [|by eexists].
  destruct (negb _); [by eexists|].
  destruct (bool_decide _); [by eexists|].
  match goal with
  | |- context [saveOrder (?i, ?d)] =>
      assert (Order.status d ∉ Order.statusEnum) as Hout
        by (apply (bool_decide_eq_false_1 _); vm_compute; reflexivity);
      rewrite (bind_throw _ _ _ _ _ (saveOrder_refused i d o s Ho Hout))
  end.
  by eexists.
Qed.

(** X3. A [payment.captured] delivery that names an order in its notes never
    changes the store: the status it writes, [Placed], is not one the
    schema accepts, and the failure is swallowed. *)
Theorem webhook_existing_order_never_settles
    (env : Env) (req : WebhookReq.t) (payment : PaymentEntity.t)
    (orderId : nat) (s : Store)
    (Hpayment : WebhookReq.payment req = Some payment)
    (Horder : PaymentEntity.notes_orderId payment = Some orderId) :
  (webhook env req s).2 = s.
Proof.
  unfold webhook, handler. rewrite Hpayment, Horder.
  destruct (negb _); [done|].
  destruct (bool_decide _); [|done].
  destruct (isPaymentAlreadyProcessed_result (PaymentEntity.id payment) s)
    as [b Hb].
  rewrite (bind_eq _ _ _ _ _ Hb).
  destruct b; [done|].
  by rewrite (bind_eq _ _ _ _ _ (webhook_existing_noop _ _ _ _)).
Qed.

(** ** Saving the same address twice *)

(** What one call of [saveAddressToUserOnPaymentSuccess] does to the
    address list of the user. *)
Lemma saveAddress_cases userId a s :
  saveAddressToUserOnPaymentSuccess userId (Some a) s
  = (inr tt,
     match users s !! userId with
     | Some addresses =>
         if Js.truthy (Address.pincode a) && negb (existsb (same_address a) addresses)
         then set_users s
                (<[userId := (addresses ++
                     [address_entry a (bool_decide (length addresses = 0))])%list]>
                   (users s))
         else s
     | None => s
     end).
Proof.
  unfold saveAddressToUserOnPaymentSuccess.
  destruct (Js.truthy (Address.pincode a)); cbn [negb andb];
    [|by destruct (users s !! userId)].
  db_unfold. destruct (users s !! userId) as [addresses|]; [|done].
  by destruct (existsb _ _).
Qed.

Lemma same_address_entry a h first :
  Address.houseNo a = Some h → Js.truthy (Address.pincode a) = true →
  same_address a (address_entry a first) = true.
Proof.
  intros Hh Hp. unfold same_address, address_entry. cbn. rewrite Hh.
  destruct (Address.pincode a) as [p|]; [|done]. cbn in Hp |- *.
  destruct (String.eqb_spec p ""); [done|].
  rewrite !bool_decide_eq_true_2; [done| |done].
  by destruct (String.eqb_spec h "") as [->|].
Qed.

Lemma same_address_no_houseNo a saved :
  Address.houseNo a = None → same_address a saved = false.
Proof.
  intros Hh. unfold same_address. rewrite Hh.
  rewrite (bool_decide_eq_false_2 (Some _ = None)) by done.
  apply andb_false_r.
Qed.

(** X4. Saving the same address twice.  The second call adds nothing exactly
    when the address carries a house number (which may be empty), or the
    first call had nothing to do (no pincode, or no such user).  An address
    without a house number is stored again by every call: what is stored
    is the empty string, which never equals the missing value it is
    compared with. *)
Theorem saveAddress_twice (userId : nat) (a : Address.t) (s : Store) :
  let s1 := (saveAddressToUserOnPaymentSuccess userId (Some a) s).2 in
  let s2 := (saveAddressToUserOnPaymentSuccess userId (Some a) s1).2 in
  s2 = s1 ↔
  (Address.houseNo a ≠ None ∨ Js.truthy (Address.pincode a) = false ∨
   users s !! userId = None).
Proof.
  cbn zeta. rewrite (saveAddress_cases userId a s). cbn [snd].
  destruct (users s !! userId) as [addresses|] eqn:Hu.
  2: { rewrite saveAddress_cases, Hu. cbn [snd]. split; [auto|done]. }
  destruct (Js.truthy (Address.pincode a)) eqn:Hp; cbn [andb].
  2: { rewrite saveAddress_cases, Hu, Hp. cbn [snd andb]. split; [auto|done]. }
  destruct (existsb (same_address a) addresses) eqn:Hex; cbn [negb].
  - rewrite saveAddress_cases, Hu, Hp, Hex. cbn [snd andb negb].
    split; [|done]. intros _.
    destruct (Address.houseNo a) eqn:Hh; [by left|].
    apply existsb_exists in Hex as (saved & _ & Hsame).
    by rewrite same_address_no_houseNo in Hsame.
  - rewrite saveAddress_cases. cbn [users set_users snd].
    rewrite lookup_insert_eq, Hp. cbn [andb].
    rewrite existsb_app. cbn [existsb]. rewrite Hex, orb_false_r. cbn [orb].
    destruct (Address.houseNo a) as [h|] eqn:Hh.
    + rewrite (same_address_entry a h) by done. cbn [negb]. split; [by left|done].
    + rewrite same_address_no_houseNo by done. cbn [negb].
      split; [|intros [?|[?|?]]; done].
      intros Heq. apply (f_equal (λ st, length <$> users st !! userId)) in Heq.
      cbn in Heq. rewrite !lookup_insert_eq in Heq. cbn in Heq.
      rewrite !length_app in Heq. cbn in Heq. injection Heq. lia.
Qed.

(** ** Invariants of every route *)

(** *** Computations that keep a property and say something of the result *)

Section Keeps.
Context (P : Store → Prop).

Lemma keeps_ret {A} (Q : A → Prop) a : Q a → keeps P Q (ret a).
Proof. intros Ha s r s' [= <- <-] Hs. split; [done|]. by intros ? [= <-]. Qed.

Lemma keeps_throw {A} (Q : A → Prop) e : keeps P Q (throw e).
Proof. intros s r s' [= <- <-] Hs. by split. Qed.

Lemma keeps_bind {A B} (Q : A → Prop) (R : B → Prop) (m : DB A) (k : A → DB B) :
  keeps P Q m → (∀ a, Q a → keeps P R (k a)) → keeps P R (bind m k).
Proof.
  intros Hm Hk s r s'. unfold bind.
  destruct (m s) as [[e|a] s1] eqn:E; intros H Hs.
  - injection H as <- <-. destruct (Hm _ _ _ E Hs) as [Hs1 _]. by split.
  - destruct (Hm _ _ _ E Hs) as [Hs1 Ha]. eapply Hk; eauto.
Qed.

Lemma keeps_try_catch {A} (Q : A → Prop) (m : DB A) (h : Err → DB A) :
  keeps P Q m → (∀ e, keeps P Q (h e)) → keeps P Q (try_catch m h).
Proof.
  intros Hm Hh s r s'. unfold try_catch.
  destruct (m s) as [[e|a] s1] eqn:E; intros H Hs.
  - destruct (Hm _ _ _ E Hs) as [Hs1 _]. eapply Hh; eauto.
  - injection H as <- <-. eapply Hm; eauto.
Qed.

Lemma keeps_preserves {A} (m : DB A) : preserves P m → keeps P (λ _, True) m.
Proof. intros Hm s r s' E Hs. split; [eauto|done]. Qed.

Lemma keeps_weaken {A} (Q R : A → Prop) (m : DB A) :
  (∀ a, Q a → R a) → keeps P Q m → keeps P R m.
Proof. intros HQR Hm s r s' E Hs. destruct (Hm _ _ _ E Hs). split; eauto. Qed.

Lemma keeps_withTransaction {A} (Q : A → Prop) (fn : DB A) :
  keeps P Q fn → keeps P Q (withTransaction maxRetries fn).
Proof.
  intros Hfn s r s' H Hs.
  apply withTransaction_cases in H as [(a & -> & E)|(e & s1 & -> & -> & _)].
  - eapply Hfn; eauto.
  - by split.
Qed.

Lemma keeps_handler (Q : Response → Prop) (body : DB Response) s :
  keeps P Q body → P s → P (handler body s).2.
Proof.
  intros Hb Hs. unfold handler.
  destruct (body s) as [[e|r] s'] eqn:E; cbn [snd]; eapply Hb; eauto.
Qed.
End Keeps.

(** *** Every route, for a property of the store and of the document held *)

Ltac pres_write :=
  first
    [ match goal with
      | H : ∀ p, preserves ?P (insertPayment p)
        |- preserves ?P (insertPayment _) => apply H
      | H : ∀ p, preserves ?P (insertPayment p)
        |- preserves ?P (createPaymentRecord _) =>
          unfold createPaymentRecord
      end
    | pres_step ].

Ltac keep_plain :=
  eapply (keeps_bind _ (λ _, True));
  [apply keeps_preserves; repeat pres_write|intros ? _].

Ltac amended_tac :=
  unfold amended; cbn; repeat split; try reflexivity; try (by eexists).

Section Routes.
Context (P : Store → Prop) (Q : OrderDoc → Prop).
Context (Hfind : ∀ id, keeps P (λ found, ∀ d, found = Some d → Q d)
                         (Order_findById id))
        (Hsave : ∀ d, Q d → keeps P Q (saveOrder d))
        (Hinsert : ∀ o, Order.orderNumber o = "" → keeps P Q (insertOrder o))
        (Hset : ∀ d o', Q d → amended d.2 o' → Q (d.1, o'))
        (HPay : ∀ p, preserves P (insertPayment p))
        (HProd : products_indep P) (HC : carts_indep P) (HU : users_indep P).

Lemma routes_reduceStock_item item : preserves P (reduceStock_item item).
Proof.
  unfold reduceStock_item. destruct (OrderItem.product item) as [pid|];
    [|apply preserves_ret].
  apply preserves_bind; [apply preserves_gets|].
  intros [p|]; [|apply preserves_ret].
  unfold saveProductStock. destruct (_ <? _)%Z; [apply preserves_throw|].
  intros s r s' [= <- <-] Hs. by apply HProd.
Qed.

Lemma routes_reduceStock_items items : preserves P (reduceStock_items items).
Proof.
  induction items as [|item rest IH]; simpl; [apply preserves_ret|].
  apply preserves_bind; [apply routes_reduceStock_item|]. intros _. apply IH.
Qed.

Lemma routes_decrementStock_items items :
  preserves P (decrementStock_items items).
Proof.
  induction items as [|item rest IH]; simpl; [apply preserves_ret|].
  destruct (OrderItem.product item) as [pid|]; [|exact IH].
  apply preserves_bind; [|intros; exact IH].
  intros s r s'. unfold Product_decrementIfEnough.
  destruct (products s !! pid) as [p|]; [|by intros [= <- <-]].
  destruct (_ <=? _)%Z; intros [= <- <-] Hs; [by apply HProd|done].
Qed.

Lemma routes_restoreStock_items items :
  preserves P (restoreStock_items items).
Proof.
  induction items as [|item rest IH]; simpl; [apply preserves_ret|].
  destruct (OrderItem.product item) as [pid|]; [|exact IH].
  apply preserves_bind; [|intros; exact IH].
  intros s r s'. unfold Product_increment.
  destruct (products s !! pid) as [p|]; intros [= <- <-] Hs; [by apply HProd|done].
Qed.

Lemma routes_reduceStockAfterPayment order :
  Q order →
  keeps P (λ r : bool * OrderDoc, Q r.2) (reduceStockAfterPayment order).
Proof.
  intros Hd. unfold reduceStockAfterPayment.
  destruct (Order.stockReduced order.2); [by apply keeps_ret|].
  assert (Q (order.1, Order.set_stockReduced order.2 true)) as Hmarked
    by (apply Hset; [done|amended_tac]).
  apply keeps_try_catch; [|intros; by apply keeps_ret].
  eapply (keeps_bind _ (λ _, True));
    [apply keeps_preserves, routes_reduceStock_items|intros _ _].
  apply keeps_try_catch; [|intros; by apply keeps_ret].
  eapply (keeps_bind _ Q); [by apply Hsave|].
  intros saved Hsaved. by apply keeps_ret.
Qed.

Lemma routes_attachInvoice env order :
  Q order → keeps P Q (attachInvoice env order).
Proof.
  intros Hd. unfold attachInvoice.
  apply keeps_try_catch; [|intros; by apply keeps_ret].
  keep_plain. apply Hsave, Hset; [done|amended_tac].
Qed.

Lemma routes_createOrderFromCart env userId paymentDetails :
  keeps P Q (createOrderFromCart env userId paymentDetails).
Proof.
  unfold createOrderFromCart. keep_plain.
  destruct a as [[|item items]|]; [apply keeps_throw| |apply keeps_throw].
  keep_plain. destruct a as [enriched subtotal].
  eapply (keeps_bind _ Q); [by apply Hinsert|intros order Ho].
  eapply keeps_bind; [by apply routes_reduceStockAfterPayment|].
  intros [b order'] Ho'. cbn [snd] in Ho'.
  keep_plain. keep_plain.
  eapply (keeps_bind _ Q); [apply Hsave, Hset; [done|amended_tac]|].
  intros order'' Ho''. keep_plain. by apply keeps_ret.
Qed.

Lemma routes_verify env user req s : P s → P (verify env user req s).2.
Proof.
  apply (keeps_handler P (λ _, True)). unfold verify.
  keep_plain. destruct a; [apply keeps_preserves; repeat pres_write|].
  destruct (negb _); [by apply keeps_ret|].
  eapply keeps_bind; [apply routes_createOrderFromCart|intros order _].
  apply keeps_preserves. repeat pres_write.
Qed.

Lemma routes_cod env user orderId s : P s → P (cod env user orderId s).2.
Proof.
  apply (keeps_handler P (λ _, True)). unfold cod.
  destruct orderId as [id|]; [|by apply keeps_ret].
  eapply keeps_bind; [apply Hfind|intros [order|] Hfound];
    [|by apply keeps_ret].
  destruct (negb _); [by apply keeps_ret|].
  destruct (_ >? _)%Z; [by apply keeps_ret|].
  eapply (keeps_bind _ Q);
    [apply Hsave, Hset; [exact (Hfound _ eq_refl)|amended_tac]|].
  intros order' Ho'.
  eapply keeps_bind; [by apply routes_attachInvoice|intros order'' _].
  apply keeps_preserves. repeat pres_write.
Qed.

Lemma routes_verify_upi env user req s :
  P s → P (verify_upi env user req s).2.
Proof.
  apply (keeps_handler P (λ _, True)). unfold verify_upi.
  keep_plain. destruct a; [apply keeps_preserves; repeat pres_write|].
  destruct (negb _); [apply keeps_preserves; repeat pres_write|].
  eapply (keeps_bind _ (λ found, ∀ d, found = Some d → Q d)).
  { unfold Order_findByArg.
    destruct (VerifyUpiReq.orderId req) as [[id|]|];
      [apply Hfind|apply keeps_throw|by apply keeps_ret]. }
  intros [order|] Hfound; [|by apply keeps_ret].
  destruct (bool_decide _); [by apply keeps_ret|].
  eapply (keeps_bind _ Q);
    [apply Hsave, Hset; [exact (Hfound _ eq_refl)|amended_tac]|].
  intros order' Ho'.
  eapply keeps_bind; [by apply routes_reduceStockAfterPayment|].
  intros [b order''] Ho''. cbn [snd] in Ho''.
  keep_plain. keep_plain.
  eapply keeps_bind; [by apply routes_attachInvoice|intros order''' _].
  by apply keeps_ret.
Qed.

Lemma routes_webhook env req s : P s → P (webhook env req s).2.
Proof.
  apply (keeps_handler P (λ _, True)). unfold webhook.
  destruct (negb _); [by apply keeps_ret|].
  destruct (WebhookReq.payment req) as [payment|]; [|by apply keeps_ret].
  destruct (bool_decide _); [|by apply keeps_ret].
  keep_plain. destruct a; [by apply keeps_ret|].
  destruct (PaymentEntity.notes_orderId payment) as [orderId|].
  - eapply (keeps_bind _ (λ _, True)); [|intros; by apply keeps_ret].
    unfold webhook_existing.
    apply keeps_try_catch; [|intros; by apply keeps_ret].
    eapply keeps_bind; [apply Hfind|intros [order|] Hfound];
      [|by apply keeps_ret].
    destruct (negb _); [|by apply keeps_ret].
    eapply (keeps_bind _ Q);
      [apply Hsave, Hset; [exact (Hfound _ eq_refl)|amended_tac]|].
    intros order' Ho'. apply keeps_preserves.
    destruct (PaymentEntity.notes_userId payment); repeat pres_write.
  - destruct (PaymentEntity.notes_userId payment) as [userId|];
      [|by apply keeps_ret].
    eapply (keeps_bind _ (λ _, True)); [|intros; by apply keeps_ret].
    unfold webhook_cart.
    apply keeps_try_catch; [|intros; by apply keeps_ret].
    eapply keeps_bind; [apply routes_createOrderFromCart|intros order _].
    apply keeps_preserves. repeat pres_write.
Qed.

Lemma routes_createOrder user req s : P s → P (createOrder user req s).2.
Proof.
  apply (keeps_handler P (λ _, True)). unfold createOrder.
  destruct (CreateOrderReq.items req) as [|item items]; [by apply keeps_ret|].
  destruct (negb _); [by apply keeps_ret|].
  apply keeps_try_catch.
  - keep_plain. destruct a as [enriched subtotal].
    eapply (keeps_bind _ Q); [by apply Hinsert|intros order Ho].
    by apply keeps_ret.
  - intros e. destruct e; first [by apply keeps_ret|apply keeps_throw].
Qed.

Lemma routes_updateStatus id req s : P s → P (updateStatus id req s).2.
Proof.
  apply (keeps_handler P (λ _, True)). unfold updateStatus.
  eapply keeps_bind; [apply Hfind|intros [order|] Hfound];
    [|by apply keeps_ret].
  eapply (keeps_bind _ Q); [|intros; by apply keeps_ret].
  apply Hsave, Hset; [exact (Hfound _ eq_refl)|].
  destruct (Js.truthy _); amended_tac.
Qed.

Lemma routes_confirmPayment user id s : P s → P (confirmPayment user id s).2.
Proof.
  apply (keeps_handler P (λ _, True)). unfold confirmPayment.
  eapply keeps_bind; [apply Hfind|intros [order|] Hfound];
    [|by apply keeps_ret].
  destruct (negb _); [by apply keeps_ret|].
  destruct (bool_decide _); [by apply keeps_ret|].
  eapply (keeps_bind _ Q); [|intros; by apply keeps_ret].
  apply Hsave, Hset; [exact (Hfound _ eq_refl)|amended_tac].
Qed.

Lemma routes_cancelOrderWithStockRestore id reason cancelledBy :
  keeps P Q (cancelOrderWithStockRestore id reason cancelledBy).
Proof.
  unfold cancelOrderWithStockRestore. apply keeps_withTransaction.
  eapply keeps_bind; [apply Hfind|intros [order|] Hfound];
    [|apply keeps_throw].
  destruct (bool_decide _); [apply keeps_throw|].
  eapply (keeps_bind _ (λ _, True)).
  { apply keeps_preserves. destruct (_ && _); [|apply preserves_ret].
    apply routes_restoreStock_items. }
  intros _ _. apply Hsave, Hset; [exact (Hfound _ eq_refl)|amended_tac].
Qed.

Lemma routes_cancel user admin id reason s :
  P s → P (cancel user admin id reason s).2.
Proof.
  apply (keeps_handler P (λ _, True)). unfold cancel.
  eapply keeps_bind; [apply Hfind|intros [order|] Hfound];
    [|by apply keeps_ret].
  destruct (_ && _); [by apply keeps_ret|].
  destruct (bool_decide _); [by apply keeps_ret|].
  eapply keeps_bind; [apply routes_cancelOrderWithStockRestore|].
  intros. by apply keeps_ret.
Qed.

Lemma routes_executePaymentTransaction order paymentData reduceStock :
  Q order →
  keeps P (λ r : OrderDoc * option Payment.t, Q r.1)
    (executePaymentTransaction order paymentData reduceStock).
Proof.
  intros Hd. unfold executePaymentTransaction. apply keeps_withTransaction.
  eapply (keeps_bind _ Q); [apply Hsave, Hset; [done|amended_tac]|].
  intros order1 Ho1.
  eapply (keeps_bind _ Q).
  { destruct (_ && _ && _); [|by apply keeps_ret].
    eapply (keeps_bind _ (λ _, True));
      [apply keeps_preserves, routes_decrementStock_items|intros _ _].
    apply Hsave, Hset; [done|amended_tac]. }
  intros order2 Ho2.
  eapply (keeps_bind _ (λ _, True)); [|intros; by apply keeps_ret].
  apply keeps_preserves. apply preserves_try_catch; [repeat pres_write|].
  intros []; repeat pres_write.
Qed.

Lemma routes_create_upi_order user orderId razorpayOrder s :
  P s → P (create_upi_order user orderId razorpayOrder s).2.
Proof.
  apply (keeps_handler P (λ _, True)). unfold create_upi_order.
  eapply (keeps_bind _ (λ found, ∀ d, found = Some d → Q d)).
  { unfold Order_findByArg.
    destruct orderId as [[id|]|];
      [apply Hfind|apply keeps_throw|by apply keeps_ret]. }
  intros [order|] Hfound; [|by apply keeps_ret].
  destruct (negb _); [by apply keeps_ret|].
  destruct razorpayOrder as [message|razorpayOrder]; [apply keeps_throw|].
  eapply (keeps_bind _ Q);
    [apply Hsave, Hset; [exact (Hfound _ eq_refl)|amended_tac]|].
  intros order' _. by apply keeps_ret.
Qed.

Lemma routes_run env c s : P s → P (run env c s).2.
Proof.
  destruct c; cbn [run];
    [apply routes_verify|apply routes_verify_upi|apply routes_cod
    |apply routes_create_upi_order
    |apply routes_webhook|apply routes_createOrder|apply routes_updateStatus
    |apply routes_confirmPayment|apply routes_cancel].
Qed.

Lemma routes_run_all env calls s : P s → P (run_all env calls s).
Proof.
  unfold run_all. revert s.
  induction calls as [|c calls IH]; intros s Hs; cbn [foldl]; [done|].
  apply IH. by apply routes_run.
Qed.
End Routes.

(** *** Properties of the store alone *)

Section PlainRoutes.
Context (P : Store → Prop).
Context (HS : ∀ d, preserves P (saveOrder d))
        (HI : ∀ o, preserves P (insertOrder o))
        (HPay : ∀ p, preserves P (insertPayment p))
        (HProd : products_indep P) (HC : carts_indep P) (HU : users_indep P).

Lemma plain_find id :
  keeps P (λ found : option OrderDoc, ∀ d, found = Some d → True)
    (Order_findById id).
Proof. intros s r s' [= <- <-] Hs. by split. Qed.

Lemma plain_save (d : OrderDoc) : True → keeps P (λ _, True) (saveOrder d).
Proof. intros _. apply keeps_preserves, HS. Qed.

Lemma plain_insert (o : Order.t) :
  Order.orderNumber o = "" → keeps P (λ _, True) (insertOrder o).
Proof. intros _. apply keeps_preserves, HI. Qed.

Lemma plain_run_all env calls s : P s → P (run_all env calls s).
Proof.
  apply (routes_run_all P (λ _, True));
    auto using plain_find, plain_save, plain_insert.
Qed.

Lemma plain_executePaymentTransaction order paymentData reduceStock :
  preserves P (executePaymentTransaction order paymentData reduceStock).
Proof.
  intros s r s' E Hs.
  eapply (routes_executePaymentTransaction P (λ _, True));
    eauto using plain_save.
Qed.

Lemma plain_cancelOrderWithStockRestore id reason cancelledBy :
  preserves P (cancelOrderWithStockRestore id reason cancelledBy).
Proof.
  intros s r s' E Hs.
  eapply (routes_cancelOrderWithStockRestore P (λ _, True));
    eauto using plain_find, plain_save.
Qed.
End PlainRoutes.

(** *** The enum paths *)

Lemma saveOrder_inv d s d' s' :
  saveOrder d s = (inr d', s') →
  ∃ old, orders s !! d.1 = Some old ∧
         d' = (d.1, assign_orderNumber (length (orders s)) d.2) ∧
         s' = set_orders s (<[d.1 := d'.2]> (orders s)) ∧
         order_invalid d.2 = None ∧
         order_index_error_update d.1 old d'.2 (orders s) = None.
Proof.
  unfold saveOrder. destruct d as [id o]. cbn [fst snd].
  destruct (orders s !! id) as [old|]; [|discriminate].
  destruct (order_invalid o) eqn:Hv; [discriminate|].
  destruct (order_index_error_update _ _ _ _) eqn:Hi; [discriminate|].
  intros [= <- <-]. eauto 10.
Qed.

Lemma order_valid_new o : order_invalid o = None → order_valid o.
Proof. apply order_invalid_valid. Qed.

Lemma order_valid_assign count o :
  order_valid o → order_valid (assign_orderNumber count o).
Proof.
  unfold order_valid.
  destruct (assign_orderNumber_fields count o)
    as (_ & _ & _ & _ & -> & -> & -> & _). done.
Qed.

Lemma schema_valid_saveOrder d : preserves schema_valid (saveOrder d).
Proof.
  intros s [e|d'] s'.
  - by intros ->%saveOrder_err.
  - intros (old & Hold & -> & -> & Hv & _)%saveOrder_inv [Ho Hp].
    split; [|exact Hp]. cbn [orders set_orders snd].
    apply Forall_insert; [exact Ho|].
    apply order_valid_assign, order_valid_new, Hv.
Qed.

Lemma schema_valid_insertOrder o : preserves schema_valid (insertOrder o).
Proof.
  intros s [e|d'] s'.
  - by intros ->%insertOrder_err.
  - intros (-> & -> & Hv & _)%insertOrder_ok [Ho Hp].
    split; [|exact Hp]. cbn [orders set_orders snd].
    apply Forall_app. split; [exact Ho|].
    apply Forall_singleton, order_valid_assign, order_valid_new, Hv.
Qed.

Lemma schema_valid_insertPayment p : preserves schema_valid (insertPayment p).
Proof.
  intros s [e|p'] s'.
  - by intros ->%insertPayment_err.
  - intros H [Ho Hp].
    pose proof (insertPayment_frame _ _ _ _ H) as (Hos & _).
    apply insertPayment_ok in H as (_ & Hps & Hv & _).
    split; [by rewrite Hos|]. rewrite Hps.
    apply Forall_app. split; [exact Hp|]. apply Forall_singleton.
    unfold payment_invalid, in_enum in Hv.
    destruct (bool_decide_reflect (Payment.method p ∈ Payment.methodEnum));
      [|discriminate].
    destruct (bool_decide_reflect (Payment.status p ∈ Payment.statusEnum));
      [|discriminate].
    done.
Qed.

(** X5. Whatever the routes are asked, in whatever order, every stored order
    keeps a status, a payment method and a payment status of the schema's
    enums, and every ledger entry a method and a status of its enums; the
    transactional settlement keeps this too. *)
Theorem schema_validity_is_kept (env : Env) (calls : list Call) (s : Store)
    (Hs : schema_valid s) :
  schema_valid (run_all env calls s) ∧
  ∀ order paymentData reduceStock,
    schema_valid (executePaymentTransaction order paymentData reduceStock s).2.
Proof.
  assert (products_indep schema_valid ∧ carts_indep schema_valid ∧
          users_indep schema_valid) as (HProd & HC & HU)
    by (split_and!; by intros ? ? ?).
  split.
  - apply plain_run_all; auto using schema_valid_saveOrder,
      schema_valid_insertOrder, schema_valid_insertPayment.
  - intros order paymentData reduceStock.
    destruct (executePaymentTransaction _ _ _ s) as [r s'] eqn:E. cbn [snd].
    eapply (plain_executePaymentTransaction schema_valid);
      eauto using schema_valid_saveOrder,
        schema_valid_insertOrder, schema_valid_insertPayment.
Qed.

(** ** Order numbers *)

(** The decimal of a positive number does not start with the digit 0. *)
Lemma pretty_N_go_head x s :
  (0 < x)%N → ∃ c t, pretty_N_go x s = String c t ∧ c ≠ "0"%char.
Proof.
  revert s. induction (N.lt_wf_0 x) as [x _ IH]; intros s Hx.
  rewrite pretty_N_go_step by done.
  destruct (decide (x < 10)%N) as [Hlt|Hge].
  - rewrite N.div_small, pretty_N_go_0, N.mod_small by done.
    eexists _, _. split; [done|].
    assert (x = 1 ∨ x = 2 ∨ x = 3 ∨ x = 4 ∨ x = 5 ∨ x = 6
            ∨ x = 7 ∨ x = 8 ∨ x = 9)%N as Hcases by lia.
    destruct Hcases as [->|[->|[->|[->|[->|[->|[->|[->| ->]]]]]]]]; done.
  - apply IH; [apply N.div_lt; lia|]. apply N.div_str_pos. lia.
Qed.

Lemma pretty_S_head (n : nat) :
  ∃ c t, pretty (S n) = String c t ∧ c ≠ "0"%char.
Proof.
  unfold pretty, pretty_nat, pretty, pretty_N.
  rewrite decide_False by lia. apply pretty_N_go_head. lia.
Qed.

Lemma zeros_app_inj k1 k2 c1 t1 c2 t2 :
  c1 ≠ "0"%char → c2 ≠ "0"%char →
  Js.zeros k1 ++ String c1 t1 = Js.zeros k2 ++ String c2 t2 →
  String c1 t1 = String c2 t2.
Proof.
  intros H1 H2. revert k2. induction k1 as [|k1 IH]; intros [|k2]; cbn.
  - done.
  - intros [= -> _]. done.
  - intros [= <- _]. done.
  - intros [= H]. by apply IH in H.
Qed.

(** Different counts give different order numbers. *)
Lemma orderNumber_for_inj i j : orderNumber_for i = orderNumber_for j → i = j.
Proof.
  unfold orderNumber_for, Js.padStart0. intros [= H].
  destruct (pretty_S_head i) as (c1 & t1 & E1 & H1).
  destruct (pretty_S_head j) as (c2 & t2 & E2 & H2).
  rewrite E1, E2 in H. apply zeros_app_inj in H; [|done..].
  rewrite <- E1, <- E2 in H. apply (inj pretty) in H. lia.
Qed.

Lemma orderNumber_for_nonempty i : orderNumber_for i ≠ "".
Proof. done. Qed.

(** *** The numbering is kept *)

Lemma numbered_indep :
  payments_indep numbered ∧ products_indep numbered ∧
  carts_indep numbered ∧ users_indep numbered.
Proof. split_and!; by intros ? ? ?. Qed.

Lemma keeps_findById id :
  keeps numbered (λ found, ∀ d, found = Some d → doc_numbered d)
    (Order_findById id).
Proof.
  intros s r s' [= <- <-] Hs. split; [done|].
  intros found [= <-] d. destruct (orders s !! id) as [o|] eqn:Ho; [|done].
  intros [= <-]. by apply Hs.
Qed.

Lemma keeps_saveOrder d :
  doc_numbered d → keeps numbered doc_numbered (saveOrder d).
Proof.
  intros Hd s [e|d'] s'.
  - intros ->%saveOrder_err Hs. by split.
  - intros (old & Hold & -> & ->)%saveOrder_ok Hs. cbn [fst snd].
    rewrite assign_orderNumber_id
      by (rewrite Hd; apply orderNumber_for_nonempty).
    split.
    + intros i o. cbn [orders set_orders].
      destruct (decide (i = d.1)) as [->|Hi].
      * rewrite list_lookup_insert_eq by eauto using lookup_lt_Some.
        by intros [= <-].
      * rewrite list_lookup_insert_ne by done. apply Hs.
    + by intros ? [= <-].
Qed.

Lemma keeps_insertOrder o :
  Order.orderNumber o = "" → keeps numbered doc_numbered (insertOrder o).
Proof.
  intros Ho s [e|d'] s'.
  - intros ->%insertOrder_err Hs. by split.
  - intros (-> & -> & _)%insertOrder_ok Hs. cbn [fst snd].
    assert (Order.orderNumber (assign_orderNumber (length (orders s)) o)
            = orderNumber_for (length (orders s))) as Hnum.
    { unfold assign_orderNumber. by rewrite Ho. }
    split.
    + intros i x. cbn [orders set_orders].
      intros [[_ Hi]|[-> <-]]%lookup_snoc_Some; [by apply Hs|done].
    + by intros ? [= <-].
Qed.

Lemma numbered_run_all env calls s :
  numbered s → numbered (run_all env calls s).
Proof.
  destruct numbered_indep as (HPay & HProd & HC & HU).
  apply (routes_run_all numbered doc_numbered);
    auto using keeps_findById, keeps_saveOrder, keeps_insertOrder.
  - intros d o' Hd (_ & Hnum & _). unfold doc_numbered in *. cbn [fst snd].
    by rewrite Hnum.
  - intros p. apply preserves_insertPayment, HPay.
Qed.

Lemma numbered_no_clash o s :
  numbered s →
  Order.orderNumber o = orderNumber_for (length (orders s)) →
  existsb (clash_orderNumber o) (orders s) = false.
Proof.
  intros Hs Ho. apply fresh_no_clash_orderNumber, Forall_lookup.
  intros j y Hj Heq. rewrite (Hs _ _ Hj), Ho in Heq.
  apply orderNumber_for_inj in Heq. apply lookup_lt_Some in Hj. lia.
Qed.

(** X7. Order numbers follow the count.  In a store whose orders were numbered
    by the hook, whatever the routes are asked, the order stored at
    position [i] keeps the number made from [i + 1] ([TCS] and at least six
    digits); two orders never share a number; and saving a new order never
    fails on the index of the order numbers. *)
Theorem order_numbers_follow_the_count (env : Env) (calls : list Call) (s : Store)
    (Hs : numbered s) :
  let s' := run_all env calls s in
  (∀ i o, orders s' !! i = Some o → Order.orderNumber o = orderNumber_for i) ∧
  (∀ i j o o', orders s' !! i = Some o → orders s' !! j = Some o' →
               Order.orderNumber o = Order.orderNumber o' → i = j) ∧
  (∀ o e st, Order.orderNumber o = "" → insertOrder o s' = (inl e, st) →
             e ≠ DuplicateKey "orderNumber").
Proof.
  cbn zeta. pose proof (numbered_run_all env calls s Hs) as Hs'.
  set (s' := run_all env calls s) in *. clearbody s'.
  split_and!.
  - exact Hs'.
  - intros i j o o' Hi Hj Heq. rewrite (Hs' _ _ Hi), (Hs' _ _ Hj) in Heq.
    by apply orderNumber_for_inj.
  - intros o e st Ho. unfold insertOrder.
    assert (∀ e', order_invalid o = Some e' → ∃ path, e' = ValidationError path)
      as Hinvalid.
    { unfold order_invalid. intros e'.
      repeat (destruct (negb _); [intros [= <-]; by eexists|]). done. }
    destruct (order_invalid o) as [e'|].
    { destruct (Hinvalid e' eq_refl) as [path ->]. by intros [= <- _]. }
    unfold order_index_error.
    rewrite numbered_no_clash; [|done|unfold assign_orderNumber; by rewrite Ho].
    destruct (existsb _ _); [by intros [= <- _]|discriminate].
Qed.

(** ** When the first settlement goes through, in full *)

Lemma enrichItems_total_function items acc total s :
  Forall (λ item, ∀ p, CartItem.product item = RefProduct p →
                       is_Some (products s !! p)) items →
  ∃ enriched subtotal,
    enrichItems items acc total s = (inr (enriched, subtotal), s).
Proof.
  intros Hall. revert acc total.
  induction Hall as [|item rest Hitem _ IH]; intros acc total; cbn [enrichItems].
  - by eexists _, _.
  - destruct (CartItem.product item) as [d|p|] eqn:Hp; [apply IH| |apply IH].
    destruct (Hitem p eq_refl) as [prod Hprod].
    unfold bind, Product_findById, gets. rewrite Hprod. apply IH.
Qed.


(** ** Orders and ledger only grow *)

Lemma kept_refl o : kept o o.
Proof. by split_and!. Qed.

Lemma kept_amended o o1 o2 : kept o o1 → amended o1 o2 → kept o o2.
Proof.
  intros (H1 & H2 & H3 & H4 & H5 & H6) (A1 & _ & A2 & A3 & A4 & A5 & A6).
  split_and!; try congruence. by etrans.
Qed.

Lemma kept_assign o count o1 :
  kept o o1 → kept o (assign_orderNumber count o1).
Proof.
  intros (H1 & H2 & H3 & H4 & H5 & H6).
  destruct (assign_orderNumber_fields count o1)
    as (A1 & A2 & A3 & A4 & _ & _ & _ & _ & _ & A5 & A6).
  unfold kept. by rewrite A1, A2, A3, A4, A5, A6.
Qed.

Lemma grown_refl s : grown s s.
Proof. split; [|done]. intros i o Ho. exists o. split; [done|apply kept_refl]. Qed.

Section Grown.
Context (s0 : Store).

Lemma grown_find id :
  keeps (grown s0) (λ found, ∀ d, found = Some d → doc_kept s0 d)
    (Order_findById id).
Proof.
  intros s r s' [= <- <-] Hs. split; [done|].
  intros found [= <-] d. destruct (orders s !! id) as [o'|] eqn:Ho'; [|done].
  intros [= <-] o Ho. cbn [fst snd] in *.
  destruct Hs as [Hs _]. destruct (Hs _ _ Ho) as (o'' & Ho'' & Hk). congruence.
Qed.

Lemma grown_save d :
  doc_kept s0 d → keeps (grown s0) (doc_kept s0) (saveOrder d).
Proof.
  intros Hd s [e|d'] s'.
  - intros ->%saveOrder_err Hs. by split.
  - intros (old & Hold & -> & ->)%saveOrder_ok [Hs Hp]. cbn [fst snd].
    assert (doc_kept s0 (d.1, assign_orderNumber (length (orders s)) d.2))
      as Hd' by (intros o Ho; by apply kept_assign, Hd).
    split; [|by intros ? [= <-]]. split; [|exact Hp].
    intros i o Ho. cbn [orders set_orders].
    destruct (decide (i = d.1)) as [->|Hi].
    + rewrite list_lookup_insert_eq by eauto using lookup_lt_Some.
      eexists. split; [done|]. by apply Hd'.
    + rewrite list_lookup_insert_ne by done. by apply Hs.
Qed.

Lemma grown_insert o :
  Order.orderNumber o = "" → keeps (grown s0) (doc_kept s0) (insertOrder o).
Proof.
  intros _ s [e|d'] s'.
  - intros ->%insertOrder_err Hs. by split.
  - intros (-> & -> & _)%insertOrder_ok [Hs Hp]. cbn [fst snd].
    split.
    + split; [|exact Hp]. intros i x Hx. cbn [orders set_orders].
      destruct (Hs _ _ Hx) as (x' & Hx' & Hk). exists x'.
      split; [|done]. rewrite lookup_app_l by eauto using lookup_lt_Some. done.
    + intros ? [= <-] x Hx. cbn [fst] in Hx.
      destruct (Hs _ _ Hx) as (x' & Hx' & _).
      apply lookup_lt_Some in Hx'. lia.
Qed.

Lemma grown_insertPayment p : preserves (grown s0) (insertPayment p).
Proof.
  intros s [e|p'] s'.
  - by intros ->%insertPayment_err.
  - intros H [Hs Hp].
    pose proof (insertPayment_frame _ _ _ _ H) as (Hos & _).
    apply insertPayment_ok in H as (_ & Hps & _).
    split; [by rewrite Hos|]. rewrite Hps. by apply prefix_app_r.
Qed.

Lemma grown_run_all env calls s : grown s0 s → grown s0 (run_all env calls s).
Proof.
  apply (routes_run_all (grown s0) (doc_kept s0));
    auto using grown_find, grown_save, grown_insert, grown_insertPayment.
  - intros d o' Hd Ha o Ho. cbn [fst snd] in *.
    eapply kept_amended; [by apply Hd|done].
  - by intros ? ? ?.
  - by intros ? ? ?.
  - by intros ? ? ?.
Qed.
End Grown.

(** X9. No route takes an order or a ledger entry away or rewrites what an
    order is about.  Whatever the routes are asked, every order that was
    stored is still stored at its position with the same owner, lines,
    total, shipping charge and address, and its status history has only
    been added to; and the ledger starts with the entries it had. *)
Theorem orders_and_ledger_only_grow (env : Env) (calls : list Call) (s : Store) :
  let s' := run_all env calls s in
  (length (orders s) ≤ length (orders s'))%nat ∧
  (∀ i o, orders s !! i = Some o →
          ∃ o', orders s' !! i = Some o' ∧
                Order.user o' = Order.user o ∧ Order.items o' = Order.items o ∧
                Order.totalAmount o' = Order.totalAmount o ∧
                Order.shippingCharge o' = Order.shippingCharge o ∧
                Order.shippingAddress o' = Order.shippingAddress o ∧
                Order.statusHistory o `prefix_of` Order.statusHistory o') ∧
  payments s `prefix_of` payments s'.
Proof.
  cbn zeta. destruct (grown_run_all s env calls s (grown_refl s)) as [Ho Hp].
  split_and!; [|exact Ho|exact Hp].
  destruct (decide (length (orders s) ≤ length (orders (run_all env calls s)))%nat)
    as [|Hlt]; [done|].
  destruct (lookup_lt_is_Some_2 (orders s) (length (orders (run_all env calls s))))
    as [o Hlook]; [lia|].
  destruct (Ho _ _ Hlook) as (o' & Ho' & _).
  apply lookup_lt_Some in Ho'. lia.
Qed.

(** ** Settling an existing order *)


(** ** Cancellation *)

(** Ledger, carts and address lists as they are in [s]. *)
Lemma cancelOrderWithStockRestore_frame id reason cancelledBy s r s' :
  cancelOrderWithStockRestore id reason cancelledBy s = (r, s') →
  payments s' = payments s ∧ carts s' = carts s ∧ users s' = users s.
Proof.
  intros E.
  refine (plain_cancelOrderWithStockRestore
            (λ st, payments st = payments s ∧ carts st = carts s ∧
                   users st = users s) _ _ _ _ _ _ _ _ E _); [| |done].
  - intros d st r' st' (Hp & _ & Hc & Hu & _)%saveOrder_frame (? & ? & ?).
    split_and!; congruence.
  - by intros ? ? ?.
Qed.

(** X11. A cancellation is all or nothing.  Either it answers with the
    cancelled order, and then the caller owns the order or is an admin,
    the order is stored with the status CANCELLED, no other order, no
    ledger entry, no cart and no address list has changed, and every stock
    is the old one plus what the order had taken from it; or the store is
    exactly what it was. *)
Theorem cancel_is_all_or_nothing
    (user : nat) (admin : bool) (id : nat) (reason : option string) (s : Store) :
  let r := cancel user admin id reason s in
  (r.2 = s ∧ ∀ c, r.1 ≠ RCancelled c) ∨
  (∃ o c,
     orders s !! id = Some o ∧ r.1 = RCancelled c ∧
     (Order.user o = user ∨ admin = true) ∧
     orders r.2 = <[id := c.2]> (orders s) ∧
     Order.status c.2 = "CANCELLED" ∧
     payments r.2 = payments s ∧ carts r.2 = carts s ∧ users r.2 = users s ∧
     ∀ q, stock_of r.2 q
          = if Order.stockReduced o
            then (λ st, st + requested (Order.items o) q)%Z <$> stock_of s q
            else stock_of s q).
Proof.
  cbn zeta.
  destruct (cancel user admin id reason s) as [r sf] eqn:Hc. cbn [fst snd].
  unfold cancel, handler, Order_findById in Hc.
  unfold bind at 1 in Hc. unfold gets in Hc.
  destruct (orders s !! id) as [o|] eqn:Ho;
    cbn [fmap option_fmap option_map fst snd] in Hc.
  2: { injection Hc as <- <-. by left. }
  destruct (negb (bool_decide (Order.user o = user)) && negb admin) eqn:Hmay.
  { injection Hc as <- <-. by left. }
  destruct (bool_decide (Order.status o ∈ ["SHIPPED"; "DELIVERED"])).
  { injection Hc as <- <-. by left. }
  unfold bind, ret in Hc.
  destruct (cancelOrderWithStockRestore _ _ _ s) as [[e|c] s1] eqn:E.
  - injection Hc as <- <-. left. split; [|done].
    unfold cancelOrderWithStockRestore in E.
    by apply withTransaction_cases in E as [(a & [=] & _)|(e' & s2 & _ & -> & _)].
  - injection Hc as <- <-. right. exists o, c.
    destruct (cancelOrderWithStockRestore_doc _ _ _ _ _ _ _ E Ho)
      as (Hid & Hstored & _ & Hst & _ & Hlen & Hothers).
    destruct (cancelOrderWithStockRestore_frame _ _ _ _ _ _ E) as (Hp & Hcs & Hu).
    split_and!; try done.
    + apply andb_false_iff in Hmay as [H|H].
      * left. apply negb_false_iff in H. by apply bool_decide_eq_true_1 in H.
      * right. by apply negb_false_iff in H.
    + apply list_eq. intros j. destruct (decide (j = id)) as [->|Hj].
      * rewrite Hstored. symmetry. apply list_lookup_insert_eq.
        eauto using lookup_lt_Some.
      * rewrite list_lookup_insert_ne by done. by apply Hothers.
    + intros q. by destruct (cancelOrderWithStockRestore_stock _ _ _ _ _ _ _ q E Ho).
Qed.

(** ** Creating an order before payment *)

(** The loop over the lines adds one order line per request line. *)
Lemma enrichItems_lines items acc total s enriched total' s' :
  enrichItems items acc total s = (inr (enriched, total'), s') →
  ∃ new, enriched = (acc ++ new)%list ∧ length new = length items.
Proof.
  revert acc total. induction items as [|item rest IH]; intros acc total; simpl.
  - intros [= <- _ _]. exists []. by rewrite app_nil_r.
  - destruct (CartItem.product item) as [d|pid|].
    + intros (new & -> & Hlen)%IH. eexists (_ :: new).
      rewrite <- app_assoc. split; [done|simpl; lia].
    + unfold bind, Product_findById, gets.
      destruct (products s !! pid) as [p|]; [|discriminate].
      intros (new & -> & Hlen)%IH. eexists (_ :: new).
      rewrite <- app_assoc. split; [done|simpl; lia].
    + intros (new & -> & Hlen)%IH. eexists (_ :: new).
      rewrite <- app_assoc. split; [done|simpl; lia].
Qed.

(** X12. [router.post('/')] either answers with the order it has appended to
    the collection, for the caller, in status CREATED, unpaid, with no
    payment id and the stock flag clear, or leaves the store as it is.
    Either way it touches no stock, no cart, no ledger entry and no
    address list: stock is taken at settlement only. *)
Theorem createOrder_outcomes (user : nat) (req : CreateOrderReq.t) (s : Store) :
  let r := createOrder user req s in
  (r.2 = s ∧ ∀ code order, r.1 ≠ ROrder code order) ∨
  (∃ o,
     r.1 = ROrder 201 (length (orders s), o) ∧
     r.2 = set_orders s (orders s ++ [o]) ∧
     CreateOrderReq.items req ≠ [] ∧
     complete_address (CreateOrderReq.shippingAddress req) = true ∧
     Order.user o = user ∧ Order.status o = "CREATED" ∧
     Order.paymentStatus o = "Pending" ∧ Order.paymentId o = None ∧
     Order.stockReduced o = false ∧
     length (Order.items o) = length (CreateOrderReq.items req)).
Proof.
  cbn zeta.
  destruct (createOrder user req s) as [r sf] eqn:Hc. cbn [fst snd].
  unfold createOrder, handler in Hc.
  destruct (CreateOrderReq.items req) as [|item items] eqn:Hitems.
  { injection Hc as <- <-. by left. }
  destruct (complete_address (CreateOrderReq.shippingAddress req)) eqn:Haddr;
    cbn [negb] in Hc.
  2: { injection Hc as <- <-. by left. }
  unfold try_catch in Hc. unfold bind at 1 in Hc.
  destruct (enrichItems (item :: items) [] 0%Z s)
    as [[e|[enriched subtotal]] s1] eqn:Henrich.
  { apply enrichItems_err in Henrich as ->.
    left. destruct e; injection Hc as <- <-; by split. }
  pose proof (enrichItems_total _ _ _ _ _ _ _ Henrich) as [-> _].
  apply enrichItems_lines in Henrich as (new & -> & Hlen).
  unfold bind, ret in Hc.
  destruct (insertOrder _ s) as [[e|d] s2] eqn:Hins.
  { apply insertOrder_err in Hins as ->.
    left. destruct e; injection Hc as <- <-; by split. }
  injection Hc as <- <-.
  pose proof (insertOrder_same _ _ _ _ Hins)
    as (Hid & (Hu & Hi & _ & _ & Hst & _ & Hps & Hpid & _) & Hos & _ & Hflag & _).
  apply insertOrder_ok in Hins as (Hd & Hs2 & _).
  right. exists d.2. cbn in Hu, Hi, Hst, Hps, Hpid, Hflag.
  split_and!; try done.
  - by rewrite Hd.
  - by rewrite Hi.
Qed.

(** ** One cart, one payment *)

(** A [/verify] that creates the order empties the cart of the caller. *)
Lemma verify_created_clears_cart env user req s id num :
  (verify env user req s).1 = RSuccess "Payment verified & order created" id num →
  carts (verify env user req s).2 !! user = Some [].
Proof.
  destruct (verify env user req s) as [r sf] eqn:Hv. cbn [fst snd]. intros ->.
  unfold verify, handler in Hv.
  destruct (isPaymentAlreadyProcessed_result (VerifyReq.razorpay_payment_id req) s)
    as [b Hb].
  rewrite (bind_eq _ _ _ _ _ Hb) in Hv. destruct b.
  { unfold bind, Order_findOne_paymentId, gets, respond_existing in Hv.
    destruct (list_find _ _) as [[i o]|]; discriminate. }
  destruct (negb _); [discriminate|].
  unfold bind at 1 in Hv.
  destruct (createOrderFromCart _ _ _ s) as [[e|order] s1] eqn:Hcreate;
    [discriminate|].
  apply createOrderFromCart_ok in Hcreate
    as (items & _ & _ & Hcart & _ & _ & _ & _ & _ & _ & _ & _ & _ & _ & _ & _
        & _ & Hcarts).
  unfold bind at 1 in Hv.
  destruct (saveAddress_run user (VerifyReq.shippingAddress req) s1)
    as (s2 & Hsave & _ & _ & _ & Hc2 & _).
  rewrite Hsave in Hv. cbn in Hv. assert (sf = s2) as -> by congruence.
  rewrite Hc2, Hcarts, lookup_alter_eq, Hcart. done.
Qed.

(** X13. Once [/verify] has turned the cart into an order, a second payment
    made for the same cart cannot be settled: [/verify] with another
    payment id, though its signature is right, fails on the empty cart and
    records nothing. *)
Theorem paid_cart_is_spent
    (env : Env) (user : nat) (first second : VerifyReq.t) (s : Store)
    (id : nat) (num : string)
    (Hfirst : (verify env user first s).1
              = RSuccess "Payment verified & order created" id num)
    (Hother : ¬ already_settled (VerifyReq.razorpay_payment_id second)
                  (verify env user first s).2)
    (Hsig : VerifyReq.razorpay_signature second
            = Some (expectedSignature env (VerifyReq.razorpay_order_id second)
                      (VerifyReq.razorpay_payment_id second))) :
  verify env user second (verify env user first s).2
  = (RThrown (Error "Cart is empty"), (verify env user first s).2).
Proof.
  apply verify_created_clears_cart in Hfirst.
  set (s1 := (verify env user first s).2) in *. clearbody s1.
  unfold verify, handler.
  rewrite (bind_eq _ _ _ _ _ (guard_not_settled _ _ Hother)). cbn iota.
  rewrite bool_decide_eq_true_2 by done. cbn [negb].
  unfold bind at 1. unfold createOrderFromCart.
  unfold bind at 1. unfold gets. by rewrite Hfirst.
Qed.

(** ** The transactional settlement *)

Lemma insertPayment_method p s r s' :
  insertPayment p s = (r, s') →
  (∃ path, r = inl (ValidationError path) ∧ s' = s) ∨
  Payment.method p ∈ Payment.methodEnum.
Proof.
  unfold insertPayment, payment_invalid, in_enum.
  destruct (bool_decide_reflect (Payment.method p ∈ Payment.methodEnum));
    cbn [negb]; [by right|].
  intros [= <- <-]. left. by eexists.
Qed.

(** X14. [executePaymentTransaction] is all or nothing.  Either it throws and
    the store is what it was, or it returns the order, stored as paid
    (status PAID, payment status Paid, the payment id of the call), with
    the stock flag set when stock was to be reduced and the order has
    lines, and then the method written to the ledger is one the ledger's
    schema knows.  A call whose method is [Razorpay], the value the order
    itself defaults to, therefore never commits. *)
Theorem executePaymentTransaction_commits_or_rolls_back
    (order : OrderDoc) (paymentData : PaymentData.t) (reduceStock : bool)
    (s : Store) :
  let r := executePaymentTransaction order paymentData reduceStock s in
  ((∃ e, r = (inl e, s)) ∨
   (∃ d payment,
      r.1 = inr (d, payment) ∧ d.1 = order.1 ∧
      orders r.2 !! order.1 = Some d.2 ∧
      Order.paymentStatus d.2 = "Paid" ∧ Order.status d.2 = "PAID" ∧
      Order.paymentId d.2 = PaymentData.paymentId paymentData ∧
      (reduceStock = true → Order.items order.2 ≠ [] →
       Order.stockReduced d.2 = true) ∧
      Js.or_str (PaymentData.method paymentData) "UPI" ∈ Payment.methodEnum ∧
      carts r.2 = carts s ∧ users r.2 = users s)) ∧
  (PaymentData.method paymentData = Some "Razorpay" → ∃ e, r = (inl e, s)).
Proof.
  cbn zeta.
  assert ((∃ e, executePaymentTransaction order paymentData reduceStock s
                = (inl e, s)) ∨
          (∃ d payment s',
             executePaymentTransaction order paymentData reduceStock s
             = (inr (d, payment), s') ∧ d.1 = order.1 ∧
             orders s' !! order.1 = Some d.2 ∧
             Order.paymentStatus d.2 = "Paid" ∧ Order.status d.2 = "PAID" ∧
             Order.paymentId d.2 = PaymentData.paymentId paymentData ∧
             (reduceStock = true → Order.items order.2 ≠ [] →
              Order.stockReduced d.2 = true) ∧
             Js.or_str (PaymentData.method paymentData) "UPI"
               ∈ Payment.methodEnum ∧
             carts s' = carts s ∧ users s' = users s)) as Hcases.
  2: { split.
       - destruct Hcases as [?|(d & payment & s' & -> & H)]; [by left|].
         right. by exists d, payment.
       - intros Hm. destruct Hcases as [?|(d & payment & s' & _ & H)]; [done|].
         destruct H as (_ & _ & _ & _ & _ & _ & Hin & _).
         rewrite Hm in Hin. cbn in Hin. exfalso. revert Hin.
         apply (bool_decide_eq_false_1 _). vm_compute. reflexivity. }
  destruct (executePaymentTransaction order paymentData reduceStock s)
    as [[e|[d payment]] s'] eqn:E.
  { left. exists e. unfold executePaymentTransaction in E.
    by apply withTransaction_cases in E as [(a & [=] & _)|(e' & s2 & _ & -> & _)]. }
  right. exists d, payment, s'. split; [done|].
  unfold executePaymentTransaction in E.
  apply withTransaction_cases in E as [(a & [= <-] & E)|(e' & s2 & [=] & _)].
  apply bind_inr in E as (d1 & s1 & Hsave1 & E).
  apply bind_inr in E as (d2 & s2 & Hstock & E).
  apply bind_inr in E as (p & s3 & Hledger & E).
  injection E as <- <- <-.
  pose proof (saveOrder_doc _ _ _ _ Hsave1)
    as (Hid1 & Hst1 & _ & Hit1 & _ & _ & Hs1 & _ & Hps1 & Hpid1 & Hfl1 & _).
  pose proof (saveOrder_frame _ _ _ _ Hsave1) as (_ & _ & Hc1 & Hu1 & _).
  cbn in Hid1, Hit1, Hs1, Hps1, Hpid1, Hfl1.
  (* the ledger step changes no order, cart or address list *)
  assert (orders s3 = orders s2 ∧ carts s3 = carts s2 ∧ users s3 = users s2 ∧
          Js.or_str (PaymentData.method paymentData) "UPI" ∈ Payment.methodEnum)
    as (Ho3 & Hc3 & Hu3 & Hmethod).
  { unfold try_catch, bind in Hledger.
    destruct (insertPayment _ s2) as [[e|p'] s2'] eqn:Hins.
    - pose proof (insertPayment_err _ _ _ _ Hins) as ->.
      destruct (insertPayment_method _ _ _ _ Hins) as [(path & [= ->] & _)|Hin];
        [discriminate|].
      destruct e; try discriminate. by injection Hledger as _ <-.
    - pose proof (insertPayment_frame _ _ _ _ Hins) as (Ho & _ & Hc & Hu).
      destruct (insertPayment_method _ _ _ _ Hins) as [(path & [=] & _)|Hin].
      by injection Hledger as _ <-. }
  rewrite Ho3, Hc3, Hu3.
  (* the stock step *)
  destruct (reduceStock && negb (Order.stockReduced d1.2)
            && bool_decide (0 < length (Order.items d1.2))) eqn:Hcond.
  - apply bind_inr in Hstock as ([] & s1' & Hloop & Hsave2).
    assert (carts s1' = carts s1 ∧ users s1' = users s1) as [Hc1' Hu1'].
    { refine (routes_decrementStock_items
                (λ st, carts st = carts s1 ∧ users st = users s1)
                _ _ _ _ _ Hloop _); [by intros ? ? ?|done]. }
    pose proof (saveOrder_doc _ _ _ _ Hsave2)
      as (Hid2 & Hst2 & _ & _ & _ & _ & Hs2 & _ & Hps2 & Hpid2 & Hfl2 & _).
    pose proof (saveOrder_frame _ _ _ _ Hsave2) as (_ & _ & Hc2 & Hu2 & _).
    cbn in Hid2, Hs2, Hps2, Hpid2, Hfl2, Hst2.
    split_and!; congruence.
  - injection Hstock as <- <-.
    split_and!; try congruence; [exact Hst1|].
    intros -> Hitems. cbn [andb] in Hcond.
    apply andb_false_iff in Hcond as [H|H].
    + by apply negb_false_iff in H.
    + apply bool_decide_eq_false_1 in H. rewrite Hit1 in H.
      destruct (Order.items order.2); [done|]. cbn in H. lia.
Qed.

(** ** Cancelling, reopening, cancelling again *)

Lemma restoreStock_items_run items s :
  ∃ s', restoreStock_items items s = (inr tt, s') ∧
        orders s' = orders s ∧ payments s' = payments s ∧
        carts s' = carts s ∧ users s' = users s ∧
        ∀ q, stock_of s' q = (λ st, st + requested items q)%Z <$> stock_of s q.
Proof.
  destruct (restoreStock_items items s) as [r s'] eqn:E.
  assert (r = inr tt) as ->.
  { destruct (restoreStock_items_stock items s 0) as (s2 & Hs2 & _). congruence. }
  exists s'. split; [done|].
  pose proof (routes_restoreStock_items
    (λ st, orders st = orders s ∧ payments st = payments s ∧
           carts st = carts s ∧ users st = users s)
    ltac:(by intros ? ? ?) items s _ _ E ltac:(done)) as (Ho' & Hp' & Hc' & Hu').
  split_and!; try done.
  intros q. destruct (restoreStock_items_stock items s q) as (s2 & Hs2 & _ & Hq).
  congruence.
Qed.

(** A cancellation the guards let through commits. *)
Lemma cancel_run user admin id reason s o :
  orders s !! id = Some o →
  Order.user o = user ∨ admin = true →
  Order.status o ∉ ["SHIPPED"; "DELIVERED"; "CANCELLED"] →
  Order.orderNumber o ≠ "" →
  Order.paymentMethod o ∈ Order.paymentMethodEnum →
  Order.paymentStatus o ∈ Order.paymentStatusEnum →
  ∃ s',
    cancel user admin id reason s
    = (RCancelled (id, cancelled_by admin reason o), s') ∧
    orders s' = <[id := cancelled_by admin reason o]> (orders s) ∧
    payments s' = payments s ∧ carts s' = carts s ∧ users s' = users s ∧
    ∀ q, stock_of s' q
         = if Order.stockReduced o
           then (λ st, st + requested (Order.items o) q)%Z <$> stock_of s q
           else stock_of s q.
Proof.
  intros Ho Hmay Hst Hnum Hm Hps. unfold cancel, handler, Order_findById.
  unfold bind at 1. unfold gets. rewrite Ho.
  cbn [fmap option_fmap option_map fst snd].
  assert (negb (bool_decide (Order.user o = user)) && negb admin = false) as ->.
  { destruct Hmay as [Hu| ->]; [|apply andb_false_r].
    by rewrite bool_decide_eq_true_2. }
  rewrite bool_decide_eq_false_2
    by (intros Hin; apply Hst; rewrite !elem_of_cons in *; tauto).
  (* the transaction *)
  set (fullReason := Js.or_str reason
                       ("Cancelled by " ++ (if admin then "admin" else "user"))).
  assert (∃ s', cancelOrderWithStockRestore id (Some fullReason) user s
                = (inr (id, cancelled_by admin reason o), s') ∧
                orders s' = <[id := cancelled_by admin reason o]> (orders s) ∧
                payments s' = payments s ∧ carts s' = carts s ∧
                users s' = users s ∧
                ∀ q, stock_of s' q
                     = if Order.stockReduced o
                       then (λ st, st + requested (Order.items o) q)%Z
                              <$> stock_of s q
                       else stock_of s q) as (s' & Hrun & Hrest).
  { unfold cancelOrderWithStockRestore.
    assert (∃ s1, (if Order.stockReduced o
                      && bool_decide (0 < length (Order.items o))
                   then restoreStock_items (Order.items o) else ret tt) s
                  = (inr tt, s1) ∧
                  orders s1 = orders s ∧ payments s1 = payments s ∧
                  carts s1 = carts s ∧ users s1 = users s ∧
                  ∀ q, stock_of s1 q
                       = if Order.stockReduced o
                         then (λ st, st + requested (Order.items o) q)%Z
                                <$> stock_of s q
                         else stock_of s q)
      as (s1 & Hrestore & Ho1 & Hp1 & Hc1 & Hu1 & Hstock).
    { destruct (Order.stockReduced o); cbn [andb].
      - case_bool_decide as Hlen.
        + apply restoreStock_items_run.
        + exists s. split_and!; try done. intros q.
          destruct (Order.items o); [|cbn in Hlen; lia]. cbn.
          destruct (stock_of s q); cbn; f_equal; lia.
      - exists s. by split_and!. }
    eexists. split.
    - apply withTransaction_commit. unfold Order_findById.
      unfold bind at 1. unfold gets. rewrite Ho.
      cbn [fmap option_fmap option_map fst snd].
      rewrite bool_decide_eq_false_2
        by (intros Heq; apply Hst; rewrite Heq, !elem_of_cons; tauto).
      rewrite (bind_eq _ _ _ _ _ Hrestore).
      apply (saveOrder_valid id _ o s1); [by rewrite Ho1|done|done|done| |done|done].
      apply (bool_decide_unpack _). vm_compute. exact I.
    - cbn [orders payments carts users set_orders]. rewrite Ho1.
      by split_and!. }
  rewrite (bind_eq _ _ _ _ _ Hrun). by exists s'.
Qed.

Lemma updateStatus_stores id o s status note :
  orders s !! id = Some o →
  Order.orderNumber o ≠ "" →
  status ∈ Order.statusEnum →
  Order.paymentMethod o ∈ Order.paymentMethodEnum →
  Order.paymentStatus o ∈ Order.paymentStatusEnum →
  updateStatus id (StatusReq.mk status note None) s
  = (ROrder 200 (id, status_set status note o),
     set_orders s (<[id := status_set status note o]> (orders s))).
Proof.
  intros Ho Hnum Hin Hm Hps. unfold updateStatus, handler, Order_findById.
  unfold bind at 1. unfold gets. rewrite Ho.
  cbn [fmap option_fmap option_map fst snd StatusReq.status StatusReq.note
       StatusReq.paymentStatus Js.truthy].
  fold (status_set status note o).
  by rewrite (bind_eq _ _ _ _ _
    (saveOrder_valid id (status_set status note o) o s Ho eq_refl Hnum eq_refl
       Hin Hm Hps)).
Qed.

(** X15. Cancellation restores the stock an order had taken but leaves the
    stock flag of the order set.  So when an admin moves the cancelled
    order back to an open status and it is cancelled again, the same stock
    is added a second time: every product ends with twice the quantity of
    the order on top of what it had.  The order is one whose payment
    method and payment status are of the schema, as the routes leave them
    (X5): a document is validated as a whole when it is saved. *)
Theorem reopened_order_is_restocked_twice
    (user : nat) (admin : bool) (id : nat) (reason reason' : option string)
    (status : string) (note : option string) (s : Store) (o : Order.t)
    (Ho : orders s !! id = Some o)
    (Hmay : Order.user o = user ∨ admin = true)
    (Hopen : Order.status o ∉ ["SHIPPED"; "DELIVERED"; "CANCELLED"])
    (Hnum : Order.orderNumber o ≠ "")
    (Hflag : Order.stockReduced o = true)
    (Hmethod : Order.paymentMethod o ∈ Order.paymentMethodEnum)
    (Hpaid : Order.paymentStatus o ∈ Order.paymentStatusEnum)
    (Hstatus : status ∈ Order.statusEnum)
    (Hreopen : status ∉ ["SHIPPED"; "DELIVERED"; "CANCELLED"]) :
  let s1 := (cancel user admin id reason s).2 in
  let s2 := (updateStatus id (StatusReq.mk status note None) s1).2 in
  let s3 := (cancel user admin id reason' s2).2 in
  (Order.stockReduced <$> orders s1 !! id) = Some true ∧
  (∀ q, stock_of s1 q
        = (λ st, st + requested (Order.items o) q)%Z <$> stock_of s q) ∧
  (∀ q, stock_of s3 q
        = (λ st, st + 2 * requested (Order.items o) q)%Z <$> stock_of s q).
Proof.
  cbn zeta.
  assert (id < length (orders s)) as Hlt by eauto using lookup_lt_Some.
  destruct (cancel_run user admin id reason s o Ho Hmay Hopen Hnum Hmethod Hpaid)
    as (s1 & -> & Ho1 & _ & _ & _ & Hst1). cbn [snd].
  rewrite Hflag in Hst1.
  set (o1 := cancelled_by admin reason o) in *.
  assert (orders s1 !! id = Some o1) as Hstored1
    by (rewrite Ho1; by apply list_lookup_insert_eq).
  rewrite (updateStatus_stores id o1 s1 status note Hstored1 Hnum Hstatus
             Hmethod Hpaid).
  cbn [snd].
  set (o2 := status_set status note o1) in *.
  set (s2 := set_orders s1 (<[id := o2]> (orders s1))).
  assert (orders s2 !! id = Some o2) as Hstored2.
  { apply list_lookup_insert_eq. rewrite Ho1, length_insert. done. }
  destruct (cancel_run user admin id reason' s2 o2 Hstored2 Hmay Hreopen Hnum
              Hmethod Hpaid)
    as (s3 & -> & _ & _ & _ & _ & Hst3). cbn [snd].
  split_and!; [rewrite Hstored1; cbn; by rewrite Hflag|exact Hst1|].
  intros q. rewrite Hst3. cbn [Order.stockReduced o2 status_set o1 cancelled_by
    Order.push_history Order.set_status Order.items].
  rewrite Hflag.
  assert (stock_of s2 q = stock_of s1 q) as -> by done.
  rewrite Hst1. destruct (stock_of s q); cbn; f_equal; lia.
Qed.

(** ** A settlement that fails at the invoice *)

(** [createOrderFromCart] up to the invoice step: the order is stored
    paid with the stock flag set and the ledger entry written; then the
    generator decides. *)
Lemma createOrderFromCart_to_invoice env userId paymentDetails s items pid :
  numbered s →
  PaymentDetails.paymentId paymentDetails = Some pid →
  orders_with (Some pid) s = 0 →
  Js.or_str (PaymentDetails.paymentMethod paymentDetails) "Razorpay"
    ∈ Order.paymentMethodEnum →
  carts s !! userId = Some items → items ≠ [] →
  Forall (λ item, ∀ p, CartItem.product item = RefProduct p →
                       is_Some (products s !! p)) items →
  ∃ o s3,
    orders s3 = (orders s ++ [o])%list ∧
    Order.orderNumber o = orderNumber_for (length (orders s)) ∧
    Order.user o = userId ∧
    Order.paymentId o = Some pid ∧ Order.paymentStatus o = "Paid" ∧
    Order.stockReduced o = true ∧
    (∃ subtotal, enrichItems items [] 0%Z s = (inr (Order.items o, subtotal), s)) ∧
    carts s3 = carts s ∧ users s3 = users s ∧
    products s3 = products (reduceStock_items (Order.items o) s).2 ∧
    payments_with (Some pid) s3 = Nat.max 1 (payments_with (Some pid) s) ∧
    createOrderFromCart env userId paymentDetails s
    = match generateAndSaveInvoice env (length (orders s), o) with
      | Some inv =>
          (inr (length (orders s), Order.set_invoice o inv.1 inv.2),
           set_carts
             (set_orders s3
                (<[length (orders s) := Order.set_invoice o inv.1 inv.2]>
                   (orders s3)))
             (alter (λ _, []) userId (carts s3)))
      | None => (inl InvoiceError, s3)
      end.
Proof.
  intros Hnumbered Hpid Hfresh Hmethod Hcart Hitems Hproducts.
  destruct (enrichItems_total_function items [] 0%Z s Hproducts)
    as (enrichedItems & subtotal & Henrich).
  unfold createOrderFromCart.
  unfold bind at 1. unfold gets. rewrite Hcart.
  destruct items as [|item items]; [done|].
  rewrite (bind_eq _ _ _ _ _ Henrich). cbn beta iota.
  set (o0 := Order.mk _ _ _ _ _ _ _ _ _ _ _ _ _ _ _ _).
  set (o1 := Order.set_orderNumber o0 (orderNumber_for (length (orders s)))).
  assert (insertOrder o0 s
          = (inr (length (orders s), o1), set_orders s (orders s ++ [o1])%list))
    as Hins.
  { unfold insertOrder, order_invalid.
    assert (in_enum (Order.status o0) Order.statusEnum = true) as -> by done.
    assert (in_enum (Order.paymentMethod o0) Order.paymentMethodEnum = true) as ->
      by (by apply bool_decide_eq_true_2).
    assert (in_enum (Order.paymentStatus o0) Order.paymentStatusEnum = true) as ->
      by done.
    cbn [negb].
    assert (assign_orderNumber (length (orders s)) o0 = o1) as -> by done.
    unfold order_index_error.
    rewrite numbered_no_clash by done.
    rewrite fresh_no_clash_paymentId; [done|].
    unfold orders_with in Hfresh. apply length_zero_iff_nil in Hfresh.
    subst o1 o0. cbn. by rewrite Hpid. }
  rewrite (bind_eq _ _ _ _ _ Hins).
  set (s1 := set_orders s (orders s ++ [o1])%list).
  set (id := length (orders s)).
  assert (orders s1 !! id = Some o1) as Hstored1.
  { subst s1 id. simpl. by rewrite lookup_app_r, Nat.sub_diag. }
  assert (Order.orderNumber o1 ≠ "") as Hnum1 by done.
  destruct (reduceStockAfterPayment_run id o1 s1 Hstored1 Hnum1
              ltac:(split_and!; enum))
    as (b & s2 & Hred & Ho2 & Hpr2 & Hp2 & Hc2 & Hu2).
  rewrite (bind_eq _ _ _ _ _ Hred). cbn beta iota.
  set (o2 := Order.set_stockReduced o1 true) in *.
  unfold bind at 1.
  match goal with
  | |- context [createPaymentRecord ?data s2] =>
      pose proof (createPaymentRecord_count data s2 pid ltac:(done) Hpid) as Hcount;
      destruct (createPaymentRecord_run data s2)
        as (rec & s3 & Hrec & Ho3 & Hpr3 & Hc3 & Hu3)
  end.
  rewrite Hrec in Hcount |- *. cbn [snd] in Hcount.
  assert (payments_with (Some pid) s3 = Nat.max 1 (payments_with (Some pid) s))
    as Hpayments.
  { rewrite Hcount.
    - unfold payments_with. by rewrite Hp2.
    - cbn. by destruct (bool_decide _).
    - done. }
  assert (orders s3 = (orders s ++ [o2])%list) as Horders.
  { rewrite Ho3, Ho2. subst s1 id. cbn [orders set_orders].
    replace (length (orders s)) with (length (orders s) + 0) by lia.
    by rewrite insert_app_r. }
  exists o2, s3. split_and!; try done.
  - by exists subtotal.
  - by rewrite Hc3, Hc2.
  - by rewrite Hu3, Hu2.
  - rewrite Hpr3, Hpr2. by apply reduceStock_items_products.
  - unfold bind at 1, invoiceFor. cbn [fst snd].
    destruct (generateAndSaveInvoice env (id, o2)) as [inv|]; [|done].
    cbn [ret].
    rewrite (bind_eq _ _ _ _ _
      (saveOrder_valid id (Order.set_invoice o2 inv.1 inv.2) o2 s3
         ltac:(rewrite Horders; by rewrite lookup_app_r, Nat.sub_diag)
         eq_refl Hnum1 eq_refl
         ltac:(enum) ltac:(enum) ltac:(enum))).
    unfold bind, clearCart, modify, ret. done.
Qed.

(** X16. When the invoice generator throws, [/verify] answers with the error
    although the order is already stored as paid, with the lines of the
    cart, its stock taken and its ledger entry written; the cart is left
    as it was.  The stock is what the stock loop leaves for the lines of
    the order: for every product the stock covers, the stock less the
    quantity the order asks for.  The same request sent again is answered
    with that order: the guard finds it. *)
Theorem invoice_failure_is_recovered_by_retry
    (env : Env) (user : nat) (req : VerifyReq.t) (s : Store) (pid : string)
    (items : list CartItem.t)
    (Hnumbered : numbered s)
    (Hpid : VerifyReq.razorpay_payment_id req = Some pid)
    (Hne : pid ≠ "")
    (Hfresh : orders_with (Some pid) s = 0)
    (Hsig : VerifyReq.razorpay_signature req
            = Some (expectedSignature env (VerifyReq.razorpay_order_id req)
                      (VerifyReq.razorpay_payment_id req)))
    (Hcart : carts s !! user = Some items)
    (Hlines : items ≠ [])
    (Hproducts : Forall (λ item, ∀ p, CartItem.product item = RefProduct p →
                                      is_Some (products s !! p)) items)
    (Hinvoice : ∀ order, generateAndSaveInvoice env order = None) :
  let s1 := (verify env user req s).2 in
  (verify env user req s).1 = RThrown InvoiceError ∧
  (∃ o, orders s1 = (orders s ++ [o])%list ∧
        Order.user o = user ∧ Order.paymentId o = Some pid ∧
        Order.paymentStatus o = "Paid" ∧ Order.stockReduced o = true ∧
        (∃ subtotal,
           enrichItems items [] 0%Z s = (inr (Order.items o, subtotal), s)) ∧
        products s1 = products (reduceStock_items (Order.items o) s).2 ∧
        (∀ q st,
           Forall (λ item, 0 ≤ line_quantity item)%Z (Order.items o) →
           stock_of s q = Some st →
           (requested (Order.items o) q ≤ st)%Z →
           stock_of s1 q = Some (st - requested (Order.items o) q)%Z)) ∧
  payments_with (Some pid) s1 = Nat.max 1 (payments_with (Some pid) s) ∧
  carts s1 = carts s ∧
  verify env user req s1
  = (RSuccess "Payment already processed"
       (length (orders s)) (orderNumber_for (length (orders s))), s1).
Proof.
  cbn zeta.
  destruct (createOrderFromCart_to_invoice env user
              (PaymentDetails.mk (VerifyReq.razorpay_payment_id req)
                 (VerifyReq.razorpay_order_id req)
                 (VerifyReq.razorpay_signature req) (Some "Razorpay")
                 (VerifyReq.shippingAddress req))
              s items pid Hnumbered Hpid Hfresh
              ltac:(apply (bool_decide_unpack _); vm_compute; exact I)
              Hcart Hlines Hproducts)
    as (o & s3 & Horders & Hnum & Hu & Hopid & Hpaid & Hflag & Hitems & Hc & _
        & Hprod & Hpay & Hcreate).
  rewrite Hinvoice in Hcreate.
  assert (verify env user req s = (RThrown InvoiceError, s3)) as Hfirst.
  { unfold verify, handler.
    rewrite Hpid, (bind_eq _ _ _ _ _ (guard_miss _ _ Hfresh)). cbn iota.
    rewrite <- Hpid, bool_decide_eq_true_2 by done. cbn [negb].
    by rewrite (bind_throw _ _ _ _ _ Hcreate). }
  rewrite Hfirst. cbn [fst snd].
  split_and!; [done| |done..|].
  { exists o. split_and!; try done.
    intros q st Hpos Hst Hle. rewrite (stock_of_products _ _ _ Hprod).
    by apply reduceStock_items_sufficient. }
  assert (list_find (λ o, Order.paymentId o = Some pid) (orders s3)
          = Some (length (orders s), o)) as Hfind.
  { rewrite Horders, list_find_app_r.
    - cbn. rewrite decide_True by done. cbn. by rewrite ?Nat.add_0_r.
    - apply list_find_None, Forall_forall. intros o' Hin Ho'.
      unfold orders_with in Hfresh. apply length_zero_iff_nil in Hfresh.
      eapply (filter_nil_not_elem_of _ _ o' Hfresh); done. }
  pose proof (settled_call env (ClientVerify user req) pid s3
                (length (orders s)) o Hpid Hne Hfind Hpaid) as Hrun.
  cbn in Hrun. by rewrite Hrun, Hnum.
Qed.

(** ** The webhook settles a cart *)


(** ** The stock alerts *)

#[local] Instance stock_le_trans : Transitive stock_le.
Proof. unfold stock_le. intros a b c. lia. Qed.

#[local] Instance stock_le_total : Total stock_le.
Proof. unfold stock_le. intros a b. lia. Qed.

Lemma filter_none {A} (P : A → Prop) `{∀ x, Decision (P x)} (l : list A) :
  Forall (λ x, ¬ P x) l → filter P l = [].
Proof.
  induction 1 as [|x l Hx _ IH]; [done|].
  by rewrite filter_cons, decide_False.
Qed.

(** A list sorted by rising stock, with no negative stock in it, is its
    three bands one after the other. *)
Lemma bands_of_sorted (l : list (nat * Product.t)) :
  StronglySorted stock_le l →
  Forall (λ p, 0 ≤ Product.stock p.2)%Z l →
  l = (filter (λ p, Product.stock p.2 = 0%Z) l
       ++ filter (λ p, (0 < Product.stock p.2)%Z ∧ (Product.stock p.2 ≤ 5)%Z) l
       ++ filter (λ p, (5 < Product.stock p.2)%Z) l)%list.
Proof.
  induction 1 as [|x l Hl IH Hx]; [done|].
  intros [Hx0 Hl0]%Forall_cons. specialize (IH Hl0).
  rewrite !filter_cons.
  destruct (decide (Product.stock x.2 = 0%Z)) as [H0|H0].
  - rewrite !decide_False by lia. cbn. by f_equal.
  - rewrite (filter_none (λ p, Product.stock p.2 = 0%Z) l) in IH |- *
      by (eapply Forall_impl; [exact Hx|]; unfold stock_le; cbn; lia).
    cbn [app] in *.
    destruct (decide (0 < Product.stock x.2 ∧ Product.stock x.2 ≤ 5)%Z)
      as [H5|H5].
    + rewrite decide_False by lia. cbn. by f_equal.
    + rewrite (filter_none
                 (λ p, (0 < Product.stock p.2)%Z ∧ (Product.stock p.2 ≤ 5)%Z) l)
        in IH |- *
        by (eapply Forall_impl; [exact Hx|]; unfold stock_le; cbn; lia).
      cbn [app] in *. rewrite decide_True by lia. by f_equal.
Qed.

Lemma Product_find_lowStock_elem threshold s id p :
  (id, p) ∈ Product_find_lowStock threshold s ↔
  products s !! id = Some p ∧ (Product.stock p ≤ threshold)%Z.
Proof.
  unfold Product_find_lowStock. rewrite merge_sort_Permutation.
  rewrite list_elem_of_filter, elem_of_map_to_list. cbn. tauto.
Qed.

(** X18. The alert list of the admin.  The products listed are exactly the
    products whose stock is at or under the threshold, by rising stock;
    a threshold that is missing, no number, or 0 counts as 10.  When no
    stock is negative the three bands (out of stock, 1 to 5, above 5) are
    the list cut in three, so the three counts add up to its length. *)
Theorem stock_alerts_are_the_low_stock_list
    (queryThreshold : option Z) (s : Store) (Hs : stock_nonneg s) :
  let threshold := alertThreshold queryThreshold in
  let alerts := stockAlerts queryThreshold s in
  let listed := (StockAlerts.outOfStock alerts ++ StockAlerts.criticalStock alerts
                 ++ StockAlerts.lowStock alerts)%list in
  (queryThreshold = None ∨ queryThreshold = Some 0%Z → threshold = 10%Z) ∧
  (∀ n, queryThreshold = Some n → n ≠ 0%Z → threshold = n) ∧
  listed = Product_find_lowStock threshold s ∧
  StronglySorted stock_le listed ∧
  (∀ id p, (id, p) ∈ listed ↔
           products s !! id = Some p ∧ (Product.stock p ≤ threshold)%Z) ∧
  StockAlerts.outOfStockCount alerts + StockAlerts.criticalCount alerts
  + StockAlerts.lowStockCount alerts
  = length (Product_find_lowStock threshold s).
Proof.
  cbn zeta.
  assert (StronglySorted stock_le
            (Product_find_lowStock (alertThreshold queryThreshold) s)) as Hsorted
    by (apply StronglySorted_merge_sort; apply _).
  assert ((StockAlerts.outOfStock (stockAlerts queryThreshold s)
           ++ StockAlerts.criticalStock (stockAlerts queryThreshold s)
           ++ StockAlerts.lowStock (stockAlerts queryThreshold s))%list
          = Product_find_lowStock (alertThreshold queryThreshold) s) as Hcut.
  { symmetry. apply bands_of_sorted; [exact Hsorted|].
    apply Forall_forall. intros [id p] [Hp _]%Product_find_lowStock_elem.
    by apply (Hs id). }
  split_and!.
  - by intros [->| ->].
  - intros n -> Hn. cbn. unfold Js.or_num.
    by destruct (Z.eqb_spec n 0).
  - exact Hcut.
  - by rewrite Hcut.
  - intros id p. rewrite Hcut. apply Product_find_lowStock_elem.
  - rewrite <- Hcut, !length_app. cbn. lia.
Qed.

(** ** Soft delete and restore *)

Lemma deletion_of_set m id d a m' id' :
  deletion_of m' id' (set_deletion m id d a)
  = if decide (m' = m ∧ id' = id) then d else deletion_of m' id' a.
Proof.
  destruct m, m'; cbn; unfold deletion_of; cbn;
    (destruct (decide (id' = id)) as [->|Hne];
     [rewrite ?lookup_insert_eq|rewrite ?lookup_insert_ne by done]);
    try rewrite decide_True by done;
    try rewrite decide_False by (intros [? ?]; done); done.
Qed.

(** X19. Soft delete and restore.  On a document that is not stored both
    throw and change nothing.  On a stored document the delete marks it,
    with the time and the admin; the restore after it clears the mark, the
    time and the admin, whatever they were, and no other document and
    nothing of the store changes.  A reason is kept only for an order and
    only when it is not empty: an order deleted without a reason keeps the
    reason of an earlier delete, a product never has one written.  The
    restore clears the reason of an order. *)
Theorem soft_delete_then_restore
    (m : Model) (id deletedBy : nat) (reason : option string) (now : Z)
    (a : Archive) :
  let deleted := softDelete m id deletedBy reason now a in
  let restored := restoreDeleted m id deleted.2 in
  let before := deletion_of m id a in
  if stored m id a then
    (∃ doc, deleted.1 = inr doc ∧ deletion_of m id deleted.2 = doc ∧
            Deletion.isDeleted doc = true ∧ Deletion.deletedAt doc = Some now ∧
            Deletion.deletedBy doc = Some deletedBy ∧
            Deletion.deletionReason doc
            = match m with
              | ModelOrder => if Js.truthy reason then reason
                              else Deletion.deletionReason before
              | ModelProduct => Deletion.deletionReason before
              end) ∧
    (∃ doc, restored.1 = inr doc ∧ deletion_of m id restored.2 = doc ∧
            Deletion.isDeleted doc = false ∧ Deletion.deletedAt doc = None ∧
            Deletion.deletedBy doc = None ∧
            Deletion.deletionReason doc
            = match m with
              | ModelOrder => None
              | ModelProduct => Deletion.deletionReason before
              end) ∧
    (before = Deletion.none → deletion_of m id restored.2 = Deletion.none) ∧
    store restored.2 = store a ∧
    (∀ m' id', ¬ (m' = m ∧ id' = id) →
               deletion_of m' id' restored.2 = deletion_of m' id' a)
  else
    deleted = (inl (Error (model_name m ++ " not found")), a) ∧
    restoreDeleted m id a = (inl (Error (model_name m ++ " not found")), a).
Proof.
  cbn zeta. destruct (stored m id a) eqn:Hstored.
  2: { unfold softDelete, restoreDeleted. by rewrite Hstored. }
  unfold softDelete. rewrite Hstored. cbn [fst snd].
  set (doc1 := Deletion.mk true _ _ _).
  assert (stored m id (set_deletion m id doc1 a) = true) as Hstored1
    by (by destruct m).
  unfold restoreDeleted. rewrite Hstored1. cbn [fst snd].
  rewrite !deletion_of_set, !decide_True by done.
  split_and!.
  - eexists. split_and!; try done. subst doc1. cbn.
    destruct m; cbn; [by rewrite andb_true_r|by rewrite andb_false_r].
  - eexists. split_and!; try done.
    destruct m; cbn; [done|by rewrite andb_false_r].
  - intros Hnone. subst doc1. cbn. rewrite Hnone.
    destruct m; cbn; [done|by rewrite andb_false_r].
  - by destruct m.
  - intros m' id' Hne. by rewrite !deletion_of_set, !decide_False.
Qed.

(** ** The list of the customer *)

Lemma myOrders_elem user a d :
  d ∈ (myOrders user a).1 ↔
  orders (store a) !! d.1 = Some d.2 ∧ Order.user d.2 = user ∧
  Deletion.isDeleted (deletion_of ModelOrder d.1 a) ≠ true.
Proof.
  unfold myOrders. cbn [fst]. rewrite elem_of_reverse, list_elem_of_filter.
  split.
  - intros [[Hu Hd] (i & o & -> & Ho)%elem_of_lookup_imap_1]. by split_and!.
  - intros (Ho & Hu & Hd). split; [done|].
    destruct d as [i o]. by apply (elem_of_lookup_imap_2 (λ i o, (i, o))).
Qed.

(** X20. [GET /my] after a soft delete and after the restore.  The list of a
    customer holds exactly the stored orders of the customer that are not
    marked deleted, and the [total] beside it is its length.  Once an order
    is soft-deleted the list is the list as it was without that order;
    once it is restored the order is listed again, and if it was not
    marked before the delete the list is what it was. *)
Theorem my_orders_hide_deleted
    (user id deletedBy : nat) (reason : option string) (now : Z)
    (a : Archive) (o : Order.t)
    (Ho : orders (store a) !! id = Some o) :
  let a1 := (softDelete ModelOrder id deletedBy reason now a).2 in
  let a2 := (restoreDeleted ModelOrder id a1).2 in
  (∀ st d, d ∈ (myOrders user st).1 ↔
           orders (store st) !! d.1 = Some d.2 ∧ Order.user d.2 = user ∧
           Deletion.isDeleted (deletion_of ModelOrder d.1 st) ≠ true) ∧
  (∀ st, (myOrders user st).2 = length (myOrders user st).1) ∧
  (myOrders user a1).1 = filter (λ d, d.1 ≠ id) (myOrders user a).1 ∧
  (Order.user o = user → (id, o) ∈ (myOrders user a2).1) ∧
  (Deletion.isDeleted (deletion_of ModelOrder id a) = false →
   myOrders user a2 = myOrders user a).
Proof.
  cbn zeta.
  assert (stored ModelOrder id a = true) as Hstored
    by (cbn; by rewrite bool_decide_eq_true_2).
  unfold softDelete. rewrite Hstored. cbn [snd].
  set (doc1 := Deletion.mk true _ _ _).
  unfold restoreDeleted.
  assert (stored ModelOrder id (set_deletion ModelOrder id doc1 a) = true) as ->
    by done.
  cbn [snd].
  set (doc2 := Deletion.mk false _ _ _).
  split_and!.
  - intros st d. apply myOrders_elem.
  - done.
  - unfold myOrders. cbn [fst].
    assert (store (set_deletion ModelOrder id doc1 a) = store a) as -> by done.
    rewrite filter_reverse, list_filter_filter. f_equal.
    apply list_filter_iff. intros [i x]. cbn [fst snd].
    rewrite deletion_of_set.
    destruct (decide (i = id)) as [->|Hne].
    + rewrite decide_True by done. subst doc1. cbn [Deletion.isDeleted].
      split; [by intros [_ ?]|by intros [? _]].
    + rewrite decide_False by (intros [_ ?]; done).
      split; [by intros [? ?]|by intros [_ ?]].
  - intros Hu. apply myOrders_elem. cbn [fst snd].
    rewrite deletion_of_set, decide_True by done. by split_and!.
  - intros Hclean. unfold myOrders. cbn [fst].
    assert (store (set_deletion ModelOrder id doc2
                     (set_deletion ModelOrder id doc1 a)) = store a) as -> by done.
    assert (filter (λ d : OrderDoc,
                      Order.user d.2 = user ∧
                      Deletion.isDeleted
                        (deletion_of ModelOrder d.1
                           (set_deletion ModelOrder id doc2
                              (set_deletion ModelOrder id doc1 a))) ≠ true)
              (imap (λ i o, (i, o)) (orders (store a)))
            = filter (λ d : OrderDoc,
                        Order.user d.2 = user ∧
                        Deletion.isDeleted (deletion_of ModelOrder d.1 a) ≠ true)
                (imap (λ i o, (i, o)) (orders (store a)))) as Heq.
    { apply list_filter_iff. intros [i x]. cbn [fst snd].
      rewrite !deletion_of_set.
      destruct (decide (i = id)) as [->|Hne].
      - rewrite decide_True by done. rewrite Hclean. by subst doc2.
      - rewrite !decide_False by (intros [_ ?]; done). done. }
    by rewrite Heq.
Qed.

(** ** The URLs of the front end *)

Lemma append_length (s t : string) :
  String.length (s ++ t) = String.length s + String.length t.
Proof. induction s as [|a s IH]; [done|]. simpl. by f_equal. Qed.

Lemma append_eq_self (base s : string) : base ++ s = s → base = "".
Proof.
  intros Heq. apply (f_equal String.length) in Heq.
  rewrite append_length in Heq. destruct base; [done|]. cbn in Heq. lia.
Qed.

Lemma truthy_Some (s : string) : Js.truthy (Some s) = true ↔ s ≠ "".
Proof. cbn. destruct (String.eqb_spec s ""); cbn; naive_solver. Qed.

Lemma getMediaUrl_Some b u :
  u ≠ "" →
  getMediaUrl b (Some u)
  = if startsWith u "http" then u
    else if deployed (Browser.hostname b) then backendBase b ++ u
         else "http://localhost:5000" ++ u.
Proof.
  intros Hu. unfold getMediaUrl. by rewrite (proj2 (truthy_Some u) Hu).
Qed.

(** X21. [getMediaUrl] on its own result.  The result is empty exactly for a
    missing or empty path, and otherwise ends with the path.  Resolving a
    resolved URL again gives the same URL exactly when there was no path,
    or the URL starts with [http], or the base put before the path is
    empty: a base from [VITE_BACKEND_URL] that does not make the URL start
    with [http] is put before the URL a second time. *)
Theorem getMediaUrl_twice (b : Browser.t) (path : option string) :
  let url := getMediaUrl b path in
  (url = "" ↔ Js.truthy path = false) ∧
  (∀ p, path = Some p → ∃ base, url = base ++ p) ∧
  (getMediaUrl b (Some url) = url ↔
   Js.truthy path = false ∨ startsWith url "http" = true ∨ backendBase b = "").
Proof.
  cbn zeta.
  destruct (Js.truthy path) eqn:Hpath.
  2: { assert (getMediaUrl b path = "") as ->
         by (unfold getMediaUrl; by rewrite Hpath).
       split_and!; [by split| |split; [by left|done]].
       intros p ->. exists "". cbn in Hpath.
       destruct (String.eqb_spec p ""); [by subst|done]. }
  destruct path as [p|]; [|done].
  apply truthy_Some in Hpath.
  pose proof (getMediaUrl_Some b) as Hrun.
  rewrite (Hrun p Hpath).
  destruct (startsWith p "http") eqn:Hhttp.
  { split_and!; [by split|intros ? [= <-]; by exists ""|].
    rewrite (Hrun p Hpath), Hhttp. split; [auto|done]. }
  destruct (deployed (Browser.hostname b)) eqn:Hhost.
  - assert (backendBase b ++ p ≠ "") as Hne.
    { intros Heq. apply (f_equal String.length) in Heq.
      rewrite append_length in Heq. destruct p; [done|]. cbn in Heq. lia. }
    split_and!; [by split|intros ? [= <-]; by eexists|].
    rewrite (Hrun _ Hne). try rewrite Hhost.
    destruct (startsWith (backendBase b ++ p) "http") eqn:Hhttp';
      [split; [auto|done]|].
    split.
    + intros Heq%append_eq_self. auto.
    + intros [?|[?|Hbase]]; [done..|]. by rewrite Hbase.
  - split_and!; [by split|intros ? [= <-]; by eexists|].
    split; [auto|]. intros _. by rewrite Hrun.
Qed.

(** X22. One variable, two uses.  On a deployed page without [VITE_API_URL]
    whose host is not one of Render's, a [VITE_BACKEND_URL] that is set is
    the base of the API as it stands and is also put as it stands before
    every media path: the two bases are the same string.  Without the
    variable, on a host of Vercel, the base of the API is the base of the
    media followed by [/api]. *)
Theorem backend_url_is_api_base_and_media_base
    (b : Browser.t) (p : string)
    (Hapi : Js.truthy (Browser.VITE_API_URL b) = false)
    (Hhost : deployed (Browser.hostname b) = true)
    (Hrender : includes (Browser.hostname b) "vercel.app" = true ∨
               includes (Browser.hostname b) "onrender.com" = false)
    (Hp : p ≠ "") (Hrel : startsWith p "http" = false) :
  (∀ url, Browser.VITE_BACKEND_URL b = Some url → url ≠ "" →
          getApiUrl b = url ∧ getMediaUrl b (Some p) = url ++ p) ∧
  (Js.truthy (Browser.VITE_BACKEND_URL b) = false →
   includes (Browser.hostname b) "vercel.app" = true →
   getApiUrl b = backendBase b ++ "/api" ∧
   getMediaUrl b (Some p) = backendBase b ++ p).
Proof.
  assert (getMediaUrl b (Some p) = backendBase b ++ p) as Hmedia.
  { by rewrite getMediaUrl_Some, Hrel, Hhost. }
  split.
  - intros url Hurl Hne.
    assert (∀ d, Js.or_str (Browser.VITE_BACKEND_URL b) d = url) as Hor.
    { intros d. rewrite Hurl. cbn. by destruct (String.eqb_spec url ""). }
    split.
    + unfold getApiUrl. rewrite Hapi, Hhost, !Hor. cbn zeta.
      destruct Hrender as [-> | ->]; [done|].
      by destruct (includes (Browser.hostname b) "vercel.app").
    + rewrite Hmedia. unfold backendBase. by rewrite Hor.
  - intros Hunset Hvercel. split; [|exact Hmedia].
    unfold getApiUrl, backendBase. rewrite Hapi, Hvercel. cbn zeta.
    destruct (Browser.VITE_BACKEND_URL b) as [u|]; [|done].
    cbn in Hunset |- *. by destruct (String.eqb_spec u "").
Qed.

(** * The further properties on the sample data *)

Lemma sample_store_numbered quantity status paymentStatus stockReduced
    price stock inCart :
  numbered (sample_store [sample_order quantity status paymentStatus stockReduced]
              price stock inCart).
Proof. intros [|i] o Hi; [|done]. injection Hi as <-. reflexivity. Defined.

Lemma sample_store_empty_numbered price stock inCart :
  numbered (sample_store [] price stock inCart).
Proof. intros i o Hi. done. Defined.

Lemma sample_cart_products stock :
  Forall (λ item, ∀ p, CartItem.product item = RefProduct p →
                       is_Some (products (sample_store [] 600 stock 2) !! p))
    [CartItem.mk (RefProduct 1) None 0 2].
Proof.
  repeat constructor. intros p [= <-]. by exists (Product.mk "Shirt" 600 stock).
Defined.

(** X1 on the sample data.
    The webhook acknowledges a delivery it can do nothing with: the cart
    it names is empty. *)
Lemma webhook_always_acknowledges_witness :
  let s := sample_store [] 600 3 0 in
  WebhookReq.x_razorpay_signature sample_webhook
  = Some (hmac_sha256_hex sample_env (webhook_secret sample_env)
            (WebhookReq.body_json sample_webhook)) ∧
  (∃ status, (webhook sample_env sample_webhook s).1 = RReceived status) ∧
  (webhook sample_env sample_webhook s).2 = s.
Proof.
  cbn zeta. split; [reflexivity|]. split; [|vm_compute; reflexivity].
  apply (webhook_always_acknowledges sample_env sample_webhook
           (sample_store [] 600 3 0)).
  reflexivity.
Defined.

(** X2 on the sample data.
    The owner of a pending order asks for the confirmation: the store
    stays as it is and the answer is the error. *)
Lemma confirmPayment_never_confirms_witness :
  let s := sample_store [sample_order 2 "PENDING" "Pending" false] 600 3 0 in
  (confirmPayment 7 0 s).2 = s ∧
  (confirmPayment 7 0 s).1 = RThrown (ValidationError "status").
Proof.
  cbn zeta.
  destruct (confirmPayment_never_confirms 7 0
              (sample_store [sample_order 2 "PENDING" "Pending" false] 600 3 0))
    as [Hstore _].
  split; [exact Hstore|vm_compute; reflexivity].
Defined.

(** X3 on the sample data.
    A delivery that names the pending order 0 in its notes leaves the
    store as it is. *)
Lemma webhook_existing_order_never_settles_witness :
  let s := sample_store [sample_order 2 "PENDING" "Pending" false] 600 3 0 in
  let payment :=
    PaymentEntity.mk (Some "pay_1") (Some "order_1") (Some 7) (Some 0)
      (Some sample_address) in
  let req :=
    WebhookReq.mk
      (Some "hmac(placeholder,{event:payment.captured,payment:pay_1})")
      "{event:payment.captured,payment:pay_1}"
      (Some "payment.captured") (Some payment) in
  (webhook sample_env req s).2 = s ∧
  (webhook sample_env req s).1 = RReceived None.
Proof.
  cbn zeta. split; [|vm_compute; reflexivity].
  by apply (webhook_existing_order_never_settles sample_env _
              (PaymentEntity.mk (Some "pay_1") (Some "order_1") (Some 7) (Some 0)
                 (Some sample_address)) 0).
Defined.

(** X5 on the sample data.
    The enums after calls of every route. *)
Lemma schema_validity_is_kept_witness :
  let s := sample_store [sample_order 2 "PENDING" "Pending" false] 600 3 2 in
  schema_valid s ∧ schema_valid (run_all sample_env sample_calls s) ∧
  length (orders (run_all sample_env sample_calls s)) = 3.
Proof.
  cbn zeta.
  assert (schema_valid
            (sample_store [sample_order 2 "PENDING" "Pending" false] 600 3 2))
    as Hs.
  { unfold schema_valid, order_valid, payment_valid.
    apply (bool_decide_unpack _). vm_compute. exact I. }
  destruct (schema_validity_is_kept sample_env sample_calls _ Hs) as [Hkept _].
  split_and!; [exact Hs|exact Hkept|vm_compute; reflexivity].
Defined.

(** X7 on the sample data.
    The order numbers after calls of every route, three orders by then. *)
Lemma order_numbers_follow_the_count_witness :
  let s := sample_store [sample_order 2 "PENDING" "Pending" false] 600 3 2 in
  numbered s ∧
  (Order.orderNumber <$> orders (run_all sample_env sample_calls s))
  = ["TCS000001"; "TCS000002"; "TCS000003"] ∧
  ∀ i o, orders (run_all sample_env sample_calls s) !! i = Some o →
         Order.orderNumber o = orderNumber_for i.
Proof.
  cbn zeta.
  pose proof (sample_store_numbered 2 "PENDING" "Pending" false 600 3 2) as Hs.
  destruct (order_numbers_follow_the_count sample_env sample_calls _ Hs)
    as [Hnum _].
  split_and!; [exact Hs|vm_compute; reflexivity|exact Hnum].
Defined.



(** X13 on the sample data.
    A second payment for the cart the first one has turned into an order. *)
Lemma paid_cart_is_spent_witness :
  let s := sample_store [] 600 5 2 in
  let s1 := (verify sample_env 7 (sample_verify true) s).2 in
  (verify sample_env 7 (sample_verify true) s).1
  = RSuccess "Payment verified & order created" 0 "TCS000001" ∧
  ¬ already_settled (Some "pay_2") s1 ∧
  verify sample_env 7 sample_verify_second s1
  = (RThrown (Error "Cart is empty"), s1).
Proof.
  cbn zeta.
  assert ((verify sample_env 7 (sample_verify true) (sample_store [] 600 5 2)).1
          = RSuccess "Payment verified & order created" 0 "TCS000001") as Hfirst
    by (vm_compute; reflexivity).
  assert (¬ already_settled (Some "pay_2")
              (verify sample_env 7 (sample_verify true)
                 (sample_store [] 600 5 2)).2) as Hother.
  { intros [_ (id & o & Hl & Hp & _)]. vm_compute in Hl.
    destruct id as [|id]; [|by destruct id].
    injection Hl as <-. discriminate Hp. }
  split_and!; [exact Hfirst|exact Hother|].
  exact (paid_cart_is_spent sample_env 7 (sample_verify true)
           sample_verify_second _ 0 "TCS000001" Hfirst Hother eq_refl).
Defined.

(** X15 on the sample data.
    A paid order of two pieces, cancelled, moved back to PLACED and
    cancelled again: the stock of 3 ends at 7. *)
Lemma reopened_order_is_restocked_twice_witness :
  let s := sample_store [sample_order 2 "PAID" "Paid" true] 600 3 0 in
  let s1 := (cancel 7 false 0 None s).2 in
  let s2 := (updateStatus 0 (StatusReq.mk "PLACED" None None) s1).2 in
  let s3 := (cancel 7 false 0 None s2).2 in
  stock_of s 1 = Some 3%Z ∧ stock_of s1 1 = Some 5%Z ∧ stock_of s3 1 = Some 7%Z.
Proof.
  cbn zeta.
  destruct (reopened_order_is_restocked_twice 7 false 0 None None "PLACED" None
              (sample_store [sample_order 2 "PAID" "Paid" true] 600 3 0)
              (sample_order 2 "PAID" "Paid" true) eq_refl ltac:(by left)
              ltac:(apply (bool_decide_unpack _); vm_compute; exact I)
              ltac:(discriminate) eq_refl
              ltac:(apply (bool_decide_unpack _); vm_compute; exact I)
              ltac:(apply (bool_decide_unpack _); vm_compute; exact I)
              ltac:(apply (bool_decide_unpack _); vm_compute; exact I)
              ltac:(apply (bool_decide_unpack _); vm_compute; exact I))
    as (_ & H1 & H3).
  split_and!; [reflexivity|by rewrite H1|by rewrite H3].
Defined.

(** X16 on the sample data.
    [/verify] with an invoice generator that throws, and the same request
    again. *)
Lemma invoice_failure_is_recovered_by_retry_witness :
  let s := sample_store [] 600 3 2 in
  let s1 := (verify sample_env_no_invoice 7 (sample_verify true) s).2 in
  numbered s ∧ orders_with (Some "pay_1") s = 0 ∧
  (verify sample_env_no_invoice 7 (sample_verify true) s).1
  = RThrown InvoiceError ∧
  carts s1 = carts s ∧ stock_of s1 1 = Some 1%Z ∧
  verify sample_env_no_invoice 7 (sample_verify true) s1
  = (RSuccess "Payment already processed" 0 "TCS000001", s1).
Proof.
  cbn zeta.
  pose proof (sample_store_empty_numbered 600 3 2) as Hs.
  destruct (invoice_failure_is_recovered_by_retry sample_env_no_invoice 7
              (sample_verify true) (sample_store [] 600 3 2) "pay_1"
              [CartItem.mk (RefProduct 1) None 0 2] Hs eq_refl
              ltac:(discriminate) eq_refl eq_refl eq_refl ltac:(discriminate)
              (sample_cart_products 3) ltac:(done))
    as (Hr & _ & _ & Hc & Hagain).
  split_and!; [exact Hs|reflexivity|exact Hr|exact Hc|vm_compute; reflexivity|].
  exact Hagain.
Defined.


(** X18 on the sample data.
    The alerts of the sample store for a threshold of 0, which counts
    as 10. *)
Lemma stock_alerts_are_the_low_stock_list_witness :
  let s := sample_store [] 600 3 0 in
  let alerts := stockAlerts (Some 0%Z) s in
  stock_nonneg s ∧
  (StockAlerts.outOfStock alerts ++ StockAlerts.criticalStock alerts
   ++ StockAlerts.lowStock alerts)%list
  = [(1, Product.mk "Shirt" 600 3)] ∧
  StockAlerts.criticalCount alerts = 1.
Proof.
  cbn zeta.
  assert (stock_nonneg (sample_store [] 600 3 0)) as Hs
    by (apply sample_store_nonneg; lia).
  destruct (stock_alerts_are_the_low_stock_list (Some 0%Z) _ Hs)
    as (_ & _ & Hcut & _).
  split_and!; [exact Hs| |vm_compute; reflexivity].
  rewrite Hcut. vm_compute. reflexivity.
Defined.

(** X20 on the sample data.
    The list of user 7 around a soft delete of their order. *)
Lemma my_orders_hide_deleted_witness :
  let a1 := (softDelete ModelOrder 0 1 (Some "mistake") 0 sample_archive).2 in
  let a2 := (restoreDeleted ModelOrder 0 a1).2 in
  orders (store sample_archive) !! 0 = Some (sample_order 2 "PAID" "Paid" true) ∧
  (myOrders 7 sample_archive).2 = 1 ∧
  (myOrders 7 a1).1 = [] ∧
  myOrders 7 a2 = myOrders 7 sample_archive.
Proof.
  cbn zeta.
  destruct (my_orders_hide_deleted 7 0 1 (Some "mistake") 0 sample_archive
              (sample_order 2 "PAID" "Paid" true) eq_refl)
    as (_ & _ & Hdel & _ & Hres).
  split_and!; [reflexivity|vm_compute; reflexivity| |by apply Hres].
  rewrite Hdel. vm_compute. reflexivity.
Defined.

(** X4 on the sample data.
    An address without a house number is stored by both calls. *)
Lemma saveAddress_twice_witness :
  let a := Address.mk (Some "Asha") None (Some "9000000000") None None None
             (Some "Hyderabad") None (Some "500001") in
  let s := sample_store [] 600 3 0 in
  let s1 := (saveAddressToUserOnPaymentSuccess 7 (Some a) s).2 in
  let s2 := (saveAddressToUserOnPaymentSuccess 7 (Some a) s1).2 in
  s2 ≠ s1 ∧ (length <$> users s1 !! 7) = Some 1 ∧
  (length <$> users s2 !! 7) = Some 2.
Proof.
  cbn zeta. split; [|split; vm_compute; reflexivity].
  intros Heq.
  apply (saveAddress_twice 7
           (Address.mk (Some "Asha") None (Some "9000000000") None None None
              (Some "Hyderabad") None (Some "500001"))
           (sample_store [] 600 3 0)) in Heq as [H|[H|H]].
  - by apply H.
  - discriminate H.
  - discriminate H.
Defined.

(** X9 on the sample data.
    After calls of every route the first order is still about the same
    lines, and nothing has left the ledger. *)
Lemma orders_and_ledger_only_grow_witness :
  let o := sample_order 2 "PENDING" "Pending" false in
  let s := sample_store [o] 600 3 2 in
  let s' := run_all sample_env sample_calls s in
  (∃ o', orders s' !! 0 = Some o' ∧ Order.items o' = Order.items o ∧
         Order.status o' = "CANCELLED") ∧
  length (payments s') = 2.
Proof.
  cbn zeta. split; [|vm_compute; reflexivity].
  destruct (orders_and_ledger_only_grow sample_env sample_calls
              (sample_store [sample_order 2 "PENDING" "Pending" false] 600 3 2))
    as (_ & Hkept & _).
  destruct (Hkept 0 _ eq_refl) as (o' & Ho' & _ & Hitems & _).
  exists o'. split_and!; [exact Ho'|exact Hitems|].
  vm_compute in Ho'. by injection Ho' as <-.
Defined.

(** X11 on the sample data.
    The owner cancels a paid order of two pieces: the stock of 3 is 5
    afterwards; a stranger who tries leaves the store as it is. *)
Lemma cancel_is_all_or_nothing_witness :
  let o := sample_order 2 "PAID" "Paid" true in
  let s := sample_store [o] 600 3 0 in
  stock_of (cancel 7 false 0 None s).2 1 = Some 5%Z ∧
  (cancel 8 false 0 None s).2 = s.
Proof.
  cbn zeta. split.
  - destruct (cancel_is_all_or_nothing 7 false 0 None
                (sample_store [sample_order 2 "PAID" "Paid" true] 600 3 0))
      as [[_ Hno]|(o & c & Ho & _ & _ & _ & _ & _ & _ & _ & Hstock)].
    + exfalso. eapply Hno. vm_compute. reflexivity.
    + rewrite Hstock. injection Ho as <-. reflexivity.
  - destruct (cancel_is_all_or_nothing 8 false 0 None
                (sample_store [sample_order 2 "PAID" "Paid" true] 600 3 0))
      as [[Hsame _]|(o & c & Ho & _ & [Hu|Ha] & _)].
    + exact Hsame.
    + injection Ho as <-. discriminate Hu.
    + discriminate Ha.
Defined.

(** X12 on the sample data.
    An order of one piece is created; a request without lines is not. *)
Lemma createOrder_outcomes_witness :
  let s := sample_store [] 600 3 0 in
  let req := CreateOrderReq.mk [CartItem.mk (RefProduct 1) None 0 1]
               (Some sample_address) None in
  let r := createOrder 7 req s in
  (∃ o, r.1 = ROrder 201 (0, o) ∧ Order.status o = "CREATED" ∧
        products r.2 = products s) ∧
  (createOrder 7 (CreateOrderReq.mk [] (Some sample_address) None) s).2 = s.
Proof.
  cbn zeta. split.
  - destruct (createOrder_outcomes 7
                (CreateOrderReq.mk [CartItem.mk (RefProduct 1) None 0 1]
                   (Some sample_address) None)
                (sample_store [] 600 3 0))
      as [[_ Hno]|(o & Hr & Hs & _ & _ & _ & Hst & _)].
    + exfalso. eapply Hno. vm_compute. reflexivity.
    + exists o. split_and!; [exact Hr|exact Hst|by rewrite Hs].
  - destruct (createOrder_outcomes 7
                (CreateOrderReq.mk [] (Some sample_address) None)
                (sample_store [] 600 3 0))
      as [[Hsame _]|(o & _ & _ & Hitems & _)].
    + exact Hsame.
    + by destruct Hitems.
Defined.

(** X14 on the sample data.
    The transaction on a pending order: without a method it commits, with
    the method [Razorpay] it rolls back. *)
Lemma executePaymentTransaction_witness :
  let o := sample_order 2 "PENDING" "Pending" false in
  let s := sample_store [o] 600 3 0 in
  let data method :=
    PaymentData.mk (Some "pay_1") (Some "order_1") (Some "signature") (Some (IdOf 0))
      7 1200 method None None in
  (Order.paymentStatus <$>
     orders (executePaymentTransaction (0, o) (data None) true s).2 !! 0)
  = Some "Paid" ∧
  ∃ e, executePaymentTransaction (0, o) (data (Some "Razorpay")) true s
       = (inl e, s).
Proof.
  cbn zeta. split.
  - destruct (executePaymentTransaction_commits_or_rolls_back
                (0, sample_order 2 "PENDING" "Pending" false)
                (PaymentData.mk (Some "pay_1") (Some "order_1")
                   (Some "signature") (Some (IdOf 0)) 7 1200 None None None)
                true
                (sample_store [sample_order 2 "PENDING" "Pending" false] 600 3 0))
      as [[[e He]|(d & payment & _ & _ & Hd & Hpaid & _)] _].
    + exfalso. apply (f_equal fst) in He. vm_compute in He. discriminate He.
    + cbn [fst] in Hd. rewrite Hd. cbn. by rewrite Hpaid.
  - apply (executePaymentTransaction_commits_or_rolls_back
             (0, sample_order 2 "PENDING" "Pending" false)
             (PaymentData.mk (Some "pay_1") (Some "order_1")
                (Some "signature") (Some (IdOf 0)) 7 1200 (Some "Razorpay") None None)
             true
             (sample_store [sample_order 2 "PENDING" "Pending" false] 600 3 0)).
    reflexivity.
Defined.

(** X19 on the sample data.
    A product deleted with a reason keeps none; the restore clears the
    mark; a product that is not stored is not found. *)
Lemma soft_delete_then_restore_witness :
  let deleted := softDelete ModelProduct 1 9 (Some "old stock") 0 sample_archive in
  let restored := restoreDeleted ModelProduct 1 deleted.2 in
  Deletion.isDeleted (deletion_of ModelProduct 1 deleted.2) = true ∧
  Deletion.deletionReason (deletion_of ModelProduct 1 deleted.2) = None ∧
  deletion_of ModelProduct 1 restored.2 = Deletion.none ∧
  softDelete ModelProduct 2 9 None 0 sample_archive
  = (inl (Error "Product not found"), sample_archive).
Proof.
  cbn zeta. split_and!.
  - pose proof (soft_delete_then_restore ModelProduct 1 9 (Some "old stock") 0
                  sample_archive) as H.
    cbn zeta in H.
    assert (stored ModelProduct 1 sample_archive = true) as Hst
      by (vm_compute; reflexivity).
    rewrite Hst in H. destruct H as ((doc & _ & -> & Hdel & _) & _). exact Hdel.
  - vm_compute. reflexivity.
  - pose proof (soft_delete_then_restore ModelProduct 1 9 (Some "old stock") 0
                  sample_archive) as H.
    cbn zeta in H.
    assert (stored ModelProduct 1 sample_archive = true) as Hst
      by (vm_compute; reflexivity).
    rewrite Hst in H. destruct H as (_ & _ & Hnone & _). by apply Hnone.
  - pose proof (soft_delete_then_restore ModelProduct 2 9 None 0 sample_archive)
      as H.
    cbn zeta in H.
    assert (stored ModelProduct 2 sample_archive = false) as Hst
      by (vm_compute; reflexivity).
    rewrite Hst in H. destruct H as [Hdel _]. exact Hdel.
Defined.

(** X21 on the sample data.
    A protocol-relative base is put before the path twice. *)
Lemma getMediaUrl_twice_witness :
  let url := getMediaUrl sample_browser (Some "/uploads/shirt.jpg") in
  url = "//cdn.example.com/uploads/shirt.jpg" ∧
  getMediaUrl sample_browser (Some url) ≠ url ∧
  getMediaUrl sample_browser (Some "https://img.example.com/a.jpg")
  = "https://img.example.com/a.jpg" ∧
  getMediaUrl sample_browser None = "".
Proof.
  cbn zeta. split_and!; [reflexivity| |reflexivity..].
  intros Heq.
  apply (getMediaUrl_twice sample_browser (Some "/uploads/shirt.jpg")) in Heq
    as [H|[H|H]]; discriminate H.
Defined.

(** X22 on the sample data.
    The same build: the API and the media share the base. *)
Lemma backend_url_is_api_base_and_media_base_witness :
  includes "shop.example.com" "vercel.app" = false ∧
  includes "tcs.vercel.app" "vercel.app" = true ∧
  getApiUrl sample_browser = "//cdn.example.com" ∧
  getMediaUrl sample_browser (Some "/uploads/shirt.jpg")
  = "//cdn.example.com/uploads/shirt.jpg".
Proof.
  split; [reflexivity|]. split; [reflexivity|].
  destruct (backend_url_is_api_base_and_media_base sample_browser
              "/uploads/shirt.jpg" eq_refl eq_refl ltac:(by right)
              ltac:(discriminate) eq_refl) as [Hset _].
  exact (Hset "//cdn.example.com" eq_refl ltac:(discriminate)).
Defined.
